(** * Conversation orchestration layer of the chatbot relay

    A shallow embedding of the Python modules [greeting_checker],
    [assistant_handler], [handle_message], [handeling_User],
    [db_persistence_fixed], [main_simple] and [fast_message_handler],
    followed by the properties of the orchestration layer.

    Conventions.
    - Python [str] is [string], the UTF-8 bytes of its code points; a value
      that may be [None] is an [option].
    - A module-level dictionary is a [gmap] when only lookups matter and an
      association list when the code iterates over it.
    - A coroutine is run to completion by the caller that awaits it; calls to
      collaborators outside the repository (Graph API, OpenAI client, the
      database driver, the page configuration) are read from an environment
      of oracles, so every theorem holds for all their answers.
    - Clock readings are integers in milliseconds. *)

From Stdlib Require Import ZArith Lia Bool List Ascii String.
From stdpp Require Import gmap strings list fin_maps.
Import ListNotations.
Local Open Scope Z_scope.
Local Open Scope string_scope.

(** ** Python exceptions and results *)

Inductive exn : Type :=
| KeyError | TypeError | AttributeError | RuntimeError | ImportError
| ExternalError.   (* transport or service failure of a collaborator *)

(** [Diverge] marks a loop that used up its fuel; no [except] clause
    catches it. *)
Inductive outcome (A : Type) : Type :=
| Ok (a : A)
| Raise (e : exn)
| Diverge.
Arguments Ok {A} a.
Arguments Raise {A} e.
Arguments Diverge {A}.

(** What a collaborator answers: a value, or an exception. *)
Inductive answer (A : Type) : Type :=
| Returns (a : A)
| Raises (e : exn).
Arguments Returns {A} a.
Arguments Raises {A} e.

Definition of_answer {A} (a : answer A) : outcome A :=
  match a with
  | Returns x => Ok x
  | Raises e => Raise e
  end.

(** State and exception monad: a raised exception keeps the state reached
    so far, as mutations made before a Python exception persist. *)
Definition M (S A : Type) : Type := S -> outcome A * S.

Definition ret {S A} (a : A) : M S A := fun s => (Ok a, s).
Definition raise {S A} (e : exn) : M S A := fun s => (Raise e, s).
Definition bind {S A B} (c : M S A) (k : A -> M S B) : M S B :=
  fun s => match c s with
           | (Ok a, s') => k a s'
           | (Raise e, s') => (Raise e, s')
           | (Diverge, s') => (Diverge, s')
           end.
Definition diverge {S A} : M S A := fun s => (Diverge, s).
Definition get {S} : M S S := fun s => (Ok s, s).
Definition modify {S} (f : S -> S) : M S unit := fun s => (Ok tt, f s).
(** [try: c except Exception as e: h e] *)
Definition try_except {S A} (c : M S A) (h : exn -> M S A) : M S A :=
  fun s => match c s with
           | (Raise e, s') => h e s'
           | r => r
           end.
(** The answer of an effect-free collaborator. *)
Definition lift_answer {S A} (a : answer A) : M S A := fun s => (of_answer a, s).

Notation "'let!' x ':=' c 'in' k" := (bind c (fun x => k))
  (at level 10, x pattern, c at level 100, k at level 200).

(** ** Strings *)

(** [needle in hay] on Python strings. *)
Fixpoint str_in (needle hay : string) : bool :=
  String.prefix needle hay ||
  match hay with
  | EmptyString => false
  | String _ rest => str_in needle rest
  end.

(** A continuation byte [10xxxxxx] of UTF-8 and its six payload bits. *)
Definition continuation (a : ascii) : option N :=
  let b := N_of_ascii a in
  if ((128 <=? b) && (b <=? 191))%N then Some (b - 128)%N else None.

(** The code points of a Python string, decoded from its UTF-8 bytes:
    one byte below 128, two bytes from U+0080, three from U+0800, four
    from U+10000 to U+10FFFF.  A byte that starts no such sequence
    stands for the code point U+DC00 + byte, as under the error handler
    [surrogateescape]. *)
Fixpoint code_points (s : string) : list N :=
  match s with
  | EmptyString => []
  | String a0 s1 =>
    let b0 := N_of_ascii a0 in
    let stray := (56320 + b0)%N :: code_points s1 in
    if (b0 <? 128)%N then b0 :: code_points s1
    else
      match s1 with
      | EmptyString => stray
      | String a1 s2 =>
        match continuation a1 with
        | None => stray
        | Some c1 =>
          if ((194 <=? b0) && (b0 <=? 223))%N
          then ((b0 - 192) * 64 + c1)%N :: code_points s2
          else
            match s2 with
            | EmptyString => stray
            | String a2 s3 =>
              match continuation a2 with
              | None => stray
              | Some c2 =>
                let three := ((b0 - 224) * 4096 + c1 * 64 + c2)%N in
                if ((224 <=? b0) && (b0 <=? 239) && (2048 <=? three))%N
                then three :: code_points s3
                else
                  match s3 with
                  | EmptyString => stray
                  | String a3 s4 =>
                    match continuation a3 with
                    | None => stray
                    | Some c3 =>
                      let four := ((b0 - 240) * 262144 + c1 * 4096
                                   + c2 * 64 + c3)%N in
                      if ((240 <=? b0) && (b0 <=? 244) && (65536 <=? four)
                          && (four <=? 1114111))%N
                      then four :: code_points s4
                      else stray
                    end
                  end
              end
            end
        end
      end
  end.

(** [str.isspace()] on one code point, which is what [str.strip()]
    without arguments removes: the controls U+0009..U+000D and
    U+001C..U+001F, the space, U+0085, U+00A0, U+1680, U+2000..U+200A,
    U+2028, U+2029, U+202F, U+205F and U+3000. *)
Definition py_isspace (c : N) : bool :=
  ((9 <=? c) && (c <=? 13) || (28 <=? c) && (c <=? 32)
   || (c =? 133) || (c =? 160) || (c =? 5760)
   || (8192 <=? c) && (c <=? 8202)
   || (c =? 8232) || (c =? 8233) || (c =? 8239) || (c =? 8287)
   || (c =? 12288))%N.

(** [s.strip() == ""]: every code point of [s] is white space. *)
Definition strip_is_empty (s : string) : bool :=
  forallb py_isspace (code_points s).

(** Truth value of an optional string: [None] and [""] are false. *)
Definition truthy (o : option string) : bool :=
  match o with
  | Some (String _ _) => true
  | _ => false
  end.

(** [sep.join(l)] *)
Fixpoint join (sep : string) (l : list string) : string :=
  match l with
  | [] => ""
  | [x] => x
  | x :: rest => x +:+ sep +:+ join sep rest
  end.

(** [l[-n:]] for [n > 0] *)
Definition last_n {A} (n : nat) (l : list A) : list A :=
  skipn (length l - n) l.

(** The Instagram account of the Rodood page is served under the id of
    its Facebook page. *)
Definition instagram_page_id : string := "17841456783426236".
Definition facebook_page_id : string := "420350114484751".
Definition map_page_id (page_id : string) : string :=
  if String.eqb page_id instagram_page_id then facebook_page_id else page_id.

(** ** Response gate: [assistant_handler.check_greeting_message] and
       [greeting_checker.should_bot_respond] *)

(** A message of the Graph API: [msg['from']['id']] and [msg['message']],
    each possibly absent. *)
Record fb_message : Type := {
  from_id : option string;
  message : option string }.

(** Collaborators of the gate. *)
Record GateEnv : Type := {
  (** [dynamic_config.get_dynamic_greeting_message]; it answers [""] on
      every failure and [None] when the stored value is null. *)
  get_dynamic_greeting_message : string -> option string;
  (** [handle_message.get_conversation_id_for_user]: the answer of the
      Graph API, [None] when no conversation lists the user. *)
  get_conversation_id_for_user : string -> string -> answer (option string);
  (** [handle_message.get_messages_for_conversation]: the page of (at most
      4) messages answered by the Graph API; [None] stands for the [""]
      answered on a status other than 200. *)
  get_messages_for_conversation :
    string -> string -> answer (option (list fb_message));
  (** [unicodedata.normalize('NFC', _)] *)
  nfc : string -> string;
  (** The database branch of [should_bot_respond] (lines 134-382). *)
  db_greeting_check : string -> string -> string -> answer bool }.

Section Gate.
Variable G : GateEnv.

(** [message.get('message', '')] *)
Definition message_text (m : fb_message) : string :=
  default "" (message m).

(** One iteration of the search loop: raw containment, then containment
    after NFC normalisation. *)
Definition has_greeting (greeting : string) (m : fb_message) : bool :=
  str_in greeting (message_text m) ||
  str_in (nfc G greeting) (nfc G (message_text m)).

(** [[msg for msg in all_messages if msg.get('from', {}).get('id') == page_id]] *)
Definition bot_messages_of (page_id : string) (all_messages : list fb_message)
  : list fb_message :=
  List.filter (fun m => bool_decide (from_id m = Some page_id)) all_messages.

(** [bot_messages[-4:] if len(bot_messages) > 4 else bot_messages] *)
Definition last_bot_messages (bot_messages : list fb_message) : list fb_message :=
  if (4 <? length bot_messages)%nat then last_n 4 bot_messages else bot_messages.

(** [check_greeting_message]: [Returns false] activates the bot,
    [Returns true] keeps it silent. *)
Definition check_greeting_message (senderPSID page_id : string) : answer bool :=
  match get_dynamic_greeting_message G page_id with
  | None => Returns false
  | Some greeting =>
    if negb (truthy (Some greeting)) || strip_is_empty greeting then Returns false
    else
      match get_conversation_id_for_user G senderPSID page_id with
      | Raises e => Raises e
      | Returns conversation_id =>
        if negb (truthy conversation_id) then Returns false
        else
          match get_messages_for_conversation G (default "" conversation_id) page_id with
          | Raises e => Raises e
          | Returns all_messages =>
            let bot_messages := bot_messages_of page_id (default [] all_messages) in
            if existsb (has_greeting greeting) (last_bot_messages bot_messages)
            then Returns false
            else Returns true
          end
      end
  end.

(** The gate as the specification names it. *)
Definition shouldRespond (senderPSID page_id : string) : answer bool :=
  match check_greeting_message senderPSID page_id with
  | Returns silent => Returns (negb silent)
  | Raises e => Raises e
  end.

(** What the name [api_messages] of [should_bot_respond] can be bound
    to: the coroutine object made by calling an [async def] without
    awaiting it, or a list of messages. *)
Inductive pyobj : Type :=
| PyCoroutine
| PyMessages (l : list fb_message).

Definition py_bool (o : pyobj) : bool :=
  match o with
  | PyCoroutine => true
  | PyMessages l => negb (bool_decide (l = []))
  end.

Definition py_len (o : pyobj) : answer nat :=
  match o with
  | PyCoroutine => Raises TypeError
  | PyMessages l => Returns (length l)
  end.

Definition py_iter (o : pyobj) : answer (list fb_message) :=
  match o with
  | PyCoroutine => Raises TypeError
  | PyMessages l => Returns l
  end.

(** [get_messages_from_facebook_api] is an [async def] of three
    positional parameters; [should_bot_respond] is a plain [def] and
    calls it without [await].  With three arguments the call makes a
    coroutine object and runs nothing; with two, binding the arguments
    raises. *)
Definition call_get_messages_from_facebook_api (nargs : nat) : answer pyobj :=
  if (nargs =? 3)%nat then Returns PyCoroutine else Raises TypeError.

(** Lines 87-382 of [should_bot_respond], the body of the outer [try]. *)
Definition should_bot_respond_try (sender_id page_id : string) : answer bool :=
  match get_dynamic_greeting_message G page_id with
  | None => Returns true
  | Some greeting_message =>
    if negb (truthy (Some greeting_message)) || strip_is_empty greeting_message
    then Returns true
    else
      match call_get_messages_from_facebook_api 3 with
      | Raises e => Raises e
      | Returns api_messages =>
        if py_bool api_messages then
          match py_len api_messages with      (* the log line of 108-110 *)
          | Raises e => Raises e
          | Returns _ =>
            match py_iter api_messages with
            | Raises e => Raises e
            | Returns l =>
              Returns (existsb (fun m => str_in greeting_message (message_text m)) l)
            end
          end
        else db_greeting_check G sender_id page_id greeting_message
      end
  end.

(** Lines 384-413: the handler of the outer [try].  Its own lookup
    passes two arguments, so it raises and the inner handler falls
    through to [return True]. *)
Definition should_bot_respond (sender_id page_id : string) : bool :=
  match should_bot_respond_try sender_id page_id with
  | Returns b => b
  | Raises _ =>
    match call_get_messages_from_facebook_api 2 with
    | Returns _ => true     (* line 406 on a match, line 413 otherwise *)
    | _ => true        (* inner handler, then line 413 *)
    end
  end.
End Gate.

(** ** Conversation state *)

(** The dictionary [{"text": ...}] answered by [get_chatgpt_response]. *)
Inductive response : Type :=
| TextReply (s : string).

(** The ["content"] of a context entry: a string, or a whole response
    dictionary. *)
Inductive entry_content : Type :=
| AsText (s : string)
| AsResponse (r : response).

(** An entry [{"role": ..., "content": ...}] of [messages_context]. *)
Record context_message : Type := {
  role : string;
  content : entry_content }.

(** [last_message_time] holds [int(time.time())] until a save replaces it
    by [datetime.now().isoformat()]. *)
Inductive timestamp : Type :=
| UnixTime (seconds : Z)
| IsoTime (millis : Z).

(** The per-user dictionary kept in [user_state]; one field per key. *)
Record UserState : Type := {
  page_id : string;
  message_count : Z;
  label : list string;
  conversation : list string;
  conversation_id : option string;
  new_user : bool;
  thread_id : option string;
  run_id : option string;
  messages_context : list context_message;
  last_message_time : option timestamp;
  has_stop_message : bool;
  last_message : string;
  rank : option Z }.

Definition state_keys : list string :=
  ["page_id"; "message_count"; "label"; "conversation"; "conversation_id";
   "new_user"; "thread_id"; "run_id"; "messages_context";
   "last_message_time"; "has_stop_message"; "last_message"; "rank"].

Definition set_message_count (n : Z) (s : UserState) : UserState :=
  {| page_id := page_id s; message_count := n; label := label s;
     conversation := conversation s; conversation_id := conversation_id s;
     new_user := new_user s; thread_id := thread_id s; run_id := run_id s;
     messages_context := messages_context s;
     last_message_time := last_message_time s;
     has_stop_message := has_stop_message s; last_message := last_message s;
     rank := rank s |}.

Definition set_thread_id (t : option string) (s : UserState) : UserState :=
  {| page_id := page_id s; message_count := message_count s; label := label s;
     conversation := conversation s; conversation_id := conversation_id s;
     new_user := new_user s; thread_id := t; run_id := run_id s;
     messages_context := messages_context s;
     last_message_time := last_message_time s;
     has_stop_message := has_stop_message s; last_message := last_message s;
     rank := rank s |}.

Definition set_messages_context (c : list context_message) (s : UserState)
  : UserState :=
  {| page_id := page_id s; message_count := message_count s; label := label s;
     conversation := conversation s; conversation_id := conversation_id s;
     new_user := new_user s; thread_id := thread_id s; run_id := run_id s;
     messages_context := c;
     last_message_time := last_message_time s;
     has_stop_message := has_stop_message s; last_message := last_message s;
     rank := rank s |}.

Definition set_last_message_time (t : option timestamp) (s : UserState)
  : UserState :=
  {| page_id := page_id s; message_count := message_count s; label := label s;
     conversation := conversation s; conversation_id := conversation_id s;
     new_user := new_user s; thread_id := thread_id s; run_id := run_id s;
     messages_context := messages_context s;
     last_message_time := t;
     has_stop_message := has_stop_message s; last_message := last_message s;
     rank := rank s |}.

Definition set_has_stop_message (b : bool) (s : UserState) : UserState :=
  {| page_id := page_id s; message_count := message_count s; label := label s;
     conversation := conversation s; conversation_id := conversation_id s;
     new_user := new_user s; thread_id := thread_id s; run_id := run_id s;
     messages_context := messages_context s;
     last_message_time := last_message_time s;
     has_stop_message := b; last_message := last_message s;
     rank := rank s |}.

Definition set_last_message (m : string) (s : UserState) : UserState :=
  {| page_id := page_id s; message_count := message_count s; label := label s;
     conversation := conversation s; conversation_id := conversation_id s;
     new_user := new_user s; thread_id := thread_id s; run_id := run_id s;
     messages_context := messages_context s;
     last_message_time := last_message_time s;
     has_stop_message := has_stop_message s; last_message := m;
     rank := rank s |}.

Definition set_rank (r : option Z) (s : UserState) : UserState :=
  {| page_id := page_id s; message_count := message_count s; label := label s;
     conversation := conversation s; conversation_id := conversation_id s;
     new_user := new_user s; thread_id := thread_id s; run_id := run_id s;
     messages_context := messages_context s;
     last_message_time := last_message_time s;
     has_stop_message := has_stop_message s; last_message := last_message s;
     rank := r |}.

Definition set_page_id (p : string) (s : UserState) : UserState :=
  {| page_id := p; message_count := message_count s; label := label s;
     conversation := conversation s; conversation_id := conversation_id s;
     new_user := new_user s; thread_id := thread_id s; run_id := run_id s;
     messages_context := messages_context s;
     last_message_time := last_message_time s;
     has_stop_message := has_stop_message s; last_message := last_message s;
     rank := rank s |}.

(** [messages_context.append(entry)] *)
Definition append_context (e : context_message) (s : UserState) : UserState :=
  set_messages_context (messages_context s ++ [e]) s.

(** The literal of lines 265-279 and 296-310 of [assistant_handler]. *)
Definition fresh_state (page : string) (user_message : string) : UserState :=
  {| page_id := page; message_count := 1; label := []; conversation := [];
     conversation_id := None; new_user := true; thread_id := None;
     run_id := None; messages_context := []; last_message_time := None;
     has_stop_message := false; last_message := user_message; rank := None |}.

(** A row of the table [user_states]: the key column [sender_id] and the
    columns that mirror the dictionary ([page_id] among them). *)
Record Row : Type := {
  sender_id : string;
  columns : UserState }.

(** A value of [main_simple.user_threads]; the restoration at start-up
    may store [None] as the assistant. *)
Record thread_info : Type := {
  ti_thread_id : option string;
  ti_assistant_id : option string;
  ti_last_message : option string }.

(** ** The OpenAI client *)

Inductive run_status : Type :=
| queued | in_progress | requires_action | cancelling | cancelled
| failed | completed | incomplete | expired.

(** [status in ["queued", "in_progress"]] *)
Definition is_active (s : run_status) : bool :=
  match s with
  | queued | in_progress => true
  | _ => false
  end.

Record run : Type := {
  rid : string;          (* [run.id] *)
  status : run_status;
  created_at : Z }.      (* seconds, the clock of the service *)

(** A thread message: [role] and the [text.value] of each content block. *)
Record thread_message : Type := {
  tm_role : string;
  tm_content : list string }.

(** ** Effects *)

(** The requests that are logged: the POSTs of [callSendAPI], the calls
    of the OpenAI client, the sentiment analyses and the committed writes
    to [user_states].  Requests that only read (the page configuration,
    the Graph API look-ups of the gate, the connection to the database
    and its SELECTs) are answered by the environments and leave no entry
    in the log. *)
Inductive event : Type :=
| Sent (recipient page text : string)          (* POST of [callSendAPI] *)
| AssistantsRetrieve (assistant : string)
| ThreadsCreate
| MessagesCreate (thread text : string)
| RunsCreate (thread assistant : string)
| RunsRetrieve (thread run_ : string)
| RunsList (thread : string)
| MessagesList (thread : string)
| SentimentAnalysis (text : string)
| Saved (sender : string).                     (* committed write to [user_states] *)

(** The interpreter state: the clock, the module-level globals, the
    table [user_states] and the log of requests. *)
Record World : Type := {
  now : Z;                                  (* milliseconds *)
  tick : nat;                               (* blocking operations so far *)
  user_state : gmap string UserState;       (* [assistant_handler.user_state] *)
  main_user_state : gmap string UserState;  (* [main_simple.user_state] *)
  user_threads : gmap string thread_info;   (* [main_simple.user_threads] *)
  processed_message_ids : gset string;
  user_states : list Row;
  trace : list event }.

(** Answers of the collaborators.  An answer may depend on the number of
    blocking operations made so far, so successive calls may differ. *)
Record Env : Type := {
  get_max_messages : string -> Z;                 (* [config] *)
  get_end_message : string -> option string;      (* [config] *)
  get_assistant_id : string -> string;            (* [config] *)
  (** [dynamic_config.get_dynamic_assistant_id]: [None] when the page has
      no assistant or the look-up fails *)
  get_dynamic_assistant_id : string -> option string;
  get_greeting_message : string -> option string; (* [config] *)
  (** whether [from main_simple import user_threads] succeeds *)
  has_global_threads : bool;
  (** milliseconds taken by the k-th blocking operation *)
  latency : nat -> N;
  (** [get_db_connection()] answers a connection *)
  db_connect : nat -> bool;
  (** the POST made by [callSendAPI]; [Raises] is a transport exception *)
  post_message : nat -> string -> string -> string -> answer unit;
  (** [sentiment.sentiment_analysis]: the rank of a well-formed answer *)
  sentiment_analysis : nat -> string -> answer (option Z);
  (** the element [set.pop()] picks *)
  set_pop : gset string -> string;
  assistants_retrieve : nat -> string -> answer string;
  threads_create : nat -> answer string;
  messages_create : nat -> string -> string -> answer unit;
  runs_create : nat -> string -> string -> answer run;
  runs_retrieve : nat -> string -> string -> answer run;
  runs_list : nat -> string -> answer (list run);
  messages_list : nat -> string -> answer (list thread_message) }.

Definition set_clock (t : Z) (k : nat) (w : World) : World :=
  {| now := t; tick := k; user_state := user_state w;
     main_user_state := main_user_state w; user_threads := user_threads w;
     processed_message_ids := processed_message_ids w;
     user_states := user_states w; trace := trace w |}.

Definition set_user_state (m : gmap string UserState) (w : World) : World :=
  {| now := now w; tick := tick w; user_state := m;
     main_user_state := main_user_state w; user_threads := user_threads w;
     processed_message_ids := processed_message_ids w;
     user_states := user_states w; trace := trace w |}.

Definition set_main_user_state (m : gmap string UserState) (w : World) : World :=
  {| now := now w; tick := tick w; user_state := user_state w;
     main_user_state := m; user_threads := user_threads w;
     processed_message_ids := processed_message_ids w;
     user_states := user_states w; trace := trace w |}.

Definition set_user_threads (m : gmap string thread_info) (w : World) : World :=
  {| now := now w; tick := tick w; user_state := user_state w;
     main_user_state := main_user_state w; user_threads := m;
     processed_message_ids := processed_message_ids w;
     user_states := user_states w; trace := trace w |}.

Definition set_processed_message_ids (s : gset string) (w : World) : World :=
  {| now := now w; tick := tick w; user_state := user_state w;
     main_user_state := main_user_state w; user_threads := user_threads w;
     processed_message_ids := s;
     user_states := user_states w; trace := trace w |}.

Definition set_user_states (t : list Row) (w : World) : World :=
  {| now := now w; tick := tick w; user_state := user_state w;
     main_user_state := main_user_state w; user_threads := user_threads w;
     processed_message_ids := processed_message_ids w;
     user_states := t; trace := trace w |}.

Definition log (e : event) (w : World) : World :=
  {| now := now w; tick := tick w; user_state := user_state w;
     main_user_state := main_user_state w; user_threads := user_threads w;
     processed_message_ids := processed_message_ids w;
     user_states := user_states w; trace := trace w ++ [e] |}.

Section Effects.
Variable E : Env.

(** A blocking operation that lasts at least [d] milliseconds. *)
Definition advance (d : Z) (w : World) : World :=
  set_clock (now w + d + Z.of_N (latency E (tick w))) (S (tick w)) w.

(** [time.time()], in milliseconds. *)
Definition time_time : M World Z :=
  fun w => let w' := advance 0 w in (Ok (now w'), w').

(** [await asyncio.sleep(d)] and [time.sleep(d)] *)
Definition sleep (d : Z) : M World unit :=
  fun w => (Ok tt, advance d w).

(** A request to a collaborator: it is logged, takes time, and its answer
    is the oracle's for this moment. *)
Definition request {A} (e : event) (oracle : nat -> answer A) : M World A :=
  fun w => (of_answer (oracle (tick w)), advance 0 (log e w)).
End Effects.

(** ** AI session manager: [handeling_User.get_chatgpt_response] *)

(** The object a caller hands over as [user_state]: the dictionary
    [assistant_handler.user_state] itself, or the per-user dictionary
    stored in it under some sender (an alias, so that writes through it
    are writes to the stored entry). *)
Inductive user_state_arg : Type :=
| WholeUserState
| EntryOf (sender : string).

Definition error_message : string :=
  "عذراً، حدث خطأ في معالجة رسالتك. يرجى المحاولة مرة أخرى.".
Definition not_understood_message : string :=
  "عذراً، لم أفهم سؤالك جيدا ، اسأل بطريقة اخرى لأفهم ما تقصده".
Definition default_welcome_message : string :=
  "أهلاً
مبسوطين بتواصلك معانا 😊
نحب جدًا نحكى معك أكتر".

Section Session.
Variable E : Env.

(** [user_state[key]] followed by an access through [.get] or a
    subscript.  On the dictionary of all users the entry of [key] is
    found or [KeyError] is raised.  On a per-user dictionary the value
    under [key] is one of its fields (a string, a number, a boolean, a
    list or [None]), on which the access raises, or [key] is missing. *)
Definition getitem (arg : user_state_arg) (key : string) : M World UserState :=
  fun w =>
    match arg with
    | WholeUserState =>
      match user_state w !! key with
      | Some st => (Ok st, w)
      | None => (Raise KeyError, w)
      end
    | EntryOf _ =>
      if bool_decide (key ∈ state_keys) then (Raise AttributeError, w)
      else (Raise KeyError, w)
    end.

(** [user_state[key][field] = ...] and [user_state[key][field].append(...)] *)
Definition update (arg : user_state_arg) (key : string)
           (f : UserState -> UserState) : M World unit :=
  let! st := getitem arg key in
  modify (fun w => set_user_state (<[key := f st]> (user_state w)) w).

(** [user_threads[key]['last_message'] = v] *)
Definition set_thread_last_message (key v : string) : M World unit :=
  fun w =>
    match user_threads w !! key with
    | Some ti =>
      (Ok tt,
       set_user_threads
         (<[key := {| ti_thread_id := ti_thread_id ti;
                      ti_assistant_id := ti_assistant_id ti;
                      ti_last_message := Some v |}]> (user_threads w)) w)
    | None => (Raise KeyError, w)
    end.

Definition load_client_assistant (assistant_id : string) : M World string :=
  request E (AssistantsRetrieve assistant_id)
          (fun k => assistants_retrieve E k assistant_id).

Definition retrieve_run (thread : string) (r : run) : M World run :=
  request E (RunsRetrieve thread (rid r))
          (fun k => runs_retrieve E k thread (rid r)).

(** Lines 128-138: the poll loop of a new thread; its timeout is
    measured from [run.created_at]. *)
Fixpoint poll_new_thread_run (fuel : nat) (thread : string) (r : run)
  : M World run :=
  if is_active (status r) then
    match fuel with
    | O => diverge
    | S fuel' =>
      let! _ := sleep E 500 in
      let! r' := retrieve_run thread r in
      let! t := time_time E in
      if (20000 <=? t - 1000 * created_at r')%Z then ret r'
      else poll_new_thread_run fuel' thread r'
    end
  else ret r.

(** Lines 198-206: wait for a run found active on the thread. *)
Fixpoint wait_for_active_run (fuel : nat) (thread : string) (start_time : Z)
         (active_run : run) : M World run :=
  if is_active (status active_run) then
    match fuel with
    | O => diverge
    | S fuel' =>
      let! active_run' := retrieve_run thread active_run in
      let! t := time_time E in
      if (20000 <? t - start_time)%Z then ret active_run'
      else
        let! _ := sleep E 500 in
        wait_for_active_run fuel' thread start_time active_run'
    end
  else ret active_run.

(** Lines 220-230: the poll loop of the handler's own run. *)
Fixpoint poll_run (fuel : nat) (thread : string) (start_time : Z) (r : run)
  : M World run :=
  if is_active (status r) then
    match fuel with
    | O => diverge
    | S fuel' =>
      let! _ := sleep E 500 in
      let! r' := retrieve_run thread r in
      let! t := time_time E in
      if (20000 <? t - start_time)%Z then ret r'
      else poll_run fuel' thread start_time r'
    end
  else ret r.

(** The text of the latest thread message when it is the assistant's:
    [messages.data[0].content[0].text.value]. *)
Definition latest_assistant_text (data : list thread_message) : option string :=
  match data with
  | latest_message :: _ =>
    if String.eqb (tm_role latest_message) "assistant"
    then head (tm_content latest_message)
    else None
  | [] => None
  end.

(** Lines 141-170 and 233-269: read the reply of a completed run,
    record it and answer it.  [None] when no reply was found. *)
Definition collect_reply (arg : user_state_arg) (senderPSID conversation_key
    thread user_message : string) (check_echo : bool) (r : run)
  : M World (option response) :=
  match status r with
  | completed =>
    let! data := request E (MessagesList thread)
                         (fun k => messages_list E k thread) in
    match latest_assistant_text data with
    | Some assistant_response =>
      let! _ := update arg senderPSID (set_last_message assistant_response) in
      let! _ := (if has_global_threads E
                 then set_thread_last_message conversation_key assistant_response
                 else ret tt) in
      let! _ := update arg senderPSID
                  (append_context {| role := "assistant";
                                     content := AsText assistant_response |}) in
      if check_echo && String.eqb user_message assistant_response
      then ret (Some (TextReply not_understood_message))
      else ret (Some (TextReply assistant_response))
    | None => ret None
    end
  | _ => ret None
  end.

(** Lines 76-176: no thread yet. *)
Definition new_thread (fuel : nat) (arg : user_state_arg)
    (user_message senderPSID page conversation_key assistant_id my_assistant
     : string) : M World response :=
  let! user_thread_id := request E ThreadsCreate (threads_create E) in
  let! _ := update arg senderPSID (set_thread_id (Some user_thread_id)) in
  let! _ := (if has_global_threads E
             then modify (fun w => set_user_threads
                    (<[conversation_key :=
                         {| ti_thread_id := Some user_thread_id;
                            ti_assistant_id := Some assistant_id;
                            ti_last_message := None |}]> (user_threads w)) w)
             else ret tt) in
  let greeting_message := get_greeting_message E page in
  let welcome_message :=
    if truthy greeting_message then default "" greeting_message
    else default_welcome_message in
  let! _ := update arg senderPSID
              (append_context {| role := "assistant";
                                 content := AsText welcome_message |}) in
  let! _ := request E (MessagesCreate user_thread_id user_message)
                    (fun k => messages_create E k user_thread_id user_message) in
  let! _ := update arg senderPSID
              (append_context {| role := "user";
                                 content := AsText user_message |}) in
  let! r := request E (RunsCreate user_thread_id my_assistant)
                    (fun k => runs_create E k user_thread_id my_assistant) in
  let! r := poll_new_thread_run fuel user_thread_id r in
  let! reply := collect_reply arg senderPSID conversation_key user_thread_id
                              user_message false r in
  match reply with
  | Some respond => ret respond
  | None => ret (TextReply error_message)
  end.

(** Lines 190-206: look for a run that is active on the thread and wait
    for it.  The answer is [active_run] as the loop leaves it, [None]
    when no run was active. *)
Definition await_active_run (fuel : nat) (user_thread_id : string)
  : M World (option run) :=
  let! runs := request E (RunsList user_thread_id)
                       (fun k => runs_list E k user_thread_id) in
  match List.find (fun r => is_active (status r)) runs with
  | Some active_run =>
    let! start_time := time_time E in
    let! active_run := wait_for_active_run fuel user_thread_id start_time
                                           active_run in
    ret (Some active_run)
  | None => ret None
  end.

(** Lines 178-275: the thread exists. *)
Definition existing_thread (fuel : nat) (arg : user_state_arg)
    (user_message senderPSID conversation_key my_assistant user_thread_id
     : string) : M World response :=
  let! _ := update arg senderPSID
              (append_context {| role := "user";
                                 content := AsText user_message |}) in
  let! _ := await_active_run fuel user_thread_id in
  let! _ := request E (MessagesCreate user_thread_id user_message)
                    (fun k => messages_create E k user_thread_id user_message) in
  let! r := request E (RunsCreate user_thread_id my_assistant)
                    (fun k => runs_create E k user_thread_id my_assistant) in
  let! start_time := time_time E in
  let! r := poll_run fuel user_thread_id start_time r in
  let! reply := collect_reply arg senderPSID conversation_key user_thread_id
                              user_message true r in
  match reply with
  | Some respond => ret respond
  | None => ret (TextReply error_message)
  end.

(** Lines 29-76: choose the thread, then one of the two cases; every
    exception ends in the fixed error reply (lines 277-280). *)
Definition get_chatgpt_response (fuel : nat) (user_message : string)
    (arg : user_state_arg) (senderPSID page : string) : M World response :=
  try_except
    (let assistant_id := get_assistant_id E page in
     let! my_assistant := load_client_assistant assistant_id in
     let conversation_key := senderPSID +:+ "_" +:+ page in
     let! st := getitem arg senderPSID in
     let existing_thread_id := thread_id st in
     let! existing_thread_id :=
       (if has_global_threads E then
          let! w := get in
          match user_threads w !! conversation_key with
          | Some ti =>
            if truthy (ti_thread_id ti) then
              let! _ := update arg senderPSID (set_thread_id (ti_thread_id ti)) in
              ret (ti_thread_id ti)
            else ret existing_thread_id
          | None => ret existing_thread_id
          end
        else ret existing_thread_id) in
     let! _ :=
       (if truthy existing_thread_id then
          let! _ := update arg senderPSID (set_thread_id existing_thread_id) in
          if has_global_threads E then
            let! st := getitem arg senderPSID in
            modify (fun w => set_user_threads
              (<[conversation_key :=
                   {| ti_thread_id := existing_thread_id;
                      ti_assistant_id := Some assistant_id;
                      ti_last_message := Some (last_message st) |}]>
                 (user_threads w)) w)
          else ret tt
        else ret tt) in
     let! st := getitem arg senderPSID in
     match thread_id st with
     | None =>
       new_thread fuel arg user_message senderPSID page conversation_key
                  assistant_id my_assistant
     | Some user_thread_id =>
       existing_thread fuel arg user_message senderPSID conversation_key
                       my_assistant user_thread_id
     end)
    (fun _ => ret (TextReply error_message)).
End Session.

(** ** Conversation store: [db_persistence_fixed.save_user_state_to_db] *)

Section Store.
Variable E : Env.

(** [get_db_connection()]: a connection, or [None]. *)
Definition get_db_connection : M World bool :=
  fun w => (Ok (db_connect E (tick w)), advance E 0 w).

(** [SELECT COUNT( * ) FROM user_states WHERE sender_id = %s], [> 0] *)
Definition user_exists (sender : string) (table : list Row) : bool :=
  existsb (fun r => bool_decide (sender_id r = sender)) table.

(** The values bound to the statement: the dictionary with the new
    time stamp; [state.get('Rank')] finds no such key. *)
Definition saved_columns (state : UserState) : UserState :=
  set_rank None state.

(** [UPDATE user_states SET page_id = %s, ... WHERE sender_id = %s] *)
Definition update_rows (sender : string) (state : UserState) (table : list Row)
  : list Row :=
  map (fun r => if bool_decide (sender_id r = sender)
                then {| sender_id := sender_id r; columns := saved_columns state |}
                else r) table.

(** [INSERT INTO user_states (sender_id, page_id, ...) VALUES (...)] *)
Definition insert_row (sender : string) (state : UserState) (table : list Row)
  : list Row :=
  table ++ [{| sender_id := sender; columns := saved_columns state |}].

(** One pass of the retry loop of lines 23-165, [attempt] counting from
    0 and [remaining] passes left after this one.  The dictionary
    [state] is mutated in place; its new value is answered alongside
    the status. *)
Fixpoint save_attempts (remaining attempt : nat) (sender : string)
         (state : UserState) : M World (bool * UserState) :=
  let! conn := get_db_connection in
  if conn then
    let! w := get in
    let! current_time := time_time E in
    let state' := set_last_message_time (Some (IsoTime current_time)) state in
    let table' := if user_exists sender (user_states w)
                  then update_rows sender state' (user_states w)
                  else insert_row sender state' (user_states w) in
    let! _ := modify (fun w => log (Saved sender) (set_user_states table' w)) in
    ret (true, state')
  else
    match remaining with
    | O => ret (false, state)
    | S remaining' =>
      let! _ := sleep E (1000 * 2 ^ Z.of_nat attempt) in
      save_attempts remaining' (S attempt) sender state
    end.

Definition save_user_state_to_db (sender : string) (state : UserState)
  : M World (bool * UserState) :=
  save_attempts 2 0 sender state.
End Store.

(** ** Turn processor: [assistant_handler.get_assistant_response] *)

(** The webhook message: [mid], [text] and whether it has [attachments]. *)
Record received_message : Type := {
  mid : option string;
  text : option string;
  attachments : bool }.

Inductive handler_result : Type :=
| DUPLICATE_MESSAGE                 (* [("DUPLICATE_MESSAGE", 200)] *)
| END_OF_CONVERSATION               (* [("END_OF_CONVERSATION", 200)] *)
| Replied (r : response)            (* the dictionary of the AI step *)
| Acknowledged (s : string).        (* a fixed acknowledgement *)

Definition default_end_message : string :=
  "Thank you for chatting with us today. We've reached the end of our conversation.".
Definition attachment_message : string :=
  "I've received your attachment. If you have any specific questions about it, please let me know.".
Definition fallback_message : string :=
  "I didn't understand your message. Please try sending a text message.".

Definition reply_text (r : response) : string :=
  match r with TextReply s => s end.

Section Handler.
Variable G : GateEnv.
Variable E : Env.

(** [callSendAPI]: the POST; a transport exception is raised again. *)
Definition callSendAPI (senderPsid : string) (r : response) (page : string)
  : M World unit :=
  request E (Sent senderPsid page (reply_text r))
          (fun k => post_message E k senderPsid page (reply_text r)).

(** [set.pop()]: some element leaves the set; [None] is [KeyError]. *)
Definition pop (s : gset string) : option (string * gset string) :=
  match elements s with
  | [] => None
  | x0 :: _ =>
    let x := if bool_decide (set_pop E s ∈ s) then set_pop E s else x0 in
    Some (x, s ∖ {[x]})
  end.

(** [for _ in range(n): processed_message_ids.pop()] inside
    [try ... except KeyError: pass] *)
Fixpoint pop_many (n : nat) (s : gset string) : gset string :=
  match n with
  | O => s
  | S n' =>
    match pop s with
    | Some (_, s') => pop_many n' s'
    | None => s
    end
  end.

(** Lines 186-202: [true] when the message was seen before. *)
Definition check_duplicate (message_id : option string) : M World bool :=
  if truthy message_id then
    let m := default "" message_id in
    let! w := get in
    if bool_decide (m ∈ processed_message_ids w) then ret true
    else
      let s := {[m]} ∪ processed_message_ids w in
      let s := if (1000 <? size s)%nat then pop_many 100 s else s in
      let! _ := modify (set_processed_message_ids s) in
      ret false
  else ret false.

(** [cursor.fetchone()] of the [SELECT ... WHERE sender_id = %s AND
    page_id = %s] of lines 216-223 *)
Definition fetch_user_row (sender page : string) (table : list Row)
  : option Row :=
  List.find (fun r => bool_decide (sender_id r = sender)
                      && bool_decide (page_id (columns r) = page)) table.

(** Lines 242-255: the dictionary built from a row; it has no key
    [last_message_time]. *)
Definition state_of_row (page : string) (r : Row) : UserState :=
  set_last_message_time None (set_page_id page (columns r)).

Definition store_entry (sender : string) (st : UserState) : M World unit :=
  modify (fun w => set_user_state (<[sender := st]> (user_state w)) w).

(** Lines 207-310: load the state from the table or start a fresh one.
    The answer of the greeting check is bound to a local name that no
    later line reads.  The SELECT and the look-ups of the greeting check
    (the page configuration, the Graph API) read the environments; they
    are not entries of the log. *)
Definition load_user_state (senderPSID page user_message : string)
  : M World unit :=
  let! _ :=
    try_except
      (let! conn := get_db_connection E in
       if conn then
         let! w := get in
         match fetch_user_row senderPSID page (user_states w) with
         | Some user_row => store_entry senderPSID (state_of_row page user_row)
         | None =>
           let! greeting_response :=
             lift_answer (check_greeting_message G senderPSID page) in
           store_entry senderPSID (fresh_state page user_message)
         end
       else ret tt)
      (fun _ => ret tt) in
  let! w := get in
  match user_state w !! senderPSID with
  | Some _ => ret tt
  | None => store_entry senderPSID (fresh_state page user_message)
  end.

(** [await save_user_state_to_db(senderPSID, user_state[senderPSID])]:
    the callee mutates the stored dictionary. *)
Definition save_entry (senderPSID : string) : M World unit :=
  let! st := getitem WholeUserState senderPSID in
  let! saved := save_user_state_to_db E senderPSID st in
  store_entry senderPSID (snd saved).

(** Lines 325-328: the configured end message, or the built-in one. *)
Definition end_message_for (page : string) : string :=
  if truthy (get_end_message E page) then default "" (get_end_message E page)
  else default_end_message.

(** Lines 321-339: the end of the conversation. *)
Definition end_conversation (senderPSID page : string) : M World handler_result :=
  let end_message := end_message_for page in
  let! _ := callSendAPI senderPSID (TextReply end_message) page in
  let! _ := update WholeUserState senderPSID (set_message_count 0) in
  let! _ := update WholeUserState senderPSID (set_has_stop_message true) in
  let! _ := save_entry senderPSID in
  ret END_OF_CONVERSATION.

(** Lines 341-393: the AI step and the context update. *)
Definition answer_turn (fuel : nat) (senderPSID page user_message : string)
  : M World handler_result :=
  let! response :=
    get_chatgpt_response E fuel user_message (EntryOf senderPSID)
                         senderPSID page in
  let! _ := update WholeUserState senderPSID
              (append_context {| role := "user";
                                 content := AsText user_message |}) in
  let! _ := update WholeUserState senderPSID
              (append_context {| role := "assistant";
                                 content := AsResponse response |}) in
  let! t := time_time E in
  let! _ := update WholeUserState senderPSID
              (set_last_message_time (Some (UnixTime (t / 1000)))) in
  let! _ :=
    try_except
      (let! sentiment_result :=
         request E (SentimentAnalysis user_message)
                 (fun k => sentiment_analysis E k user_message) in
       match sentiment_result with
       | Some r => update WholeUserState senderPSID (set_rank (Some r))
       | None => ret tt
       end)
      (fun _ => ret tt) in
  let! _ := save_entry senderPSID in
  ret (Replied response).

(** Lines 312-393: count the turn, then end the conversation or answer. *)
Definition process_text (fuel : nat) (senderPSID page user_message : string)
  : M World handler_result :=
  let! _ := update WholeUserState senderPSID
              (fun st => set_message_count (message_count st + 1) st) in
  let! _ := update WholeUserState senderPSID (set_last_message user_message) in
  let! st := getitem WholeUserState senderPSID in
  let! _ := (if has_stop_message st
             then update WholeUserState senderPSID (set_has_stop_message false)
             else ret tt) in
  let max_messages := get_max_messages E page in
  let! st := getitem WholeUserState senderPSID in
  if (max_messages <? message_count st)%Z
  then end_conversation senderPSID page
  else answer_turn fuel senderPSID page user_message.

Definition get_assistant_response (fuel : nat) (senderPSID : string)
    (Recieved_Message : received_message) (page_id : string)
  : M World handler_result :=
  let page := map_page_id page_id in
  let! duplicate := check_duplicate (mid Recieved_Message) in
  if duplicate then ret DUPLICATE_MESSAGE
  else
    match text Recieved_Message with
    | Some user_message =>
      let! _ := load_user_state senderPSID page user_message in
      process_text fuel senderPSID page user_message
    | None =>
      if attachments Recieved_Message then
        let! _ := callSendAPI senderPSID (TextReply attachment_message) page in
        ret (Acknowledged attachment_message)
      else
        let! _ := callSendAPI senderPSID (TextReply fallback_message) page in
        ret (Acknowledged fallback_message)
    end.
End Handler.

(** ** Batching queue: [handle_message.merge_user_messages] and the sweep
       [process_message_queue_after_delay] *)

(** A value of [messages_queue]. *)
Record batch : Type := {
  batch_page_id : string;                 (* ['page_id'] *)
  user_messages_queue : list string;
  first_message_time : Z }.               (* seconds *)

(** [messages_queue], in insertion order: the sweeps iterate over it. *)
Definition queue : Type := list (string * batch).

Fixpoint queue_get (k : string) (q : queue) : option batch :=
  match q with
  | [] => None
  | (k', b) :: rest => if String.eqb k k' then Some b else queue_get k rest
  end.

(** [del messages_queue[k]] *)
Fixpoint queue_del (k : string) (q : queue) : queue :=
  match q with
  | [] => []
  | (k', b) :: rest =>
    if String.eqb k k' then queue_del k rest else (k', b) :: queue_del k rest
  end.

(** [messages_queue[k] = b]: in place when the key is there, else at the
    end. *)
Fixpoint queue_set (k : string) (b : batch) (q : queue) : queue :=
  match q with
  | [] => [(k, b)]
  | (k', b') :: rest =>
    if String.eqb k k' then (k, b) :: rest else (k', b') :: queue_set k b rest
  end.

Definition append_message (m : string) (b : batch) : batch :=
  {| batch_page_id := batch_page_id b;
     user_messages_queue := user_messages_queue b ++ [m];
     first_message_time := first_message_time b |}.

(** [{'text': s}] *)
Definition text_message (s : string) : received_message :=
  {| mid := None; text := Some s; attachments := false |}.

Section Queue.
(** The rest of the interpreter state, its clock (milliseconds) and the
    turn processor the batches are handed to. *)
Variable W : Type.
Variable clock : W -> Z * W.
Variable handler : string -> received_message -> string -> M W handler_result.

Definition QState : Type := queue * W.

Definition read_clock : M QState Z :=
  fun s => let (t, w) := clock (snd s) in (Ok t, (fst s, w)).

Definition get_queue : M QState queue := fun s => (Ok (fst s), s).
Definition set_queue (f : queue -> queue) : M QState unit :=
  fun s => (Ok tt, (f (fst s), snd s)).

(** [messages_queue[k]] *)
Definition queue_item (k : string) : M QState batch :=
  let! q := get_queue in
  match queue_get k q with
  | Some b => ret b
  | None => raise KeyError
  end.

(** [await get_assistant_response(sender, {'text': m}, page)] *)
Definition call_handler (sender m page : string) : M QState unit :=
  fun s => match handler sender (text_message m) page (snd s) with
           | (Ok _, w) => (Ok tt, (fst s, w))
           | (Raise e, w) => (Raise e, (fst s, w))
           | (Diverge, w) => (Diverge, (fst s, w))
           end.

(** The call guarded by [if merged_message_copy:]. *)
Definition hand_over (sender m page : string) : M QState unit :=
  if truthy (Some m) then call_handler sender m page else ret tt.

(** Lines 263-271: put the message at the end of the sender's batch,
    which is created when missing. *)
Definition add_message (senderPSID page m : string) (current_unix_time : Z)
  : M QState unit :=
  let! q := get_queue in
  let! _ := (match queue_get senderPSID q with
             | Some _ => ret tt
             | None =>
               set_queue (queue_set senderPSID
                            {| batch_page_id := page;
                               user_messages_queue := [];
                               first_message_time := current_unix_time |})
             end) in
  let! b := queue_item senderPSID in
  set_queue (queue_set senderPSID (append_message m b)).

(** Lines 275-306: flush the sender's batch when it is due. *)
Definition flush_batch (senderPSID page : string) (current_unix_time : Z)
           (max_time : Z) (max_messages : nat) : M QState unit :=
  let! b := queue_item senderPSID in
  let! due :=
    (if (max_messages <=? length (user_messages_queue b))%nat then ret true
     else let! t := read_clock in
          ret (max_time <=? t - 1000 * current_unix_time)%Z) in
  if due : bool then
    let merged_message := join " " (user_messages_queue b) in
    let! _ := set_queue (queue_del senderPSID) in
    hand_over senderPSID merged_message page
  else ret tt.

(** Lines 311-342: the loop over the dictionary.  The first batch of
    exactly one message is handed over; as its key was deleted, the
    iterator raises when it is advanced. *)
Fixpoint flush_single_batches (keys : list string) (page : string)
  : M QState unit :=
  match keys with
  | [] => ret tt
  | k :: rest =>
    let! b := queue_item k in
    match user_messages_queue b with
    | [user_msg] =>
      let! _ := set_queue (queue_del k) in
      let! _ := hand_over k user_msg page in
      raise RuntimeError
    | _ => flush_single_batches rest page
    end
  end.

(** Lines 308-345. *)
Definition flush_single (senderPSID page : string) (current_unix_time : Z)
           (max_time : Z) (max_messages : nat) : M QState unit :=
  let! b := queue_item senderPSID in
  let! due :=
    (if (length (user_messages_queue b) <? max_messages)%nat
     then let! t := read_clock in
          ret (max_time <=? t - 1000 * current_unix_time)%Z
     else ret false) in
  if due : bool then
    let! q := get_queue in
    flush_single_batches (map fst q) page
  else ret tt.

(** [merge_user_messages]; [max_time] in milliseconds.  Every path
    answers [("EVENT_RECEIVED", 200)]. *)
Definition merge_user_messages (senderPSID : string)
    (received : received_message) (page_id : string)
    (max_time : Z) (max_messages : nat) : M QState unit :=
  let page := map_page_id page_id in
  let! t := read_clock in
  let current_unix_time := (t / 1000)%Z in
  match text received with
  | Some m =>
    try_except
      (let! _ := add_message senderPSID page m current_unix_time in
       let! _ := flush_batch senderPSID page current_unix_time
                             max_time max_messages in
       flush_single senderPSID page current_unix_time max_time max_messages)
      (fun _ => ret tt)
  | None => ret tt
  end.

(** The batches the sweep picks: one message, first seen at least two
    seconds ago (lines 364-377). *)
Definition users_to_analyze (current_time : Z) (q : queue) : queue :=
  List.filter
    (fun kb => match user_messages_queue (snd kb) with
               | [_] => (2 <=? current_time - first_message_time (snd kb))%Z
               | _ => false
               end) q.

(** Lines 380-416: hand each picked batch over and delete it; a batch
    whose turn raised is kept. *)
Fixpoint sweep_batches (picked : queue) : M QState unit :=
  match picked with
  | [] => ret tt
  | (k, user_info) :: rest =>
    let! _ :=
      try_except
        (let! _ := call_handler k (default "" (head (user_messages_queue user_info)))
                                (map_page_id (batch_page_id user_info)) in
         set_queue (queue_del k))
        (fun _ => ret tt) in
    sweep_batches rest
  end.

(** One round of [process_message_queue_after_delay]. *)
Definition sweep : M QState unit :=
  let! t := read_clock in
  let! q := get_queue in
  sweep_batches (users_to_analyze (t / 1000) q).
End Queue.

(** ** Restoration at start-up: [main_simple.restore_user_states_from_database] *)

Section Restore.
Variable E : Env.

(** Lines 90-103: the dictionary restored from a row. *)
Definition restored_state (r : Row) : UserState :=
  set_last_message_time None (columns r).

(** Lines 79-114: one row. *)
Definition restore_row (w : World) (r : Row) : World :=
  let w := set_main_user_state
             (<[sender_id r := restored_state r]> (main_user_state w)) w in
  if truthy (thread_id (columns r)) then
    let thread_key := sender_id r +:+ "+" +:+ page_id (columns r) in
    set_user_threads
      (<[thread_key :=
           {| ti_thread_id := thread_id (columns r);
              ti_assistant_id := get_dynamic_assistant_id E (page_id (columns r));
              ti_last_message := Some (last_message (columns r)) |}]>
         (user_threads w)) w
  else w.

(** [WHERE is_new_user = false OR message_count > 0] *)
Definition is_active_row (r : Row) : bool :=
  negb (new_user (columns r)) || (0 <? message_count (columns r))%Z.

Definition restore_user_states_from_database : M World nat :=
  let! conn := get_db_connection E in
  if conn then
    let! w := get in
    let user_rows := List.filter is_active_row (user_states w) in
    let! _ := modify (fun w => fold_left restore_row user_rows w) in
    ret (length user_rows)
  else ret 0%nat.
End Restore.

(** ** The context update of [fast_message_handler.fast_process_message]
       (step 5, lines 333-342) *)

Definition fast_update_context (message_text : string) (ai_response : entry_content)
           (st : UserState) : UserState :=
  let st := append_context {| role := "user"; content := AsText message_text |} st in
  let st := append_context {| role := "assistant"; content := ai_response |} st in
  if (20 <? length (messages_context st))%nat
  then set_messages_context (last_n 20 (messages_context st)) st
  else st.

(** ** Vocabulary of the statements *)

(** [needle] occurs in [hay]. *)
Definition substring_of (needle hay : string) : Prop :=
  exists before after, hay = before +:+ needle +:+ after.

(** The marker occurs in a message neither as it is nor after NFC
    normalisation. *)
Definition marker_absent (G : GateEnv) (greeting : string) (m : fb_message) : Prop :=
  ~ substring_of greeting (message_text m) /\
  ~ substring_of (nfc G greeting) (nfc G (message_text m)).

(** In world [w] the dictionary stored for [sender] is [st] and the log
    of requests is [tr]. *)
Definition holds (w : World) (sender : string) (st : UserState)
           (tr : list event) : Prop :=
  user_state w !! sender = Some st /\ trace w = tr.

(** The two entries [get_assistant_response] appends when the AI step
    answered the fixed error reply. *)
Definition error_entries (user_message : string) : list context_message :=
  [{| role := "user"; content := AsText user_message |};
   {| role := "assistant"; content := AsResponse (TextReply error_message) |}].

(** The dictionary after lines 312-319: the turn is counted, the text
    recorded and the stop flag cleared. *)
Definition counted (user_message : string) (st : UserState) : UserState :=
  let st := set_last_message user_message
              (set_message_count (message_count st + 1) st) in
  if has_stop_message st then set_has_stop_message false st else st.

(** What a call that flushes leaves: the merged turn is handed to the
    turn processor and the call answers, unless the turn processor never
    returns. *)
Definition turn_handed_over (W : Type)
           (handler : string -> received_message -> string -> M W handler_result)
           (senderPSID merged page : string)
           (s : queue * W) : outcome unit * (queue * W) :=
  match hand_over W handler senderPSID merged page s with
  | (Diverge, s') => (Diverge, s')
  | (_, s') => (Ok tt, s')
  end.

(** Every pending batch holds at least one message. *)
Definition pending_ok (q : queue) : bool :=
  forallb (fun kb => negb (bool_decide (user_messages_queue (snd kb) = []))) q.

(** The sender's batch once the message is in: the old batch with the
    message at its end, or a new batch stamped with the time of the
    call. *)
Definition batch_after_add (page : string) (current_unix_time : Z) (m : string)
           (old : option batch) : batch :=
  match old with
  | Some b => append_message m b
  | None => {| batch_page_id := page; user_messages_queue := [m];
               first_message_time := current_unix_time |}
  end.

(** The clock of the interpreter as the queue reads it. *)
Definition world_clock (E : Env) (w : World) : Z * World :=
  (now (advance E 0 w), advance E 0 w).

(** The entry point of the webhook: the queue in front of the turn
    processor, with the defaults of [merge_user_messages]. *)
Definition on_message (G : GateEnv) (E : Env) (fuel : nat) (senderPSID : string)
           (received : received_message) (page_id : string)
  : M (queue * World) unit :=
  merge_user_messages World (world_clock E) (get_assistant_response G E fuel)
                      senderPSID received page_id 30000 2.

(** A computation on the queue keeps every pending batch non-empty. *)
Definition keeps_pending {W A : Type} (c : M (queue * W) A) : Prop :=
  forall s, pending_ok (fst s) = true -> pending_ok (fst (snd (c s))) = true.


(** Requests that submit work to the AI service. *)
Definition is_submission (e : event) : bool :=
  match e with
  | ThreadsCreate | MessagesCreate _ _ | RunsCreate _ _ => true
  | _ => false
  end.

Definition submissions (tr : list event) : list event :=
  List.filter is_submission tr.

(** ** The legacy gate of [main_simple]: [check_greeting_message_impl]
       (lines 287-309) *)

(** [return not should_bot_respond(senderPSID, page_id)]; the callee
    raises nothing, so the handler of lines 306-309 is never entered. *)
Definition check_greeting_message_impl (G : GateEnv) (senderPSID page_id : string)
  : bool :=
  negb (should_bot_respond G senderPSID page_id).

(** ** Conversation helper of [handle_message]:
       [get_last_message_from_conversation] (lines 200-213) *)

(** A message as the helper reads it: [message['from']] is subscripted,
    so a message without that key raises; under it ['id'] may be
    missing, and so may ['message']. *)
Record graph_message : Type := {
  gm_from : option (option string);
  gm_message : option string }.

(** The two lookups of the Graph API the helper awaits, typed as it
    reads their answers; [None] for the messages stands for the [""]
    answered on a status other than 200. *)
Record GraphEnv : Type := {
  conversation_id_for_user : string -> string -> answer (option string);
  messages_for_conversation :
    string -> string -> answer (option (list graph_message)) }.

(** [message['from'].get('id')] *)
Definition gm_sender (m : graph_message) : answer (option string) :=
  match gm_from m with
  | Some i => Returns i
  | None => Raises KeyError
  end.

(** The loop of lines 209-211.  Its test [... == senderPSID or page_id]
    is the comparison when that holds and the string [page_id]
    otherwise, which counts as true unless it is empty. *)
Fixpoint conversation_texts (senderPSID page_id : string)
         (messages : list graph_message) : answer (list string) :=
  match messages with
  | [] => Returns []
  | m :: rest =>
    match gm_sender m with
    | Raises e => Raises e
    | Returns i =>
      let keep := bool_decide (i = Some senderPSID) || truthy (Some page_id) in
      match conversation_texts senderPSID page_id rest with
      | Raises e => Raises e
      | Returns l => Returns (if keep then default "" (gm_message m) :: l else l)
      end
    end
  end.

(** The helper answers [None] when no conversation is found. *)
Definition get_last_message_from_conversation (H : GraphEnv)
           (senderPSID page_id : string) : answer (option (list string)) :=
  match conversation_id_for_user H senderPSID page_id with
  | Raises e => Raises e
  | Returns conversation_id =>
    if truthy conversation_id then
      match messages_for_conversation H (default "" conversation_id) page_id with
      | Raises e => Raises e
      | Returns messages =>
        match conversation_texts senderPSID page_id (default [] messages) with
        | Raises e => Raises e
        | Returns conversation_message => Returns (Some conversation_message)
        end
      end
    else Returns None
  end.

(** ** Vocabulary of the further properties *)

(** A computation keeps an invariant of the interpreter state, whatever
    it answers. *)
Definition preserves {A} (I : World -> Prop) (c : M World A) : Prop :=
  forall w, I w -> I (snd (c w)).

(** Since the log was [tr0], every request made is one of [Q]. *)
Definition only_since (Q : event -> bool) (tr0 : list event) (w : World) : Prop :=
  exists l, trace w = (tr0 ++ l)%list /\ forallb Q l = true.

(** Requests to the AI service. *)
Definition is_ai_request (e : event) : bool :=
  match e with
  | AssistantsRetrieve _ | ThreadsCreate | MessagesCreate _ _ | RunsCreate _ _
  | RunsRetrieve _ _ | RunsList _ | MessagesList _ => true
  | _ => false
  end.

(** Requests to the AI service that create no thread and name no thread
    other than [t]. *)
Definition on_thread (t : string) (e : event) : bool :=
  match e with
  | AssistantsRetrieve _ => true
  | MessagesCreate t' _ | RunsCreate t' _ | RunsRetrieve t' _
  | RunsList t' | MessagesList t' => String.eqb t' t
  | _ => false
  end.

(** The thread [get_chatgpt_response] settles on at lines 42-73: the
    one registered in [user_threads] under [sender_page] when that is
    not empty, else the one of the stored dictionary. *)
Definition chosen_thread (E : Env) (w : World) (senderPSID page : string)
           (st : UserState) : option string :=
  let registered :=
    if has_global_threads E then
      match user_threads w !! (senderPSID +:+ "_" +:+ page) with
      | Some ti => if truthy (ti_thread_id ti) then ti_thread_id ti else None
      | None => None
      end
    else None in
  match registered with
  | Some t => Some t
  | None => thread_id st
  end.

(** A computation that comes to an end in every state: it answers or
    raises. *)
Definition terminates {S A} (c : M S A) : Prop :=
  forall s, fst (c s) <> Diverge.


(** The rows of the table that belong to other senders. *)
Definition rows_of_others (sender : string) (table : list Row) : list Row :=
  List.filter (fun r => negb (bool_decide (sender_id r = sender))) table.

(** In world [w] the dictionary of [sender] is [st], the log is [tr]
    and, when the registry [user_threads] is in use, it has an entry
    under [key]. *)
Definition conversing (E : Env) (w : World) (sender key : string)
           (st : UserState) (tr : list event) : Prop :=
  holds w sender st tr /\
  (has_global_threads E = true -> is_Some (user_threads w !! key)).

(** A batch that may wait under the limit [n] of messages: it holds at
    least one message and fewer than [n]. *)
Definition waiting (n : nat) (b : batch) : bool :=
  ((1 <=? length (user_messages_queue b))
   && (length (user_messages_queue b) <? n))%nat.

(** Every pending batch may wait under the limit [n]. *)
Definition pending_below (n : nat) (q : queue) : bool :=
  forallb (fun kb => waiting n (snd kb)) q.

(** The message as delivered, without its identifier. *)
Definition without_mid (msg : received_message) : received_message :=
  {| mid := None; text := text msg; attachments := attachments msg |}.

(** A poll of a run of thread [t]. *)
Definition is_poll (t : string) (e : event) : bool :=
  match e with
  | RunsRetrieve t' _ => String.eqb t' t
  | _ => false
  end.

(** The polls of a new run that is found completed at its first poll, if
    it was not completed when created. *)
Definition first_poll (t : string) (r : run) : list event :=
  if is_active (status r) then [RunsRetrieve t (rid r)] else [].

(** The log holds more than [n] requests. *)
Definition longer_than (n : nat) (w : World) : Prop :=
  (n < length (trace w))%nat.

(** * Scenarios

    Concrete collaborators and states on which the model is run. *)

Definition plain_message (sender body : string) : fb_message :=
  {| from_id := Some sender; message := Some body |}.

(** A page with the marker ["Welcome"]; the user has no conversation. *)
Definition new_lead_gate : GateEnv :=
  {| get_dynamic_greeting_message := fun _ => Some "Welcome";
     get_conversation_id_for_user := fun _ _ => Returns None;
     get_messages_for_conversation := fun _ _ => Returns (Some []);
     nfc := fun s => s;
     db_greeting_check := fun _ _ _ => Returns false |}.

(** A page whose marker is a single space; the page wrote ["thanks"]. *)
Definition blank_marker_gate : GateEnv :=
  {| get_dynamic_greeting_message := fun _ => Some " ";
     get_conversation_id_for_user := fun _ _ => Returns (Some "t_1");
     get_messages_for_conversation := fun _ _ =>
       Returns (Some [plain_message "page" "thanks"]);
     nfc := fun s => s;
     db_greeting_check := fun _ _ _ => Returns false |}.

(** A page with the marker ["Welcome"]; the conversation exists and the
    page wrote only ["How can we help"]. *)
Definition handed_over_gate : GateEnv :=
  {| get_dynamic_greeting_message := fun _ => Some "Welcome";
     get_conversation_id_for_user := fun _ _ => Returns (Some "t_1");
     get_messages_for_conversation := fun _ _ =>
       Returns (Some [plain_message "user" "hello";
                 plain_message "page" "How can we help"]);
     nfc := fun s => s;
     db_greeting_check := fun _ _ _ => Returns false |}.

(** A deployment with the stock answers: max-turns 10, a reachable
    database, an assistant that completes at once with ["Hello!"]. *)
Definition stock_env : Env :=
  {| get_max_messages := fun _ => 10%Z;
     get_end_message := fun _ => Some "Goodbye";
     get_assistant_id := fun _ => "asst_1";
     get_dynamic_assistant_id := fun _ => Some "asst_1";
     get_greeting_message := fun _ => Some "Welcome";
     has_global_threads := true;
     latency := fun _ => 0%N;
     db_connect := fun _ => true;
     post_message := fun _ _ _ _ => Returns tt;
     sentiment_analysis := fun _ _ => Returns None;
     set_pop := fun _ => "";
     assistants_retrieve := fun _ a => Returns a;
     threads_create := fun _ => Returns "thread_2";
     messages_create := fun _ _ _ => Returns tt;
     runs_create := fun _ _ _ =>
       Returns {| rid := "run_1"; status := completed; created_at := 0 |};
     runs_retrieve := fun _ _ _ =>
       Returns {| rid := "run_1"; status := completed; created_at := 0 |};
     runs_list := fun _ _ => Returns [];
     messages_list := fun _ _ =>
       Returns [{| tm_role := "assistant"; tm_content := ["Hello!"] |}] |}.

(** The process right after start, with the given table. *)
Definition boot (table : list Row) : World :=
  {| now := 1000000; tick := 0; user_state := ∅; main_user_state := ∅;
     user_threads := ∅; processed_message_ids := ∅;
     user_states := table; trace := [] |}.

Definition text_with_mid (m body : string) : received_message :=
  {| mid := Some m; text := Some body; attachments := false |}.

(** A stored conversation of ["user"] on ["page"]. *)
Definition stored_state (count : Z) (thread : option string)
           (context : list context_message) : UserState :=
  {| page_id := "page"; message_count := count; label := []; conversation := [];
     conversation_id := None; new_user := false; thread_id := thread;
     run_id := None; messages_context := context; last_message_time := None;
     has_stop_message := false; last_message := "earlier"; rank := None |}.

Definition stored_row (count : Z) (thread : option string)
           (context : list context_message) : Row :=
  {| sender_id := "user"; columns := stored_state count thread context |}.

Definition hi : received_message :=
  {| mid := None; text := Some "hi"; attachments := false |}.

(** Twenty context entries, ten exchanges. *)
Definition twenty_entries : list context_message :=
  concat (repeat [{| role := "user"; content := AsText "q" |};
                  {| role := "assistant"; content := AsText "a" |}] 10).

(** The same user on a second page. *)
Definition other_page_row : Row :=
  {| sender_id := "user";
     columns := set_page_id "page_b" (stored_state 3 (Some "thread_b") []) |}.

(** The queue after ["user"] wrote ["hi"] on ["page"] at second 1000. *)
Definition one_pending : queue :=
  [("user", {| batch_page_id := "page"; user_messages_queue := ["hi"];
               first_message_time := 1000 |})].

(** The thread has a run that stays in progress whatever happens. *)
Definition stuck_run : run :=
  {| rid := "run_0"; status := in_progress; created_at := 1000 |}.

Definition stuck_env : Env :=
  {| get_max_messages := fun _ => 10%Z;
     get_end_message := fun _ => Some "Goodbye";
     get_assistant_id := fun _ => "asst_1";
     get_dynamic_assistant_id := fun _ => Some "asst_1";
     get_greeting_message := fun _ => Some "Welcome";
     has_global_threads := true;
     latency := fun _ => 0%N;
     db_connect := fun _ => true;
     post_message := fun _ _ _ _ => Returns tt;
     sentiment_analysis := fun _ _ => Returns None;
     set_pop := fun _ => "";
     assistants_retrieve := fun _ a => Returns a;
     threads_create := fun _ => Returns "thread_2";
     messages_create := fun _ _ _ => Returns tt;
     runs_create := fun _ _ _ =>
       Returns {| rid := "run_1"; status := completed; created_at := 1020 |};
     runs_retrieve := fun _ _ r =>
       if String.eqb r "run_0" then Returns stuck_run
       else Returns {| rid := "run_1"; status := completed; created_at := 1020 |};
     runs_list := fun _ _ => Returns [stuck_run];
     messages_list := fun _ _ =>
       Returns [{| tm_role := "assistant"; tm_content := ["Hello!"] |}] |}.

(** [n] messages ["hi"] of ["user"] on ["page"], one turn each. *)
Definition turns (G : GateEnv) (E : Env) (n : nat) (w : World) : World :=
  Nat.iter n (fun w => snd (get_assistant_response G E 0 "user" hi "page" w)) w.


(** A no-break space (U+00A0) followed by an ideographic space (U+3000),
    in UTF-8. *)
Definition wide_blank : string :=
  String (ascii_of_nat 194) (String (ascii_of_nat 160)
    (String (ascii_of_nat 227) (String (ascii_of_nat 128)
      (String (ascii_of_nat 128) "")))).

(** A page whose marker is made of those two spaces; the page wrote
    ["thanks"]. *)
Definition wide_blank_gate : GateEnv :=
  {| get_dynamic_greeting_message := fun _ => Some wide_blank;
     get_conversation_id_for_user := fun _ _ => Returns (Some "t_1");
     get_messages_for_conversation := fun _ _ =>
       Returns (Some [plain_message "page" "thanks"]);
     nfc := fun s => s;
     db_greeting_check := fun _ _ _ => Returns false |}.

(** The process with the dictionary of ["user"] in memory: a
    conversation on the thread ["thread_1"]. *)
Definition resumed : World :=
  set_user_state {["user" := stored_state 3 (Some "thread_1") []]} (boot []).

(** The stock deployment with the database out of reach. *)
Definition offline_env : Env :=
  {| get_max_messages := get_max_messages stock_env;
     get_end_message := get_end_message stock_env;
     get_assistant_id := get_assistant_id stock_env;
     get_dynamic_assistant_id := get_dynamic_assistant_id stock_env;
     get_greeting_message := get_greeting_message stock_env;
     has_global_threads := has_global_threads stock_env;
     latency := latency stock_env;
     db_connect := fun _ => false;
     post_message := post_message stock_env;
     sentiment_analysis := sentiment_analysis stock_env;
     set_pop := set_pop stock_env;
     assistants_retrieve := assistants_retrieve stock_env;
     threads_create := threads_create stock_env;
     messages_create := messages_create stock_env;
     runs_create := runs_create stock_env;
     runs_retrieve := runs_retrieve stock_env;
     runs_list := runs_list stock_env;
     messages_list := messages_list stock_env |}.

(** The stock deployment with the send endpoint down. *)
Definition send_down_env : Env :=
  {| get_max_messages := get_max_messages stock_env;
     get_end_message := get_end_message stock_env;
     get_assistant_id := get_assistant_id stock_env;
     get_dynamic_assistant_id := get_dynamic_assistant_id stock_env;
     get_greeting_message := get_greeting_message stock_env;
     has_global_threads := has_global_threads stock_env;
     latency := latency stock_env;
     db_connect := db_connect stock_env;
     post_message := fun _ _ _ _ => Raises ExternalError;
     sentiment_analysis := sentiment_analysis stock_env;
     set_pop := set_pop stock_env;
     assistants_retrieve := assistants_retrieve stock_env;
     threads_create := threads_create stock_env;
     messages_create := messages_create stock_env;
     runs_create := runs_create stock_env;
     runs_retrieve := runs_retrieve stock_env;
     runs_list := runs_list stock_env;
     messages_list := messages_list stock_env |}.

(** A dictionary with a sentiment rank. *)
Definition ranked_state : UserState :=
  set_rank (Some 4) (stored_state 3 (Some "thread_1") []).

(** Three seconds after start; the stored conversation of ["user"] has
    used up the ten turns of the page. *)
Definition three_seconds_on : World :=
  set_clock 1003000 0 (boot [stored_row 10 (Some "thread_1") []]).

(** A conversation of the page with ["user"]: one message each. *)
Definition two_party_graph : GraphEnv :=
  {| conversation_id_for_user := fun _ _ => Returns (Some "t_1");
     messages_for_conversation := fun _ _ =>
       Returns (Some [{| gm_from := Some (Some "page");
                         gm_message := Some "How can we help" |};
                      {| gm_from := Some (Some "user");
                         gm_message := Some "hello" |}]) |}.

(** The process with a fresh dictionary of ["user"] in memory. *)
Definition newcomer : World :=
  set_user_state {["user" := fresh_state "page" "hi"]} (boot []).

(** The stock deployment with an assistant whose runs are queued and
    then fail. *)
Definition failing_env : Env :=
  {| get_max_messages := get_max_messages stock_env;
     get_end_message := get_end_message stock_env;
     get_assistant_id := get_assistant_id stock_env;
     get_dynamic_assistant_id := get_dynamic_assistant_id stock_env;
     get_greeting_message := get_greeting_message stock_env;
     has_global_threads := has_global_threads stock_env;
     latency := latency stock_env;
     db_connect := db_connect stock_env;
     post_message := post_message stock_env;
     sentiment_analysis := sentiment_analysis stock_env;
     set_pop := set_pop stock_env;
     assistants_retrieve := assistants_retrieve stock_env;
     threads_create := threads_create stock_env;
     messages_create := messages_create stock_env;
     runs_create := fun _ _ _ =>
       Returns {| rid := "run_1"; status := queued; created_at := 0 |};
     runs_retrieve := fun _ _ _ =>
       Returns {| rid := "run_1"; status := failed; created_at := 0 |};
     runs_list := runs_list stock_env;
     messages_list := messages_list stock_env |}.

(** The stock deployment on a host whose clock jumps by 30 s at the third
    reading. *)
Definition stalled_env : Env :=
  {| get_max_messages := get_max_messages stock_env;
     get_end_message := get_end_message stock_env;
     get_assistant_id := get_assistant_id stock_env;
     get_dynamic_assistant_id := get_dynamic_assistant_id stock_env;
     get_greeting_message := get_greeting_message stock_env;
     has_global_threads := has_global_threads stock_env;
     latency := fun k => if (k =? 2)%nat then 30000%N else 0%N;
     db_connect := db_connect stock_env;
     post_message := post_message stock_env;
     sentiment_analysis := sentiment_analysis stock_env;
     set_pop := set_pop stock_env;
     assistants_retrieve := assistants_retrieve stock_env;
     threads_create := threads_create stock_env;
     messages_create := messages_create stock_env;
     runs_create := runs_create stock_env;
     runs_retrieve := runs_retrieve stock_env;
     runs_list := runs_list stock_env;
     messages_list := messages_list stock_env |}.

(** The stock deployment with an assistant whose runs are queued when
    created and completed when polled. *)
Definition slow_start_env : Env :=
  {| get_max_messages := get_max_messages stock_env;
     get_end_message := get_end_message stock_env;
     get_assistant_id := get_assistant_id stock_env;
     get_dynamic_assistant_id := get_dynamic_assistant_id stock_env;
     get_greeting_message := get_greeting_message stock_env;
     has_global_threads := has_global_threads stock_env;
     latency := latency stock_env;
     db_connect := db_connect stock_env;
     post_message := post_message stock_env;
     sentiment_analysis := sentiment_analysis stock_env;
     set_pop := set_pop stock_env;
     assistants_retrieve := assistants_retrieve stock_env;
     threads_create := threads_create stock_env;
     messages_create := messages_create stock_env;
     runs_create := fun _ _ _ =>
       Returns {| rid := "run_1"; status := queued; created_at := 0 |};
     runs_retrieve := runs_retrieve stock_env;
     runs_list := runs_list stock_env;
     messages_list := messages_list stock_env |}.

(** * Properties *)

(** ** Strings *)

Lemma prefix_app (a b : string) :
  String.prefix a b = true <-> exists c, b = a +:+ c.
Proof.
  revert b. induction a as [|x a IH]; intros b.
  - split; [intros _; exists b; reflexivity | intros _; destruct b; reflexivity].
  - destruct b as [|y b]; cbn.
    + split; [discriminate | intros [c Hc]; discriminate].
    + destruct (Ascii.ascii_dec x y) as [->|Hne].
      * rewrite IH. split; intros [c Hc]; exists c.
        -- cbn. now rewrite Hc.
        -- cbn in Hc. now inversion Hc.
      * split; [discriminate | intros [c Hc]; cbn in Hc; inversion Hc; congruence].
Qed.

(** [str_in] decides [substring_of]. *)
Lemma str_in_spec (needle hay : string) :
  str_in needle hay = true <-> substring_of needle hay.
Proof.
  unfold substring_of. induction hay as [|c hay IH]; cbn [str_in].
  - rewrite orb_false_r, prefix_app. split.
    + intros [rest H]. exists "", rest. exact H.
    + intros [before [after H]]. destruct before; simpl in H.
      * now exists after.
      * discriminate.
  - rewrite orb_true_iff, prefix_app, IH. split.
    + intros [[rest H]|[before [after H]]].
      * exists "", rest. exact H.
      * exists (String c before), after. simpl. now rewrite H.
    + intros [before [after H]]. destruct before as [|c' before]; simpl in H.
      * left. now exists after.
      * right. inversion H. now exists before, after.
Qed.

Lemma str_in_false (needle hay : string) :
  str_in needle hay = false <-> ~ substring_of needle hay.
Proof.
  rewrite <- str_in_spec. destruct (str_in needle hay); split; congruence.
Qed.

Lemma has_greeting_false (G : GateEnv) (greeting : string) (m : fb_message) :
  has_greeting G greeting m = false <-> marker_absent G greeting m.
Proof.
  unfold has_greeting, marker_absent.
  rewrite orb_false_iff, !str_in_false. reflexivity.
Qed.

Lemma strip_is_empty_truthy (s : string) :
  strip_is_empty s = false -> truthy (Some s) = true.
Proof. destruct s; simpl; [discriminate | reflexivity]. Qed.

(** ** Response gate *)

(** At most four page messages are searched, the last ones fetched. *)
Lemma last_bot_messages_length (l : list fb_message) :
  (length (last_bot_messages l) <= 4)%nat.
Proof.
  unfold last_bot_messages, last_n.
  destruct (4 <? length l)%nat eqn:H.
  - apply Nat.ltb_lt in H. rewrite length_skipn. lia.
  - apply Nat.ltb_ge in H. exact H.
Qed.

Lemma last_bot_messages_suffix (l : list fb_message) :
  exists older, l = (older ++ last_bot_messages l)%list.
Proof.
  unfold last_bot_messages, last_n.
  destruct (4 <? length l)%nat.
  - exists (firstn (length l - 4) l). symmetry. apply firstn_skipn.
  - exists []. reflexivity.
Qed.

(** With a marker configured, [should_bot_respond] answers [True]
    whatever the Graph API and the database hold: the lookup is called
    without [await], so [api_messages] is a coroutine object, taking its
    length raises, and the handler of the outer [try] ends in
    [return True]. *)
Lemma should_bot_respond_always (G : GateEnv) (sender_id page_id : string) :
  should_bot_respond G sender_id page_id = true.
Proof.
  unfold should_bot_respond, should_bot_respond_try.
  destruct (get_dynamic_greeting_message G page_id) as [g|]; [|reflexivity].
  destruct (negb (truthy (Some g)) || strip_is_empty g); reflexivity.
Qed.

(** C1, as amended.  When the marker is not blank, a conversation is
    found for the user, and none of the (at most four) last page
    messages fetched for it contains the marker, raw or NFC-normalised,
    [check_greeting_message] keeps the bot silent: the gate is false. *)
Theorem gate_silent_without_marker
    (G : GateEnv) (senderPSID page greeting cid : string)
    (fetched : option (list fb_message)) :
  get_dynamic_greeting_message G page = Some greeting ->
  strip_is_empty greeting = false ->
  get_conversation_id_for_user G senderPSID page = Returns (Some cid) ->
  cid <> "" ->
  get_messages_for_conversation G cid page = Returns fetched ->
  (forall m, In m (last_bot_messages (bot_messages_of page (default [] fetched))) ->
             marker_absent G greeting m) ->
  shouldRespond G senderPSID page = Returns false.
Proof.
  intros Hg Hblank Hc Hcid Hm Habsent.
  unfold shouldRespond, check_greeting_message.
  rewrite Hg, Hblank, (strip_is_empty_truthy _ Hblank), Hc. simpl.
  destruct cid as [|c cid]; [congruence|]. simpl. rewrite Hm.
  replace (existsb _ _) with false; [reflexivity|].
  symmetry. apply not_true_is_false. intros Hex.
  apply existsb_exists in Hex. destruct Hex as [m [Hin Hhas]].
  apply Habsent in Hin. apply has_greeting_false in Hin. congruence.
Qed.

Lemma gate_silent_without_marker_witness :
  shouldRespond handed_over_gate "user" "page" = Returns false.
Proof.
  apply (gate_silent_without_marker handed_over_gate "user" "page" "Welcome" "t_1"
           (Some [plain_message "user" "hello";
                  plain_message "page" "How can we help"])).
  - reflexivity.
  - reflexivity.
  - reflexivity.
  - discriminate.
  - reflexivity.
  - intros m Hin. apply has_greeting_false.
    simpl in Hin. destruct Hin as [<-|[]]. reflexivity.
Defined.

(** C1, as stated, fails twice by design: a user without a conversation
    is answered as a new lead, and a marker of white space only counts as
    no marker.  In both cases the marker is not empty and no page message
    contains it, yet the gate is true. *)
Lemma gate_open_without_marker :
  (get_dynamic_greeting_message new_lead_gate "page" = Some "Welcome" /\
   (forall m, In m (last_bot_messages (bot_messages_of "page" [])) ->
              marker_absent new_lead_gate "Welcome" m) /\
   shouldRespond new_lead_gate "user" "page" = Returns true) /\
  (get_dynamic_greeting_message blank_marker_gate "page" = Some " " /\
   (forall m, In m (last_bot_messages
                      (bot_messages_of "page" [plain_message "page" "thanks"])) ->
              marker_absent blank_marker_gate " " m) /\
   shouldRespond blank_marker_gate "user" "page" = Returns true).
Proof.
  split; (split; [reflexivity|split; [|reflexivity]]).
  - intros m [].
  - intros m Hin. apply has_greeting_false.
    simpl in Hin. destruct Hin as [<-|[]]. reflexivity.
Qed.

(** ** Deduplication cache *)

Lemma pop_spec (E : Env) (s s' : gset string) (x : string) :
  pop E s = Some (x, s') -> x ∈ s /\ s' = s ∖ {[x]}.
Proof.
  unfold pop. destruct (elements s) as [|x0 l] eqn:Hel; [discriminate|].
  intros H. inversion H; subst; clear H. split; [|reflexivity].
  case_bool_decide; [assumption|].
  apply elem_of_elements. rewrite Hel. left.
Qed.

Lemma pop_none (E : Env) (s : gset string) :
  pop E s = None -> s = ∅.
Proof.
  unfold pop. destruct (elements s) eqn:Hel; [|discriminate].
  intros _. apply leibniz_equiv. now apply elements_empty_inv.
Qed.

(** Each [pop] takes one element out; with at least [n] elements in the
    set, [n] are taken. *)
Lemma pop_many_spec (E : Env) (n : nat) (s : gset string) :
  (n <= size s)%nat ->
  pop_many E n s ⊆ s /\ size (pop_many E n s) = (size s - n)%nat.
Proof.
  revert s. induction n as [|n IH]; intros s Hn; simpl.
  - split; [reflexivity|lia].
  - destruct (pop E s) as [[x s']|] eqn:Hp.
    + apply pop_spec in Hp. destruct Hp as [Hx ->].
      assert (Hsz : size (s ∖ {[x]}) = (size s - 1)%nat).
      { rewrite size_difference by (now apply singleton_subseteq_l).
        now rewrite size_singleton. }
      destruct (IH (s ∖ {[x]})) as [Hsub Hsize]; [lia|].
      split; [|lia].
      intros y Hy. apply Hsub in Hy. now apply elem_of_difference in Hy.
    + apply pop_none in Hp. subst s. rewrite size_empty in Hn. lia.
Qed.

(** A message delivered twice: the first delivery is processed, the second
    is answered [DUPLICATE_MESSAGE] and changes nothing. *)
Lemma second_delivery_discarded :
  let m := text_with_mid "m_1" "hi" in
  let first := get_assistant_response new_lead_gate stock_env 0 "user" m "page"
                                      (boot []) in
  let second := get_assistant_response new_lead_gate stock_env 0 "user" m "page"
                                       (snd first) in
  fst first = Ok (Replied (TextReply error_message)) /\
  second = (Ok DUPLICATE_MESSAGE, snd first).
Proof. vm_compute. auto. Qed.

(** ** Stepping through the turn processor *)

Lemma bind_ok {S A B} (c : M S A) (k : A -> M S B) (s s' : S) (a : A) :
  c s = (Ok a, s') -> bind c k s = k a s'.
Proof. intros H. unfold bind. now rewrite H. Qed.

Lemma bind_raise {S A B} (c : M S A) (k : A -> M S B) (s s' : S) (e : exn) :
  c s = (Raise e, s') -> bind c k s = (Raise e, s').
Proof. intros H. unfold bind. now rewrite H. Qed.

Lemma bind_diverge {S A B} (c : M S A) (k : A -> M S B) (s s' : S) :
  c s = (Diverge, s') -> bind c k s = (Diverge, s').
Proof. intros H. unfold bind. now rewrite H. Qed.

Lemma submissions_app (a b : list event) :
  submissions (a ++ b) = (submissions a ++ submissions b)%list.
Proof. apply List.filter_app. Qed.

Lemma submissions_skip (e : event) (l : list event) :
  is_submission e = false -> submissions (e :: l) = submissions l.
Proof. intros H. unfold submissions. cbn. now rewrite H. Qed.

Lemma submissions_saved (sender : string) (saved : list event) :
  Forall (fun e => e = Saved sender) saved -> submissions saved = [].
Proof.
  induction 1 as [|e saved He _ IH]; [reflexivity|]. subst e. exact IH.
Qed.

Lemma getitem_whole (w : World) (key : string) (st : UserState) :
  user_state w !! key = Some st ->
  getitem WholeUserState key w = (Ok st, w).
Proof. intros H. unfold getitem. now rewrite H. Qed.

Lemma update_whole (w : World) (key : string) (st : UserState)
      (f : UserState -> UserState) :
  user_state w !! key = Some st ->
  update WholeUserState key f w
  = (Ok tt, set_user_state (<[key := f st]> (user_state w)) w).
Proof.
  intros H. unfold update, bind. now rewrite (getitem_whole _ _ _ H).
Qed.

(** On a per-user dictionary the second subscript by the sender fails,
    whatever the key. *)
Lemma getitem_entry (s key : string) (w : World) :
  exists e, getitem (EntryOf s) key w = (Raise e, w).
Proof.
  unfold getitem. case_bool_decide; eexists; reflexivity.
Qed.

(** Handed a per-user dictionary, [get_chatgpt_response] retrieves the
    assistant and then answers the fixed error reply: no thread is
    created, nothing is submitted and the dictionary is left as it was. *)
Lemma get_chatgpt_response_per_user_dict
    (E : Env) (fuel : nat) (user_message s senderPSID page : string) (w : World) :
  get_chatgpt_response E fuel user_message (EntryOf s) senderPSID page w
  = (Ok (TextReply error_message),
     advance E 0 (log (AssistantsRetrieve (get_assistant_id E page)) w)).
Proof.
  set (w1 := advance E 0 (log (AssistantsRetrieve (get_assistant_id E page)) w)).
  assert (H1 : load_client_assistant E (get_assistant_id E page) w
               = (of_answer (assistants_retrieve E (tick w) (get_assistant_id E page)),
                  w1)) by reflexivity.
  unfold get_chatgpt_response, try_except.
  destruct (assistants_retrieve E (tick w) (get_assistant_id E page)) as [a|e];
    cbn [of_answer] in H1.
  - rewrite (bind_ok _ _ _ _ _ H1).
    destruct (getitem_entry s senderPSID w1) as [e He].
    rewrite (bind_raise _ _ _ _ _ He). reflexivity.
  - rewrite (bind_raise _ _ _ _ _ H1). reflexivity.
Qed.

(** What a save leaves behind: the dictionary differs at most in its time
    stamp, the globals other than the table are untouched, and the log
    grows by one [Saved] exactly when a write was committed. *)
Lemma save_attempts_spec (E : Env) (remaining attempt : nat) (sender : string)
      (st : UserState) (w : World) :
  exists (ok : bool) (st' : UserState) (w' : World),
    save_attempts E remaining attempt sender st w = (Ok (ok, st'), w') /\
    (st' = st \/ exists t, st' = set_last_message_time (Some (IsoTime t)) st) /\
    user_state w' = user_state w /\
    processed_message_ids w' = processed_message_ids w /\
    trace w' = (trace w ++ if ok then [Saved sender] else [])%list.
Proof.
  revert attempt w. induction remaining as [|remaining IH]; intros attempt w;
    cbn [save_attempts]; unfold bind, get_db_connection;
    destruct (db_connect E (tick w)); cbn.
  - do 3 eexists. split; [reflexivity|]. split; [right; eexists; reflexivity|].
    cbn. auto.
  - do 3 eexists. split; [reflexivity|]. split; [now left|].
    cbn. rewrite app_nil_r. auto.
  - do 3 eexists. split; [reflexivity|]. split; [right; eexists; reflexivity|].
    cbn. auto.
  - destruct (IH (S attempt)
                 (advance E (1000 * 2 ^ Z.of_nat attempt) (advance E 0 w)))
      as (ok & st' & w' & Hrun & Hst & Hus & Hpm & Htr).
    exists ok, st', w'. split; [exact Hrun|]. split; [exact Hst|].
    cbn in Hus, Hpm, Htr. auto.
Qed.

Lemma save_entry_spec (E : Env) (sender : string) (st : UserState) (w : World) :
  user_state w !! sender = Some st ->
  exists (st' : UserState) (w' : World) (saved : list event),
    save_entry E sender w = (Ok tt, w') /\
    (st' = st \/ exists t, st' = set_last_message_time (Some (IsoTime t)) st) /\
    user_state w' = <[sender := st']> (user_state w) /\
    trace w' = (trace w ++ saved)%list /\
    Forall (fun e => e = Saved sender) saved.
Proof.
  intros Hst. unfold save_entry, bind. rewrite (getitem_whole _ _ _ Hst).
  unfold save_user_state_to_db.
  destruct (save_attempts_spec E 2 0 sender st w)
    as (ok & st' & w' & -> & Hst' & Hus & _ & Htr).
  exists st', (set_user_state (<[sender := st']> (user_state w')) w'),
         (if ok then [Saved sender] else []).
  split; [reflexivity|]. split; [exact Hst'|]. cbn. rewrite Hus.
  split; [reflexivity|]. split; [exact Htr|].
  destruct ok; repeat constructor.
Qed.

Lemma update_holds (w : World) (s : string) (st : UserState) (tr : list event)
      (f : UserState -> UserState) :
  holds w s st tr ->
  exists w', update WholeUserState s f w = (Ok tt, w') /\
             holds w' s (f st) tr /\ tick w' = tick w.
Proof.
  intros [Hst Htr]. eexists. split; [apply update_whole; exact Hst|].
  split; [|reflexivity]. split; [cbn; apply lookup_insert_eq|exact Htr].
Qed.

Lemma getitem_holds (w : World) (s : string) (st : UserState) (tr : list event) :
  holds w s st tr -> getitem WholeUserState s w = (Ok st, w).
Proof. intros [Hst _]. now apply getitem_whole. Qed.

Lemma time_holds (E : Env) (w : World) (s : string) (st : UserState)
      (tr : list event) :
  holds w s st tr ->
  exists t w', time_time E w = (Ok t, w') /\ holds w' s st tr.
Proof. intros H. do 2 eexists. split; [reflexivity|exact H]. Qed.

Lemma request_holds {A} (E : Env) (e : event) (oracle : nat -> answer A)
      (w : World) (s : string) (st : UserState) (tr : list event) :
  holds w s st tr ->
  exists w', request E e oracle w = (of_answer (oracle (tick w)), w') /\
             holds w' s st (tr ++ [e]).
Proof.
  intros [Hst Htr]. eexists. split; [reflexivity|].
  split; [exact Hst|cbn; now rewrite Htr].
Qed.

Lemma get_chatgpt_response_holds (E : Env) (fuel : nat)
      (um x s page : string) (w : World) (st : UserState) (tr : list event) :
  holds w s st tr ->
  exists w',
    get_chatgpt_response E fuel um (EntryOf x) s page w
    = (Ok (TextReply error_message), w') /\
    holds w' s st (tr ++ [AssistantsRetrieve (get_assistant_id E page)]).
Proof.
  intros [Hst Htr]. eexists.
  split; [apply get_chatgpt_response_per_user_dict|].
  split; [exact Hst|cbn; now rewrite Htr].
Qed.

Lemma save_entry_holds (E : Env) (w : World) (s : string) (st : UserState)
      (tr : list event) :
  holds w s st tr ->
  exists st' w' saved,
    save_entry E s w = (Ok tt, w') /\
    holds w' s st' (tr ++ saved) /\
    Forall (fun e => e = Saved s) saved /\
    (st' = st \/ exists t, st' = set_last_message_time (Some (IsoTime t)) st).
Proof.
  intros [Hst Htr].
  destruct (save_entry_spec E s st w Hst)
    as (st' & w' & saved & Hrun & Hst' & Hus & Htr' & Hsaved).
  exists st', w', saved. split; [exact Hrun|].
  split; [split; [rewrite Hus; apply lookup_insert_eq|now rewrite Htr', Htr]|].
  split; assumption.
Qed.

Lemma sentiment_holds (E : Env) (um s : string) (w : World) (st : UserState)
      (tr : list event) :
  holds w s st tr ->
  exists w' (r : option Z),
    try_except
      (let! sentiment_result :=
         request E (SentimentAnalysis um) (fun k => sentiment_analysis E k um) in
       match sentiment_result with
       | Some r => update WholeUserState s (set_rank (Some r))
       | None => ret tt
       end) (fun _ => ret tt) w = (Ok tt, w') /\
    holds w' s (match r with Some _ => set_rank r st | None => st end)
          (tr ++ [SentimentAnalysis um]).
Proof.
  intros H.
  destruct (request_holds E (SentimentAnalysis um)
              (fun k => sentiment_analysis E k um) w s st tr H) as (w1 & Hreq & H1).
  unfold try_except. cbn beta in Hreq.
  destruct (sentiment_analysis E (tick w) um) as [[r|]|e]; cbn [of_answer] in Hreq.
  - destruct (update_holds w1 s st _ (set_rank (Some r)) H1) as (w2 & Hup & H2 & _).
    rewrite (bind_ok _ _ _ _ _ Hreq), Hup. exists w2, (Some r). now split.
  - rewrite (bind_ok _ _ _ _ _ Hreq). exists w1, None. now split.
  - rewrite (bind_raise _ _ _ _ _ Hreq). exists w1, None. now split.
Qed.

Lemma answer_turn_spec (E : Env) (fuel : nat) (sender page um : string)
      (w : World) (st : UserState) (tr : list event) :
  holds w sender st tr ->
  exists (st' : UserState) (w' : World) (saved : list event),
    answer_turn E fuel sender page um w
    = (Ok (Replied (TextReply error_message)), w') /\
    holds w' sender st'
          (tr ++ AssistantsRetrieve (get_assistant_id E page)
              :: SentimentAnalysis um :: saved) /\
    Forall (fun e => e = Saved sender) saved /\
    messages_context st' = (messages_context st ++ error_entries um)%list /\
    message_count st' = message_count st /\
    has_stop_message st' = has_stop_message st /\
    thread_id st' = thread_id st.
Proof.
  intros H0. unfold answer_turn.
  destruct (get_chatgpt_response_holds E fuel um sender sender page w st tr H0)
    as (w1 & R1 & H1).
  rewrite (bind_ok _ _ _ _ _ R1).
  destruct (update_holds w1 sender _ _
              (append_context {| role := "user"; content := AsText um |}) H1)
    as (w2 & R2 & H2 & _).
  rewrite (bind_ok _ _ _ _ _ R2).
  destruct (update_holds w2 sender _ _
              (append_context {| role := "assistant";
                                 content := AsResponse (TextReply error_message) |}) H2)
    as (w3 & R3 & H3 & _).
  rewrite (bind_ok _ _ _ _ _ R3).
  destruct (time_holds E w3 sender _ _ H3) as (t & w4 & R4 & H4).
  rewrite (bind_ok _ _ _ _ _ R4).
  destruct (update_holds w4 sender _ _
              (set_last_message_time (Some (UnixTime (t / 1000)))) H4)
    as (w5 & R5 & H5 & _).
  rewrite (bind_ok _ _ _ _ _ R5).
  destruct (sentiment_holds E um sender w5 _ _ H5) as (w6 & r & R6 & H6).
  rewrite (bind_ok _ _ _ _ _ R6).
  destruct (save_entry_holds E w6 sender _ _ H6)
    as (st' & w7 & saved & R7 & H7 & Hsaved & Hst').
  rewrite (bind_ok _ _ _ _ _ R7).
  exists st', w7, saved. split; [reflexivity|].
  split; [now rewrite <- !app_assoc in H7|]. split; [exact Hsaved|].
  unfold error_entries.
  destruct Hst' as [->|[t' ->]]; destruct r; cbn; rewrite <- app_assoc; auto.
Qed.

Lemma counted_fields (um : string) (st : UserState) :
  message_count (counted um st) = message_count st + 1 /\
  has_stop_message (counted um st) = false /\
  messages_context (counted um st) = messages_context st /\
  thread_id (counted um st) = thread_id st /\
  last_message (counted um st) = um.
Proof.
  unfold counted. cbn. destruct (has_stop_message st) eqn:H; cbn; auto.
Qed.

(** Lines 312-319. *)
Lemma count_turn_holds (sender um : string) (w : World) (st : UserState)
      (tr : list event) {A} (k : M World A) :
  holds w sender st tr ->
  exists w',
    (let! _ := update WholeUserState sender
                 (fun st => set_message_count (message_count st + 1) st) in
     let! _ := update WholeUserState sender (set_last_message um) in
     let! st := getitem WholeUserState sender in
     let! _ := (if has_stop_message st
                then update WholeUserState sender (set_has_stop_message false)
                else ret tt) in
     k) w = k w' /\
    holds w' sender (counted um st) tr /\ tick w' = tick w.
Proof.
  intros H0.
  destruct (update_holds w sender _ _
              (fun st => set_message_count (message_count st + 1) st) H0)
    as (w1 & R1 & H1 & T1).
  destruct (update_holds w1 sender _ _ (set_last_message um) H1)
    as (w2 & R2 & H2 & T2).
  rewrite (bind_ok _ _ _ _ _ R1), (bind_ok _ _ _ _ _ R2).
  rewrite (bind_ok _ _ _ _ _ (getitem_holds _ _ _ _ H2)).
  unfold counted. cbn [has_stop_message set_last_message set_message_count].
  destruct (has_stop_message st) eqn:Hstop.
  - destruct (update_holds w2 sender _ _ (set_has_stop_message false) H2)
      as (w3 & R3 & H3 & T3).
    rewrite (bind_ok _ _ _ _ _ R3). exists w3. split; [reflexivity|].
    split; [exact H3|congruence].
  - exists w2. split; [reflexivity|]. split; [exact H2|congruence].
Qed.

(** Lines 321-339 when the POST returns. *)
Lemma end_conversation_spec (E : Env) (sender page : string) (w : World)
      (st : UserState) (tr : list event) :
  holds w sender st tr ->
  post_message E (tick w) sender page (end_message_for E page) = Returns tt ->
  exists (st' : UserState) (w' : World) (saved : list event),
    end_conversation E sender page w = (Ok END_OF_CONVERSATION, w') /\
    holds w' sender st' (tr ++ Sent sender page (end_message_for E page) :: saved) /\
    Forall (fun e => e = Saved sender) saved /\
    message_count st' = 0 /\
    has_stop_message st' = true /\
    messages_context st' = messages_context st /\
    thread_id st' = thread_id st.
Proof.
  intros H0 Hpost. unfold end_conversation, callSendAPI.
  destruct (request_holds E (Sent sender page (end_message_for E page))
              (fun k => post_message E k sender page (end_message_for E page))
              w sender st tr H0) as (w1 & R1 & H1).
  cbn beta in R1. rewrite Hpost in R1. cbn [of_answer reply_text] in R1 |- *.
  rewrite (bind_ok _ _ _ _ _ R1).
  destruct (update_holds w1 sender _ _ (set_message_count 0) H1)
    as (w2 & R2 & H2 & _).
  rewrite (bind_ok _ _ _ _ _ R2).
  destruct (update_holds w2 sender _ _ (set_has_stop_message true) H2)
    as (w3 & R3 & H3 & _).
  rewrite (bind_ok _ _ _ _ _ R3).
  destruct (save_entry_holds E w3 sender _ _ H3)
    as (st' & w4 & saved & R4 & H4 & Hsaved & Hst').
  rewrite (bind_ok _ _ _ _ _ R4).
  exists st', w4, saved. split; [reflexivity|].
  split; [now rewrite <- app_assoc in H4|]. split; [exact Hsaved|].
  destruct Hst' as [->|[t ->]]; cbn; auto.
Qed.

(** Lines 312-393, the two ways out. *)
Lemma process_text_end (E : Env) (fuel : nat) (sender page um : string)
      (w : World) (st : UserState) (tr : list event) :
  holds w sender st tr ->
  get_max_messages E page < message_count st + 1 ->
  post_message E (tick w) sender page (end_message_for E page) = Returns tt ->
  exists (st' : UserState) (w' : World) (saved : list event),
    process_text E fuel sender page um w = (Ok END_OF_CONVERSATION, w') /\
    holds w' sender st' (tr ++ Sent sender page (end_message_for E page) :: saved) /\
    Forall (fun e => e = Saved sender) saved /\
    message_count st' = 0 /\
    has_stop_message st' = true /\
    messages_context st' = messages_context st /\
    thread_id st' = thread_id st.
Proof.
  intros H0 Hmax Hpost. unfold process_text.
  destruct (count_turn_holds sender um w st tr
              (let! st := getitem WholeUserState sender in
               if (get_max_messages E page <? message_count st)%Z
               then end_conversation E sender page
               else answer_turn E fuel sender page um) H0)
    as (w1 & -> & H1 & T1).
  rewrite (bind_ok _ _ _ _ _ (getitem_holds _ _ _ _ H1)).
  destruct (counted_fields um st) as (Hc & _ & Hctx & Hth & _).
  rewrite Hc. rewrite (proj2 (Z.ltb_lt _ _) Hmax).
  rewrite <- T1 in Hpost.
  destruct (end_conversation_spec E sender page w1 _ tr H1 Hpost)
    as (st' & w' & saved & R & H' & Hsaved & Hcount & Hstop & Hctx' & Hth').
  exists st', w', saved. repeat split; try apply H'; auto; congruence.
Qed.

Lemma process_text_answer (E : Env) (fuel : nat) (sender page um : string)
      (w : World) (st : UserState) (tr : list event) :
  holds w sender st tr ->
  message_count st + 1 <= get_max_messages E page ->
  exists (st' : UserState) (w' : World) (saved : list event),
    process_text E fuel sender page um w
    = (Ok (Replied (TextReply error_message)), w') /\
    holds w' sender st'
          (tr ++ AssistantsRetrieve (get_assistant_id E page)
              :: SentimentAnalysis um :: saved) /\
    Forall (fun e => e = Saved sender) saved /\
    messages_context st' = (messages_context st ++ error_entries um)%list /\
    message_count st' = message_count st + 1 /\
    thread_id st' = thread_id st.
Proof.
  intros H0 Hmax. unfold process_text.
  destruct (count_turn_holds sender um w st tr
              (let! st := getitem WholeUserState sender in
               if (get_max_messages E page <? message_count st)%Z
               then end_conversation E sender page
               else answer_turn E fuel sender page um) H0)
    as (w1 & -> & H1 & T1).
  rewrite (bind_ok _ _ _ _ _ (getitem_holds _ _ _ _ H1)).
  destruct (counted_fields um st) as (Hc & _ & Hctx & Hth & _).
  rewrite Hc. rewrite (proj2 (Z.ltb_ge _ _) Hmax).
  destruct (answer_turn_spec E fuel sender page um w1 _ tr H1)
    as (st' & w' & saved & R & H' & Hsaved & Hctx' & Hcount & _ & Hth').
  exists st', w', saved. repeat split; try apply H'; auto; congruence.
Qed.

(** The duplicate check touches only [processed_message_ids]. *)
Lemma check_duplicate_frame (E : Env) (message_id : option string)
      (w w1 : World) (r : outcome bool) :
  check_duplicate E message_id w = (r, w1) ->
  trace w1 = trace w /\ user_state w1 = user_state w /\
  user_states w1 = user_states w /\ tick w1 = tick w.
Proof.
  unfold check_duplicate, bind, get, modify, ret.
  destruct (truthy message_id); [|intros Hr; inversion Hr; auto].
  case_bool_decide; intros Hr; inversion Hr; auto.
Qed.

(** Loading always succeeds, leaves a dictionary for the sender and logs
    no request. *)
Lemma load_try_block (G : GateEnv) (E : Env) (sender page um : string) (w : World) :
  exists w1,
    try_except
      (let! conn := get_db_connection E in
       if conn then
         let! w := get in
         match fetch_user_row sender page (user_states w) with
         | Some user_row => store_entry sender (state_of_row page user_row)
         | None =>
           let! greeting_response :=
             lift_answer (check_greeting_message G sender page) in
           store_entry sender (fresh_state page um)
         end
       else ret tt)
      (fun _ => ret tt) w = (Ok tt, w1) /\
    trace w1 = trace w /\ user_states w1 = user_states w /\
    (user_state w1 = user_state w \/
     exists st, user_state w1 = <[sender := st]> (user_state w)).
Proof.
  unfold try_except, bind, get_db_connection, get.
  destruct (db_connect E (tick w)).
  - cbn [advance set_clock user_states].
    destruct (fetch_user_row sender page (user_states w)) as [row|].
    + eexists. split; [reflexivity|]. cbn. eauto.
    + unfold lift_answer.
      destruct (check_greeting_message G sender page) as [b|e];
        cbn [of_answer].
      * eexists. split; [reflexivity|]. cbn. eauto.
      * eexists. split; [reflexivity|]. cbn. eauto.
  - eexists. split; [reflexivity|]. cbn. eauto.
Qed.

Lemma load_user_state_spec (G : GateEnv) (E : Env) (sender page um : string) (w : World) :
  exists (w' : World) (st : UserState),
    load_user_state G E sender page um w = (Ok tt, w') /\
    holds w' sender st (trace w) /\
    user_states w' = user_states w.
Proof.
  unfold load_user_state.
  destruct (load_try_block G E sender page um w) as (w1 & R1 & Htr & Htab & Hus).
  rewrite (bind_ok _ _ _ _ _ R1). unfold bind, get.
  destruct (user_state w1 !! sender) as [st|] eqn:Hst.
  - exists w1, st. split; [reflexivity|]. split; [split; assumption|assumption].
  - eexists _, _. split; [reflexivity|].
    split; [split; [cbn; apply lookup_insert_eq|exact Htr]|exact Htab].
Qed.

(** With a reachable database the dictionary is the stored row of the
    (sender, page) pair, or a fresh one when there is no such row and the
    greeting check returned. *)
Lemma load_user_state_row (G : GateEnv) (E : Env) (sender page um : string) (w : World)
      (row : Row) :
  db_connect E (tick w) = true ->
  fetch_user_row sender page (user_states w) = Some row ->
  exists w', load_user_state G E sender page um w = (Ok tt, w') /\
             holds w' sender (state_of_row page row) (trace w) /\
             tick w' = S (tick w).
Proof.
  intros Hdb Hrow.
  unfold load_user_state, try_except, bind, get_db_connection, get.
  rewrite Hdb. cbn [advance set_clock user_states]. rewrite Hrow.
  unfold store_entry, modify, ret. cbn [user_state set_user_state].
  rewrite lookup_insert_eq.
  eexists. split; [reflexivity|].
  split; [split; [cbn; apply lookup_insert_eq|reflexivity]|reflexivity].
Qed.

(** No turn of the main handler submits anything to the AI service:
    whatever the message, the stored state and the collaborators'
    answers, the log gains no thread, no thread message and no run. *)
Lemma process_text_submits_nothing
    (E : Env) (fuel : nat) (sender page um : string) (w : World)
    (st : UserState) (tr : list event) :
  holds w sender st tr ->
  submissions (trace (snd (process_text E fuel sender page um w)))
  = submissions tr.
Proof.
  intros H0.
  destruct (Z.lt_ge_cases (get_max_messages E page) (message_count st + 1))
    as [Hmax|Hmax].
  - destruct (post_message E (tick w) sender page (end_message_for E page))
      as [[]|e] eqn:Hpost.
    + destruct (process_text_end E fuel sender page um w st tr H0 Hmax Hpost)
        as (st' & w' & saved & -> & [_ Htr] & Hsaved & _).
      cbn [snd]. rewrite Htr, submissions_app.
      rewrite submissions_skip by reflexivity.
      now rewrite (submissions_saved _ _ Hsaved), app_nil_r.
    + unfold process_text.
      destruct (count_turn_holds sender um w st tr
                  (let! st := getitem WholeUserState sender in
                   if (get_max_messages E page <? message_count st)%Z
                   then end_conversation E sender page
                   else answer_turn E fuel sender page um) H0)
        as (w1 & -> & H1 & T1).
      rewrite (bind_ok _ _ _ _ _ (getitem_holds _ _ _ _ H1)).
      destruct (counted_fields um st) as (Hc & _).
      rewrite Hc, (proj2 (Z.ltb_lt _ _) Hmax).
      unfold end_conversation, callSendAPI.
      destruct (request_holds E (Sent sender page (end_message_for E page))
                  (fun k => post_message E k sender page (end_message_for E page))
                  w1 sender _ tr H1) as (w2 & R & [_ Htr]).
      cbn beta in R. rewrite T1, Hpost in R. cbn [of_answer reply_text] in R |- *.
      rewrite (bind_raise _ _ _ _ _ R). cbn [snd].
      rewrite Htr, submissions_app. cbn. now rewrite app_nil_r.
  - destruct (process_text_answer E fuel sender page um w st tr H0 Hmax)
      as (st' & w' & saved & -> & [_ Htr] & Hsaved & _).
    cbn [snd]. rewrite Htr, submissions_app.
    rewrite !submissions_skip by reflexivity.
    now rewrite (submissions_saved _ _ Hsaved), app_nil_r.
Qed.

Lemma main_handler_submits_nothing
    (G : GateEnv) (E : Env) (fuel : nat) (senderPSID page_id : string)
    (msg : received_message) (w : World) :
  submissions (trace (snd (get_assistant_response G E fuel senderPSID msg page_id w)))
  = submissions (trace w).
Proof.
  unfold get_assistant_response. unfold bind at 1.
  destruct (check_duplicate E (mid msg) w) as [[[|]|e|] w1] eqn:Hdup;
    destruct (check_duplicate_frame _ _ _ _ _ Hdup) as (Htr1 & _);
    cbv beta iota; try (unfold ret; cbn [snd]; now rewrite Htr1).
  destruct (text msg) as [um|].
  - destruct (load_user_state_spec G E senderPSID (map_page_id page_id) um w1)
      as (w2 & st & R & H2 & _).
    rewrite (bind_ok _ _ _ _ _ R).
    rewrite (process_text_submits_nothing E fuel _ _ um w2 st _ H2).
    now rewrite Htr1.
  - unfold callSendAPI, bind, request.
    destruct (attachments msg);
      match goal with
      | |- context [post_message E ?k ?a ?b ?c] =>
        destruct (post_message E k a b c) as [[]|e]
      end; cbn; rewrite submissions_app, Htr1; cbn; now rewrite app_nil_r.
Qed.

(** ** Turn processor: the end of a conversation *)

(** C4, as amended.  When the counted turn exceeds the page's max-turns
    and the POST of the end message returns, the turn is answered with
    the end message alone (no request goes to the AI service),
    [message_count] is reset to 0 and [has_stop_message] is set to
    [True]. *)
Theorem end_of_conversation_reset
    (G : GateEnv) (E : Env) (fuel : nat) (senderPSID page_id user_message : string)
    (msg : received_message) (w w1 w2 : World) (st : UserState) :
  let page := map_page_id page_id in
  text msg = Some user_message ->
  check_duplicate E (mid msg) w = (Ok false, w1) ->
  load_user_state G E senderPSID page user_message w1 = (Ok tt, w2) ->
  user_state w2 !! senderPSID = Some st ->
  get_max_messages E page < message_count st + 1 ->
  post_message E (tick w2) senderPSID page (end_message_for E page) = Returns tt ->
  exists (st' : UserState) (w' : World) (saved : list event),
    get_assistant_response G E fuel senderPSID msg page_id w
    = (Ok END_OF_CONVERSATION, w') /\
    trace w' = (trace w ++ Sent senderPSID page (end_message_for E page) :: saved)%list /\
    Forall (fun e => e = Saved senderPSID) saved /\
    user_state w' !! senderPSID = Some st' /\
    message_count st' = 0 /\
    has_stop_message st' = true.
Proof.
  intros page Htext Hdup Hload Hst Hmax Hpost.
  destruct (check_duplicate_frame _ _ _ _ _ Hdup) as (Htr1 & _).
  destruct (load_user_state_spec G E senderPSID page user_message w1)
    as (w2' & st2 & Hload' & [_ Htr2] & _).
  rewrite Hload in Hload'. inversion Hload'; subst w2'; clear Hload'.
  assert (H2 : holds w2 senderPSID st (trace w)) by (split; [exact Hst|congruence]).
  destruct (process_text_end E fuel senderPSID page user_message w2 st _ H2 Hmax Hpost)
    as (st' & w' & saved & R & [Hst' Htr'] & Hsaved & Hcount & Hstop & _).
  exists st', w', saved.
  unfold get_assistant_response. fold page.
  rewrite (bind_ok _ _ _ _ _ Hdup), Htext, (bind_ok _ _ _ _ _ Hload), R.
  auto 10.
Qed.

Lemma end_of_conversation_reset_witness :
  exists (st' : UserState) (w' : World) (saved : list event),
    get_assistant_response new_lead_gate stock_env 0 "user" hi "page"
                           (boot [stored_row 10 (Some "thread_1") []])
    = (Ok END_OF_CONVERSATION, w') /\
    trace w' = ([] ++ Sent "user" "page" "Goodbye" :: saved)%list /\
    Forall (fun e => e = Saved "user") saved /\
    user_state w' !! "user" = Some st' /\
    message_count st' = 0 /\
    has_stop_message st' = true.
Proof.
  eapply (end_of_conversation_reset new_lead_gate stock_env 0 "user" "page" "hi"
            hi (boot [stored_row 10 (Some "thread_1") []])).
  - reflexivity.
  - reflexivity.
  - vm_compute. reflexivity.
  - vm_compute. reflexivity.
  - vm_compute. reflexivity.
  - reflexivity.
Defined.

(** C4, as stated, fails: the flag is false when the tenth turn is
    stored and true after the eleventh ended the conversation, so the
    reset does write [has_stop_message]. *)
Lemma reset_writes_stop_flag :
  let stored := stored_row 10 (Some "thread_1") [] in
  let r := get_assistant_response new_lead_gate stock_env 0 "user" hi "page"
                                  (boot [stored]) in
  fst r = Ok END_OF_CONVERSATION /\
  has_stop_message (columns stored) = false /\
  has_stop_message <$> user_state (snd r) !! "user" = Some true /\
  message_count <$> user_state (snd r) !! "user" = Some 0.
Proof. vm_compute. auto. Qed.

(** ** Turn processor: the gate *)

(** The answer of the greeting check is never read: whenever the check
    returns, a turn runs the same way and ends in the same state whether
    the gate said "respond" or "stay silent". *)
Lemma gate_answer_unread
    (G G' : GateEnv) (E : Env) (fuel : nat) (senderPSID page_id : string)
    (msg : received_message) (w : World) (b b' : bool) :
  check_greeting_message G senderPSID (map_page_id page_id) = Returns b ->
  check_greeting_message G' senderPSID (map_page_id page_id) = Returns b' ->
  get_assistant_response G' E fuel senderPSID msg page_id w
  = get_assistant_response G E fuel senderPSID msg page_id w.
Proof.
  intros Hb Hb'. unfold get_assistant_response, load_user_state.
  rewrite Hb, Hb'. reflexivity.
Qed.

(** C2 fails on the code.  The page has a marker, the conversation exists
    and no page message contains the marker, so the gate is false; the
    turn of this new user is processed all the same: the assistant is
    retrieved from the AI service, the turn is counted, two entries enter
    the context and the state is written to the table. *)
Theorem silent_gate_turn_is_processed :
  let E := stock_env in
  let r := get_assistant_response handed_over_gate E 0 "user" hi "page"
                                  (boot []) in
  shouldRespond handed_over_gate "user" "page" = Returns false /\
  fst r = Ok (Replied (TextReply error_message)) /\
  trace (snd r)
  = [AssistantsRetrieve "asst_1"; SentimentAnalysis "hi"; Saved "user"] /\
  messages_context <$> user_state (snd r) !! "user" = Some (error_entries "hi") /\
  message_count <$> user_state (snd r) !! "user" = Some 2 /\
  length (user_states (snd r)) = 1%nat.
Proof. vm_compute. auto 10. Qed.

(** ** Rolling context *)

(** C5 fails on the main handler.  Twelve messages of a new user on a
    page with max-turns 10, the table empty at first: nine turns are
    answered, the tenth ends the conversation, two more are answered, and
    the context holds 22 entries.  Likewise a stored context of 20
    entries has 22 after one more turn, the 20 old ones still in front:
    nothing is trimmed. *)
Theorem main_handler_context_outgrows_20 :
  let E := stock_env in
  let w12 := turns new_lead_gate E 12 (boot []) in
  let r := get_assistant_response new_lead_gate E 0 "user" hi "page"
             (boot [stored_row 1 (Some "thread_1") twenty_entries]) in
  get_max_messages E "page" = 10 /\
  (length <$> (messages_context <$> user_state w12 !! "user")) = Some 22%nat /\
  message_count <$> user_state w12 !! "user" = Some 2 /\
  length twenty_entries = 20%nat /\
  messages_context <$> user_state (snd r) !! "user"
  = Some (twenty_entries ++ error_entries "hi")%list.
Proof. vm_compute. auto 10. Qed.

(** Every turn of the main handler that reaches the AI step leaves the
    context two entries longer, whatever its length was. *)
Lemma main_handler_context_grows
    (E : Env) (fuel : nat) (sender page um : string) (w : World)
    (st : UserState) :
  user_state w !! sender = Some st ->
  message_count st + 1 <= get_max_messages E page ->
  exists st' w',
    process_text E fuel sender page um w
    = (Ok (Replied (TextReply error_message)), w') /\
    user_state w' !! sender = Some st' /\
    length (messages_context st') = (length (messages_context st) + 2)%nat.
Proof.
  intros Hst Hmax.
  destruct (process_text_answer E fuel sender page um w st (trace w)
              (conj Hst eq_refl) Hmax)
    as (st' & w' & saved & R & [Hst' _] & _ & Hctx & _).
  exists st', w'. split; [exact R|]. split; [exact Hst'|].
  rewrite Hctx, length_app. reflexivity.
Qed.

(** The sibling [fast_process_message] does trim: at most 20 entries
    stay, and they are the newest ones in their order. *)
Lemma fast_update_context_bound (m : string) (r : entry_content) (st : UserState) :
  (length (messages_context (fast_update_context m r st)) <= 20)%nat /\
  exists dropped,
    (messages_context st
       ++ [{| role := "user"; content := AsText m |};
           {| role := "assistant"; content := r |}])%list
    = (dropped ++ messages_context (fast_update_context m r st))%list.
Proof.
  unfold fast_update_context, append_context.
  cbn [messages_context set_messages_context].
  rewrite <- app_assoc. cbn [app].
  set (l := (messages_context st ++ _)%list).
  destruct (20 <? length l)%nat eqn:H; cbn [messages_context set_messages_context].
  - apply Nat.ltb_lt in H. unfold last_n. split.
    + rewrite length_skipn. lia.
    + exists (firstn (length l - 20) l). symmetry. apply firstn_skipn.
  - apply Nat.ltb_ge in H. split; [exact H|]. exists []. reflexivity.
Qed.

(** ** Session continuity *)

(** C6 fails on the code.  The table holds a conversation with thread
    ["thread_1"]; it is restored at start-up and loaded again by the
    turn.  The turn submits nothing to that thread, nor to any other: it
    retrieves the assistant and answers the fixed error reply, although
    the service would have completed a run at once. *)
Theorem restored_thread_not_resumed :
  let E := stock_env in
  let table := [stored_row 3 (Some "thread_1") []] in
  let w0 := snd (restore_user_states_from_database E (boot table)) in
  let r := get_assistant_response new_lead_gate E 50 "user" hi "page" w0 in
  thread_id <$> main_user_state w0 !! "user" = Some (Some "thread_1") /\
  fst r = Ok (Replied (TextReply error_message)) /\
  thread_id <$> user_state (snd r) !! "user" = Some (Some "thread_1") /\
  trace (snd r)
  = [AssistantsRetrieve "asst_1"; SentimentAnalysis "hi"; Saved "user"].
Proof. vm_compute. auto. Qed.

(** What the session manager does with the dictionary of all users: the
    stored thread is the one the message and the run are submitted to,
    and no thread is created. *)
Lemma stored_thread_resumed_on_whole_dictionary :
  let E := stock_env in
  let w := set_user_state {["user" := stored_state 3 (Some "thread_1") []]} (boot []) in
  let r := get_chatgpt_response E 50 "hi" WholeUserState "user" "page" w in
  fst r = Ok (TextReply "Hello!") /\
  trace (snd r)
  = [AssistantsRetrieve "asst_1"; RunsList "thread_1";
     MessagesCreate "thread_1" "hi"; RunsCreate "thread_1" "asst_1";
     MessagesList "thread_1"].
Proof. vm_compute. auto. Qed.

(** Restoration files a thread under [sender+page]; the session manager
    looks it up under [sender_page]. *)
Lemma restored_thread_key_not_looked_up :
  let E := stock_env in
  let w0 := snd (restore_user_states_from_database E
                   (boot [stored_row 3 (Some "thread_1") []])) in
  ti_thread_id <$> user_threads w0 !! "user+page" = Some (Some "thread_1") /\
  user_threads w0 !! "user_page" = None.
Proof. vm_compute. auto. Qed.

(** ** Conversation store *)

(** Every row of the sender is overwritten, whatever its page. *)
Lemma update_rows_all_pages (sender : string) (state : UserState)
      (table : list Row) :
  Forall (fun r => sender_id r = sender -> columns r = saved_columns state)
         (update_rows sender state table).
Proof.
  unfold update_rows. induction table as [|r table IH]; cbn; constructor.
  - case_bool_decide; cbn; [reflexivity|congruence].
  - exact IH.
Qed.

(** C8 fails on the code.  The table holds the state of ["user"] on
    ["page_b"].  Saving the state of the same user on ["page"] finds a row
    by [sender_id] alone and updates it: the row of ["page_b"] is gone and
    its thread handle with it.  A turn on ["page"] does the same. *)
Theorem save_overwrites_other_page :
  let E := stock_env in
  let w := boot [other_page_row] in
  let saved := save_user_state_to_db E "user" (stored_state 1 None []) w in
  let turn := get_assistant_response new_lead_gate E 0 "user" hi "page" w in
  fetch_user_row "user" "page_b" (user_states w) = Some other_page_row /\
  fst saved = Ok (true, set_last_message_time (Some (IsoTime 1000000))
                                              (stored_state 1 None [])) /\
  fetch_user_row "user" "page_b" (user_states (snd saved)) = None /\
  map (fun r => (sender_id r, page_id (columns r), thread_id (columns r)))
      (user_states (snd saved)) = [("user", "page", None)] /\
  fetch_user_row "user" "page_b" (user_states (snd turn)) = None /\
  map (fun r => (sender_id r, page_id (columns r))) (user_states (snd turn))
  = [("user", "page")].
Proof. vm_compute. auto 10. Qed.

(** ** Context entries of a turn *)


(** Handed the dictionary of all users, the session manager does append
    the user message and the text of the reply. *)
Lemma session_manager_appends_on_whole_dictionary :
  let E := stock_env in
  let w := set_user_state {["user" := stored_state 3 (Some "thread_1") []]} (boot []) in
  let r := get_chatgpt_response E 50 "hi" WholeUserState "user" "page" w in
  messages_context <$> user_state (snd r) !! "user"
  = Some [{| role := "user"; content := AsText "hi" |};
          {| role := "assistant"; content := AsText "Hello!" |}].
Proof. vm_compute. auto. Qed.

(** ** Batching queue *)

Lemma queue_get_set_eq (k : string) (b : batch) (q : queue) :
  queue_get k (queue_set k b q) = Some b.
Proof.
  induction q as [|[k' b'] q IH]; cbn.
  - now rewrite String.eqb_refl.
  - destruct (String.eqb k k') eqn:H; cbn; [now rewrite String.eqb_refl|].
    now rewrite H.
Qed.

Lemma queue_set_set (k : string) (b b0 : batch) (q : queue) :
  queue_set k b (queue_set k b0 q) = queue_set k b q.
Proof.
  induction q as [|[k' b'] q IH]; cbn.
  - now rewrite String.eqb_refl.
  - destruct (String.eqb k k') eqn:H; cbn; [now rewrite String.eqb_refl|].
    now rewrite H, IH.
Qed.

Lemma queue_del_set (k : string) (b : batch) (q : queue) :
  queue_del k (queue_set k b q) = queue_del k q.
Proof.
  induction q as [|[k' b'] q IH]; cbn.
  - now rewrite String.eqb_refl.
  - destruct (String.eqb k k') eqn:H; cbn.
    + now rewrite String.eqb_refl.
    + now rewrite H, IH.
Qed.

Lemma queue_get_del (k : string) (q : queue) :
  queue_get k (queue_del k q) = None.
Proof.
  induction q as [|[k' b'] q IH]; cbn; [reflexivity|].
  destruct (String.eqb k k') eqn:H; cbn; [exact IH|]. now rewrite H.
Qed.


Lemma pending_ok_set (k : string) (b : batch) (q : queue) :
  pending_ok q = true -> user_messages_queue b <> [] ->
  pending_ok (queue_set k b q) = true.
Proof.
  intros Hok Hb.
  assert (Hb' : negb (bool_decide (user_messages_queue b = [])) = true)
    by now apply negb_true_iff, bool_decide_eq_false.
  revert Hok. unfold pending_ok.
  induction q as [|[k' b'] q IH]; cbn; intros Hok.
  - now rewrite Hb'.
  - apply andb_prop in Hok. destruct Hok as [Hb0 Hq].
    destruct (String.eqb k k'); cbn.
    + now rewrite Hb', Hq.
    + now rewrite Hb0, IH.
Qed.

Lemma pending_ok_del (k : string) (q : queue) :
  pending_ok q = true -> pending_ok (queue_del k q) = true.
Proof.
  unfold pending_ok. induction q as [|[k' b'] q IH]; cbn; [reflexivity|].
  intros Hok. apply andb_prop in Hok. destruct Hok as [Hb Hq].
  destruct (String.eqb k k'); cbn; [now apply IH|]. now rewrite Hb, IH.
Qed.

Lemma batch_after_add_nonempty (page : string) (t : Z) (m : string)
      (old : option batch) :
  user_messages_queue (batch_after_add page t m old) <> [].
Proof.
  destruct old as [b|]; cbn; [|discriminate].
  destruct (user_messages_queue b); discriminate.
Qed.

(** Arrival order: the new message goes behind the ones waiting. *)
Lemma batch_after_add_order (page : string) (t : Z) (m : string) (b : batch) :
  user_messages_queue (batch_after_add page t m (Some b))
  = (user_messages_queue b ++ [m])%list.
Proof. reflexivity. Qed.

Section QueueProofs.
Variable W : Type.
Variable clock : W -> Z * W.
Variable handler : string -> received_message -> string -> M W handler_result.

(** Lines 263-271 in one step. *)
Lemma add_message_spec (senderPSID page m : string) (t : Z) (q : queue) (w : W) :
  add_message W senderPSID page m t (q, w)
  = (Ok tt, (queue_set senderPSID
               (batch_after_add page t m (queue_get senderPSID q)) q, w)).
Proof.
  unfold add_message, bind, get_queue, queue_item. cbn [fst snd].
  destruct (queue_get senderPSID q) as [b|] eqn:Hget; cbn.
  - unfold bind, get_queue. cbn. rewrite Hget. reflexivity.
  - unfold bind, get_queue. cbn. rewrite queue_get_set_eq. cbn.
    unfold set_queue. cbn. now rewrite queue_set_set.
Qed.

Lemma hand_over_queue (senderPSID merged page : string) (s s' : queue * W)
      (r : outcome unit) :
  hand_over W handler senderPSID merged page s = (r, s') -> fst s' = fst s.
Proof.
  unfold hand_over, call_handler, ret.
  destruct (truthy (Some merged)); [|intros H; now inversion H].
  destruct (handler senderPSID (text_message merged) page (snd s)) as [[a|e|] w'];
    intros H; now inversion H.
Qed.
Lemma read_clock_spec (q : queue) (w : W) :
  read_clock W clock (q, w) = (Ok (fst (clock w)), (q, snd (clock w))).
Proof. unfold read_clock. cbn. now destruct (clock w). Qed.

Lemma queue_item_spec (k : string) (b : batch) (q : queue) (w : W) :
  queue_get k q = Some b -> queue_item W k (q, w) = (Ok b, (q, w)).
Proof. intros H. unfold queue_item, bind, get_queue. cbn. now rewrite H. Qed.

Lemma queue_item_missing (k : string) (q : queue) (w : W) :
  queue_get k q = None -> queue_item W k (q, w) = (Raise KeyError, (q, w)).
Proof. intros H. unfold queue_item, bind, get_queue. cbn. now rewrite H. Qed.

(** Lines 275-306, case by case. *)
Lemma flush_batch_full (senderPSID page : string) (t max_time : Z)
      (max_messages : nat) (b : batch) (q : queue) (w : W) :
  queue_get senderPSID q = Some b ->
  (max_messages <= length (user_messages_queue b))%nat ->
  flush_batch W clock handler senderPSID page t max_time max_messages (q, w)
  = hand_over W handler senderPSID (join " " (user_messages_queue b)) page
              (queue_del senderPSID q, w).
Proof.
  intros Hget Hlen. unfold flush_batch.
  rewrite (bind_ok _ _ _ _ _ (queue_item_spec _ _ _ w Hget)).
  rewrite (proj2 (Nat.leb_le _ _) Hlen). reflexivity.
Qed.

Lemma flush_batch_late (senderPSID page : string) (t max_time : Z)
      (max_messages : nat) (b : batch) (q : queue) (w : W) :
  queue_get senderPSID q = Some b ->
  (length (user_messages_queue b) < max_messages)%nat ->
  max_time <= fst (clock w) - 1000 * t ->
  flush_batch W clock handler senderPSID page t max_time max_messages (q, w)
  = hand_over W handler senderPSID (join " " (user_messages_queue b)) page
              (queue_del senderPSID q, snd (clock w)).
Proof.
  intros Hget Hlen Htime. unfold flush_batch.
  rewrite (bind_ok _ _ _ _ _ (queue_item_spec _ _ _ w Hget)).
  rewrite (proj2 (Nat.leb_gt _ _) Hlen).
  unfold bind at 1. unfold bind at 1. rewrite read_clock_spec.
  unfold ret at 1. rewrite (proj2 (Z.leb_le _ _) Htime). reflexivity.
Qed.

Lemma flush_batch_early (senderPSID page : string) (t max_time : Z)
      (max_messages : nat) (b : batch) (q : queue) (w : W) :
  queue_get senderPSID q = Some b ->
  (length (user_messages_queue b) < max_messages)%nat ->
  fst (clock w) - 1000 * t < max_time ->
  flush_batch W clock handler senderPSID page t max_time max_messages (q, w)
  = (Ok tt, (q, snd (clock w))).
Proof.
  intros Hget Hlen Htime. unfold flush_batch.
  rewrite (bind_ok _ _ _ _ _ (queue_item_spec _ _ _ w Hget)).
  rewrite (proj2 (Nat.leb_gt _ _) Hlen).
  unfold bind at 1. unfold bind at 1. rewrite read_clock_spec.
  unfold ret at 1. rewrite (proj2 (Z.leb_gt _ _) Htime). reflexivity.
Qed.


Lemma flush_single_missing (senderPSID page : string) (t max_time : Z)
      (max_messages : nat) (q : queue) (w : W) :
  queue_get senderPSID q = None ->
  flush_single W clock handler senderPSID page t max_time max_messages (q, w)
  = (Raise KeyError, (q, w)).
Proof.
  intros Hget. unfold flush_single.
  now rewrite (bind_raise _ _ _ _ _ (queue_item_missing _ _ w Hget)).
Qed.

(** Once the batch is deleted and the turn handed over, the rest of the
    call finds no batch and answers. *)
Lemma flushed_call_ends (senderPSID merged page : string) (t max_time : Z)
      (max_messages : nat) (q : queue) (w : W) (c : M (queue * W) unit)
      (s : queue * W) :
  c s = hand_over W handler senderPSID merged page (queue_del senderPSID q, w) ->
  try_except
    (let! _ := c in
     flush_single W clock handler senderPSID page t max_time max_messages)
    (fun _ => ret tt) s
  = turn_handed_over W handler senderPSID merged page (queue_del senderPSID q, w).
Proof.
  intros Hc. unfold try_except, turn_handed_over, bind. rewrite Hc.
  destruct (hand_over W handler senderPSID merged page (queue_del senderPSID q, w))
    as [[[]|e|] [q' w']] eqn:Hh; try reflexivity.
  apply hand_over_queue in Hh. cbn in Hh. subst q'.
  now rewrite (flush_single_missing _ _ _ _ _ _ w' (queue_get_del senderPSID q)).
Qed.


(** The hypothesis of the rule is an invariant: the empty queue has it,
    and [merge_user_messages] and the sweep keep it. *)
Lemma keeps_ret {A} (a : A) : keeps_pending (ret (S := queue * W) a).
Proof. intros s H. exact H. Qed.

Lemma keeps_raise {A} (e : exn) : keeps_pending (raise (S := queue * W) (A := A) e).
Proof. intros s H. exact H. Qed.

Lemma keeps_bind {A B} (c : M (queue * W) A) (k : A -> M (queue * W) B) :
  keeps_pending c -> (forall a, keeps_pending (k a)) -> keeps_pending (bind c k).
Proof.
  intros Hc Hk s H. unfold bind. specialize (Hc s H).
  destruct (c s) as [[a|e|] s']; cbn in *; [now apply Hk|exact Hc|exact Hc].
Qed.

Lemma keeps_try {A} (c : M (queue * W) A) (h : exn -> M (queue * W) A) :
  keeps_pending c -> (forall e, keeps_pending (h e)) -> keeps_pending (try_except c h).
Proof.
  intros Hc Hh s H. unfold try_except. specialize (Hc s H).
  destruct (c s) as [[a|e|] s']; cbn in *; [exact Hc|now apply Hh|exact Hc].
Qed.

Lemma keeps_read_clock : keeps_pending (read_clock W clock).
Proof. intros [q w] H. rewrite read_clock_spec. exact H. Qed.

Lemma keeps_get_queue : keeps_pending (get_queue W).
Proof. intros s H. exact H. Qed.

Lemma keeps_queue_item (k : string) : keeps_pending (queue_item W k).
Proof.
  intros [q w] H. unfold queue_item, bind, get_queue. cbn.
  destruct (queue_get k q); exact H.
Qed.

Lemma keeps_delete (k : string) : keeps_pending (set_queue W (queue_del k)).
Proof. intros s H. cbn. now apply pending_ok_del. Qed.

Lemma keeps_call_handler (k m page : string) :
  keeps_pending (call_handler W handler k m page).
Proof.
  intros s H. unfold call_handler.
  destruct (handler k (text_message m) page (snd s)) as [[a|e|] w']; exact H.
Qed.

Lemma keeps_hand_over (k m page : string) :
  keeps_pending (hand_over W handler k m page).
Proof.
  unfold hand_over. destruct (truthy (Some m));
    [apply keeps_call_handler|apply keeps_ret].
Qed.

Lemma keeps_add_message (k page m : string) (t : Z) :
  keeps_pending (add_message W k page m t).
Proof.
  intros [q w] H. rewrite add_message_spec. cbn in *.
  apply pending_ok_set; [exact H|apply batch_after_add_nonempty].
Qed.

Lemma keeps_flush_single_batches (keys : list string) (page : string) :
  keeps_pending (flush_single_batches W handler keys page).
Proof.
  induction keys as [|k keys IH]; cbn [flush_single_batches].
  - apply keeps_ret.
  - apply keeps_bind; [apply keeps_queue_item|]. intros b.
    destruct (user_messages_queue b) as [|x [|y l]]; try exact IH.
    apply keeps_bind; [apply keeps_delete|]. intros _.
    apply keeps_bind; [apply keeps_hand_over|]. intros _. apply keeps_raise.
Qed.

Lemma merge_user_messages_keeps_pending
      (senderPSID page_id : string) (received : received_message)
      (max_time : Z) (max_messages : nat) :
  keeps_pending (merge_user_messages W clock handler senderPSID received page_id
                                     max_time max_messages).
Proof.
  unfold merge_user_messages.
  apply keeps_bind; [apply keeps_read_clock|]. intros t.
  destruct (text received) as [m|]; [|apply keeps_ret].
  apply keeps_try; [|intros e; apply keeps_ret].
  apply keeps_bind; [apply keeps_add_message|]. intros _.
  apply keeps_bind.
  - unfold flush_batch. apply keeps_bind; [apply keeps_queue_item|]. intros b.
    apply keeps_bind.
    + destruct (max_messages <=? length (user_messages_queue b))%nat;
        [apply keeps_ret|].
      apply keeps_bind; [apply keeps_read_clock|]. intros t1. apply keeps_ret.
    + intros [|]; [|apply keeps_ret].
      apply keeps_bind; [apply keeps_delete|]. intros _. apply keeps_hand_over.
  - intros _. unfold flush_single.
    apply keeps_bind; [apply keeps_queue_item|]. intros b.
    apply keeps_bind.
    + destruct (length (user_messages_queue b) <? max_messages)%nat;
        [|apply keeps_ret].
      apply keeps_bind; [apply keeps_read_clock|]. intros t1. apply keeps_ret.
    + intros [|]; [|apply keeps_ret].
      apply keeps_bind; [apply keeps_get_queue|]. intros q.
      apply keeps_flush_single_batches.
Qed.

Lemma sweep_keeps_pending : keeps_pending (sweep W clock handler).
Proof.
  unfold sweep.
  apply keeps_bind; [apply keeps_read_clock|]. intros t.
  apply keeps_bind; [apply keeps_get_queue|]. intros q.
  induction (users_to_analyze (t / 1000) q) as [|[k b] picked IH];
    cbn [sweep_batches].
  - apply keeps_ret.
  - apply keeps_bind; [|intros _; exact IH].
    apply keeps_try; [|intros e; apply keeps_ret].
    apply keeps_bind; [apply keeps_call_handler|]. intros _. apply keeps_delete.
Qed.
End QueueProofs.

(** Two messages five seconds apart: the first waits, the second makes
    one turn ["hi there"] of both. *)
Lemma hi_there_is_one_turn :
  let E := stock_env in
  let s1 := snd (on_message new_lead_gate E 0 "user" (text_message "hi") "page"
                            ([], boot [])) in
  let s2 := snd (on_message new_lead_gate E 0 "user" (text_message "there") "page"
                            (fst s1, set_clock (now (snd s1) + 5000) (tick (snd s1))
                                               (snd s1))) in
  map (fun kb => user_messages_queue (snd kb)) (fst s1) = [["hi"]] /\
  trace (snd s1) = [] /\
  fst s2 = [] /\
  last_message <$> user_state (snd s2) !! "user" = Some "hi there".
Proof. vm_compute. auto. Qed.

(** ** Waiting for an active run *)

Lemma now_advance (E : Env) (d : Z) (w : World) :
  now w + d <= now (advance E d w).
Proof. cbn. lia. Qed.

(** The loop of lines 198-206 ends within 42 rounds: each round that does
    not leave it sleeps for half a second.  It leaves with the run no
    longer active or with more than 20 s on the clock, and it submits
    nothing. *)
Lemma wait_for_active_run_spec (E : Env) (thread : string) (start_time : Z)
      (fuel : nat) :
  forall (active_run : run) (w : World),
    (1 <= fuel)%nat ->
    20000 < 500 * (Z.of_nat fuel - 1) + (now w - start_time) ->
    match wait_for_active_run E fuel thread start_time active_run w with
    | (Diverge, _) => False
    | (Raise _, w') =>
      submissions (trace w') = submissions (trace w)
    | (Ok r, w') =>
      (is_active (status r) = false \/ 20000 < now w' - start_time) /\
      submissions (trace w') = submissions (trace w)
    end.
Proof.
  induction fuel as [|fuel IH]; intros active_run w Hfuel Hclock; [lia|].
  cbn [wait_for_active_run].
  destruct (is_active (status active_run)) eqn:Hactive;
    [|cbn; rewrite Hactive; auto].
  unfold bind at 1. unfold retrieve_run, request.
  set (w1 := advance E 0 (log (RunsRetrieve thread (rid active_run)) w)).
  assert (Hw1 : now w <= now w1) by (subst w1; cbn; lia).
  assert (Hs1 : submissions (trace w1) = submissions (trace w)).
  { subst w1. cbn. rewrite submissions_app. cbn. now rewrite app_nil_r. }
  destruct (runs_retrieve E (tick w) thread (rid active_run)) as [r'|e];
    cbn [of_answer]; [|exact Hs1].
  unfold bind at 1. unfold time_time.
  set (w2 := advance E 0 w1).
  assert (Hw2 : now w1 <= now w2) by (subst w2; cbn; lia).
  destruct (20000 <? now w2 - start_time)%Z eqn:Hout.
  - apply Z.ltb_lt in Hout. cbn. split; [now right|exact Hs1].
  - apply Z.ltb_ge in Hout. unfold bind at 1. unfold sleep.
    set (w3 := advance E 500 w2).
    assert (Hw3 : now w2 + 500 <= now w3) by (subst w3; cbn; lia).
    assert (Hs3 : submissions (trace w3) = submissions (trace w)) by exact Hs1.
    specialize (IH r' w3).
    destruct (wait_for_active_run E fuel thread start_time r' w3) as [[r''|e|] w4].
    + destruct IH as [Hpost Hs4]; [lia|lia|]. split; [exact Hpost|congruence].
    + rewrite IH; [exact Hs3|lia|lia].
    + apply IH; lia.
Qed.

(** Lines 190-206.  With a thread at hand the session manager lists the
    runs and, when one is queued or in progress, polls it until it is no
    longer so or more than 20 s have passed; this wait always ends and
    submits nothing. *)
Lemma await_active_run_waits
    (E : Env) (fuel : nat) (thread : string) (w : World) :
  (42 <= fuel)%nat ->
  match await_active_run E fuel thread w with
  | (Diverge, _) => False
  | (Raise _, w') => submissions (trace w') = submissions (trace w)
  | (Ok None, w') => submissions (trace w') = submissions (trace w)
  | (Ok (Some last), w') =>
    (is_active (status last) = false \/ 20000 < now w' - now w) /\
    submissions (trace w') = submissions (trace w)
  end.
Proof.
  intros Hfuel. unfold await_active_run.
  unfold bind at 1. unfold request.
  set (w1 := advance E 0 (log (RunsList thread) w)).
  assert (Hw1 : now w <= now w1) by (subst w1; cbn; lia).
  assert (Hs1 : submissions (trace w1) = submissions (trace w)).
  { subst w1. cbn. rewrite submissions_app. cbn. now rewrite app_nil_r. }
  destruct (runs_list E (tick w) thread) as [runs|e]; cbn [of_answer];
    [|exact Hs1].
  destruct (find (fun r => is_active (status r)) runs) as [active_run|];
    [|exact Hs1].
  unfold bind at 1. unfold time_time.
  set (w2 := advance E 0 w1).
  assert (Hw2 : now w1 <= now w2) by (subst w2; cbn; lia).
  assert (Hs2 : submissions (trace w2) = submissions (trace w)) by exact Hs1.
  pose proof (wait_for_active_run_spec E thread (now w2) fuel active_run w2)
    as Hwait.
  unfold bind.
  destruct (wait_for_active_run E fuel thread (now w2) active_run w2)
    as [[last|e|] w3].
  - destruct Hwait as [Hpost Hs3]; [lia|lia|].
    split; [|congruence]. destruct Hpost as [Hdone|Hlate]; [now left|right; lia].
  - rewrite Hwait; [exact Hs2|lia|lia].
  - apply Hwait; lia.
Qed.

(** C7, as stated, fails after a timeout.  A run of the thread stays in
    progress; the turn polls it 42 times, half a second apart, gives up
    after 20 s and submits its own message and run to the same thread
    while that run is still in progress. *)
Lemma run_submitted_beside_active_run :
  let w := set_user_state {["user" := stored_state 3 (Some "thread_1") []]} (boot []) in
  let r := get_chatgpt_response stuck_env 42 "hi" WholeUserState "user" "page" w in
  (forall k, runs_retrieve stuck_env k "thread_1" "run_0" = Returns stuck_run) /\
  is_active (status stuck_run) = true /\
  fst r = Ok (TextReply "Hello!") /\
  trace (snd r)
  = ([AssistantsRetrieve "asst_1"; RunsList "thread_1"]
       ++ repeat (RunsRetrieve "thread_1" "run_0") 42
       ++ [MessagesCreate "thread_1" "hi"; RunsCreate "thread_1" "asst_1";
           MessagesList "thread_1"])%list /\
  now (snd r) - now w = 20500.
Proof.
  split; [intros k; reflexivity|]. vm_compute. auto 10.
Qed.

(** * Further properties *)

(** ** The response gate *)

(** X1.  A page whose marker is missing, empty or made of white space
    only (any code points [str.strip()] removes, the no-break and the
    ideographic space among them) has no gate: [check_greeting_message]
    activates the bot for every user, whatever the Graph API would
    answer. *)
Theorem gate_open_on_blank_marker (G : GateEnv) (senderPSID page : string) :
  (forall greeting, get_dynamic_greeting_message G page = Some greeting ->
                    strip_is_empty greeting = true) ->
  shouldRespond G senderPSID page = Returns true.
Proof.
  intros Hblank. unfold shouldRespond, check_greeting_message.
  destruct (get_dynamic_greeting_message G page) as [g|] eqn:Hg; [|reflexivity].
  rewrite (Hblank g eq_refl), orb_true_r. reflexivity.
Qed.

Lemma gate_open_on_blank_marker_witness :
  shouldRespond wide_blank_gate "user" "page" = Returns true.
Proof.
  apply (gate_open_on_blank_marker wide_blank_gate "user" "page").
  intros greeting Hg. injection Hg as <-. reflexivity.
Defined.



(** X3.  A user for whom the Graph API lists no conversation is
    answered as a new lead: whatever the marker, the gate is open. *)
Theorem gate_open_for_new_lead
    (G : GateEnv) (senderPSID page : string) (cid : option string) :
  get_conversation_id_for_user G senderPSID page = Returns cid ->
  truthy cid = false ->
  shouldRespond G senderPSID page = Returns true.
Proof.
  intros Hc Hnone. unfold shouldRespond, check_greeting_message.
  destruct (get_dynamic_greeting_message G page) as [g|]; [|reflexivity].
  destruct (negb (truthy (Some g)) || strip_is_empty g); [reflexivity|].
  now rewrite Hc, Hnone.
Qed.

Lemma gate_open_for_new_lead_witness :
  shouldRespond new_lead_gate "user" "page" = Returns true.
Proof.
  apply (gate_open_for_new_lead new_lead_gate "user" "page" None); reflexivity.
Defined.

(** X4.  [should_bot_respond] answers [True] for every user and page:
    with a marker configured, the coroutine it made without awaiting is
    not a list, the handler's own lookup cannot be called with two
    arguments, and the function falls through to its last line.  Hence
    [check_greeting_message_impl] never keeps the bot silent. *)
Theorem should_bot_respond_never_refuses (G : GateEnv) (sender_id page_id : string) :
  should_bot_respond G sender_id page_id = true /\
  check_greeting_message_impl G sender_id page_id = false.
Proof.
  unfold check_greeting_message_impl.
  rewrite should_bot_respond_always. split; reflexivity.
Qed.

(** ** Invariants of the interpreter state *)

Lemma preserves_ret {A} (I : World -> Prop) (a : A) : preserves I (ret a).
Proof. intros w H. exact H. Qed.

Lemma preserves_raise {A} (I : World -> Prop) (e : exn) :
  preserves I (raise (A := A) e).
Proof. intros w H. exact H. Qed.

Lemma preserves_diverge {A} (I : World -> Prop) : preserves I (diverge (A := A)).
Proof. intros w H. exact H. Qed.

Lemma preserves_get (I : World -> Prop) : preserves I get.
Proof. intros w H. exact H. Qed.

Lemma preserves_lift_answer {A} (I : World -> Prop) (a : answer A) :
  preserves I (lift_answer a).
Proof. intros w H. exact H. Qed.

Lemma preserves_bind {A B} (I : World -> Prop) (c : M World A) (k : A -> M World B) :
  preserves I c -> (forall a, preserves I (k a)) -> preserves I (bind c k).
Proof.
  intros Hc Hk w H. unfold bind. specialize (Hc w H).
  destruct (c w) as [[a|e|] w1]; cbn in *; auto. now apply Hk.
Qed.

Lemma preserves_try {A} (I : World -> Prop) (c : M World A) (h : exn -> M World A) :
  preserves I c -> (forall e, preserves I (h e)) -> preserves I (try_except c h).
Proof.
  intros Hc Hh w H. unfold try_except. specialize (Hc w H).
  destruct (c w) as [[a|e|] w1]; cbn in *; auto. now apply Hh.
Qed.

Lemma preserves_modify (I : World -> Prop) (f : World -> World) :
  (forall w, I w -> I (f w)) -> preserves I (modify f).
Proof. intros Hf w H. now apply Hf. Qed.

(** One step of a proof that a computation keeps an invariant. *)
Ltac keep_step :=
  lazymatch goal with
  | |- preserves _ (bind _ _) => apply preserves_bind; [|intros ?]
  | |- preserves _ (try_except _ _) => apply preserves_try; [|intros ?]
  | |- preserves _ (ret _) => apply preserves_ret
  | |- preserves _ (raise _) => apply preserves_raise
  | |- preserves _ diverge => apply preserves_diverge
  | |- preserves _ get => apply preserves_get
  | |- preserves _ (lift_answer _) => apply preserves_lift_answer
  | |- preserves _ (if ?b then _ else _) => destruct b
  | |- preserves _ (match ?x with _ => _ end) => destruct x
  end.

Lemma on_thread_is_ai_request (t : string) (e : event) :
  on_thread t e = true -> is_ai_request e = true.
Proof. destruct e; cbn; congruence. Qed.

Lemma only_since_start (Q : event -> bool) (w : World) :
  only_since Q (trace w) w.
Proof. exists []. split; [now rewrite app_nil_r|reflexivity]. Qed.

Lemma only_since_log (Q : event -> bool) (tr0 : list event) (w : World) (e : event) :
  Q e = true -> only_since Q tr0 w -> only_since Q tr0 (log e w).
Proof.
  intros He (l & Hl & Hall). exists (l ++ [e])%list. split.
  - cbn. now rewrite Hl, app_assoc.
  - rewrite forallb_app, Hall. cbn. now rewrite He.
Qed.

Section Preservation.
Variable E : Env.
Variable I : World -> Prop.
Variable Q : event -> bool.
Hypothesis I_clock : forall w t k, I w -> I (set_clock t k w).
Hypothesis I_log : forall w e, Q e = true -> I w -> I (log e w).
Hypothesis I_user_state : forall w m, I w -> I (set_user_state m w).
Hypothesis I_user_threads : forall w m, I w -> I (set_user_threads m w).
Hypothesis I_user_states : forall w t, I w -> I (set_user_states t w).

Lemma preserves_time : preserves I (time_time E).
Proof. intros w H. now apply I_clock. Qed.

Lemma preserves_sleep (d : Z) : preserves I (sleep E d).
Proof. intros w H. now apply I_clock. Qed.

Lemma preserves_request {A} (e : event) (oracle : nat -> answer A) :
  Q e = true -> preserves I (request E e oracle).
Proof. intros He w H. apply I_clock. now apply I_log. Qed.

Lemma preserves_getitem (arg : user_state_arg) (key : string) :
  preserves I (getitem arg key).
Proof.
  intros w H. unfold getitem. destruct arg.
  - now destruct (user_state w !! key).
  - now case_bool_decide.
Qed.

Lemma preserves_update (arg : user_state_arg) (key : string)
      (f : UserState -> UserState) :
  preserves I (update arg key f).
Proof.
  unfold update. keep_step; [apply preserves_getitem|].
  apply preserves_modify. intros w H. now apply I_user_state.
Qed.

Lemma preserves_set_thread_last_message (key v : string) :
  preserves I (set_thread_last_message key v).
Proof.
  intros w H. unfold set_thread_last_message.
  destruct (user_threads w !! key); [now apply I_user_threads|exact H].
Qed.

Lemma preserves_get_db_connection : preserves I (get_db_connection E).
Proof. intros w H. now apply I_clock. Qed.

(** *** The AI session manager *)

Section OnThread.
Variable t : string.
Hypothesis Q_thread : forall e, on_thread t e = true -> Q e = true.

Lemma preserves_retrieve_run (r : run) : preserves I (retrieve_run E t r).
Proof.
  apply preserves_request, Q_thread. cbn. apply String.eqb_refl.
Qed.

Lemma preserves_poll_new_thread_run (fuel : nat) (r : run) :
  preserves I (poll_new_thread_run E fuel t r).
Proof.
  revert r. induction fuel as [|fuel IH]; intros r; cbn [poll_new_thread_run];
    destruct (is_active (status r)); try keep_step.
  - apply preserves_sleep.
  - keep_step; [apply preserves_retrieve_run|].
    keep_step; [apply preserves_time|].
    keep_step; [keep_step|apply IH].
Qed.

Lemma preserves_wait_for_active_run (fuel : nat) (start_time : Z) (r : run) :
  preserves I (wait_for_active_run E fuel t start_time r).
Proof.
  revert r. induction fuel as [|fuel IH]; intros r; cbn [wait_for_active_run];
    destruct (is_active (status r)); try keep_step.
  - apply preserves_retrieve_run.
  - keep_step; [apply preserves_time|].
    keep_step; [keep_step|].
    keep_step; [apply preserves_sleep|apply IH].
Qed.

Lemma preserves_poll_run (fuel : nat) (start_time : Z) (r : run) :
  preserves I (poll_run E fuel t start_time r).
Proof.
  revert r. induction fuel as [|fuel IH]; intros r; cbn [poll_run];
    destruct (is_active (status r)); try keep_step.
  - apply preserves_sleep.
  - keep_step; [apply preserves_retrieve_run|].
    keep_step; [apply preserves_time|].
    keep_step; [keep_step|apply IH].
Qed.

Lemma preserves_collect_reply (arg : user_state_arg)
      (senderPSID conversation_key user_message : string) (check_echo : bool)
      (r : run) :
  preserves I (collect_reply E arg senderPSID conversation_key t user_message
                             check_echo r).
Proof.
  unfold collect_reply. destruct (status r); try keep_step.
  - apply preserves_request, Q_thread. cbn. apply String.eqb_refl.
  - destruct (latest_assistant_text _); [|keep_step].
    keep_step; [apply preserves_update|].
    keep_step; [destruct (has_global_threads E);
                [apply preserves_set_thread_last_message|keep_step]|].
    keep_step; [apply preserves_update|].
    keep_step; keep_step.
Qed.

Lemma preserves_await_active_run (fuel : nat) :
  preserves I (await_active_run E fuel t).
Proof.
  unfold await_active_run. keep_step.
  - apply preserves_request, Q_thread. cbn. apply String.eqb_refl.
  - destruct (List.find _ _); [|keep_step].
    keep_step; [apply preserves_time|].
    keep_step; [apply preserves_wait_for_active_run|keep_step].
Qed.

Lemma preserves_existing_thread (fuel : nat) (arg : user_state_arg)
      (user_message senderPSID conversation_key my_assistant : string) :
  preserves I (existing_thread E fuel arg user_message senderPSID
                               conversation_key my_assistant t).
Proof.
  unfold existing_thread.
  keep_step; [apply preserves_update|].
  keep_step; [apply preserves_await_active_run|].
  keep_step; [apply preserves_request, Q_thread; cbn; apply String.eqb_refl|].
  keep_step; [apply preserves_request, Q_thread; cbn; apply String.eqb_refl|].
  keep_step; [apply preserves_time|].
  keep_step; [apply preserves_poll_run|].
  keep_step; [apply preserves_collect_reply|].
  keep_step; keep_step.
Qed.
End OnThread.

Section AnyThread.
Hypothesis Q_ai : forall e, is_ai_request e = true -> Q e = true.

Lemma Q_ai_on_thread (t : string) (e : event) : on_thread t e = true -> Q e = true.
Proof. intros H. now apply Q_ai, (on_thread_is_ai_request t). Qed.

Lemma preserves_new_thread (fuel : nat) (arg : user_state_arg)
      (user_message senderPSID page conversation_key assistant_id my_assistant
       : string) :
  preserves I (new_thread E fuel arg user_message senderPSID page
                          conversation_key assistant_id my_assistant).
Proof.
  unfold new_thread.
  keep_step; [now apply preserves_request, Q_ai|]. rename a into t.
  keep_step; [apply preserves_update|].
  keep_step; [destruct (has_global_threads E);
              [apply preserves_modify; intros w H; now apply I_user_threads
              |keep_step]|].
  cbv zeta.
  keep_step; [apply preserves_update|].
  keep_step; [now apply preserves_request, Q_ai|].
  keep_step; [apply preserves_update|].
  keep_step; [now apply preserves_request, Q_ai|].
  keep_step; [apply preserves_poll_new_thread_run, Q_ai_on_thread|].
  keep_step; [apply preserves_collect_reply, Q_ai_on_thread|].
  keep_step; keep_step.
Qed.

Lemma preserves_get_chatgpt_response (fuel : nat) (user_message : string)
      (arg : user_state_arg) (senderPSID page : string) :
  preserves I (get_chatgpt_response E fuel user_message arg senderPSID page).
Proof.
  unfold get_chatgpt_response, load_client_assistant. cbv zeta.
  keep_step; [|keep_step].
  keep_step; [now apply preserves_request, Q_ai|].
  keep_step; [apply preserves_getitem|].
  keep_step.
  { destruct (has_global_threads E); [|keep_step].
    keep_step; [keep_step|].
    destruct (user_threads _ !! _) as [ti|]; [|keep_step].
    destruct (truthy (ti_thread_id ti)); [|keep_step].
    keep_step; [apply preserves_update|keep_step]. }
  keep_step.
  { destruct (truthy _); [|keep_step].
    keep_step; [apply preserves_update|].
    destruct (has_global_threads E); [|keep_step].
    keep_step; [apply preserves_getitem|].
    apply preserves_modify. intros w H. now apply I_user_threads. }
  keep_step; [apply preserves_getitem|].
  destruct (thread_id _) as [t|].
  - apply preserves_existing_thread, Q_ai_on_thread.
  - apply preserves_new_thread.
Qed.
End AnyThread.

(** *** The store and the turn processor *)

Lemma preserves_per_user_dict (fuel : nat) (um x senderPSID page : string) :
  Q (AssistantsRetrieve (get_assistant_id E page)) = true ->
  preserves I (get_chatgpt_response E fuel um (EntryOf x) senderPSID page).
Proof.
  intros HQ w H. rewrite get_chatgpt_response_per_user_dict. cbn [snd].
  apply I_clock. now apply I_log.
Qed.

Lemma preserves_save_attempts (remaining attempt : nat) (sender : string)
      (st : UserState) :
  Q (Saved sender) = true ->
  preserves I (save_attempts E remaining attempt sender st).
Proof.
  intros HQ. revert attempt.
  induction remaining as [|remaining IH]; intros attempt; cbn [save_attempts];
    (keep_step; [apply preserves_get_db_connection|]); keep_step.
  - keep_step; [keep_step|]. keep_step; [apply preserves_time|]. cbv zeta.
    keep_step; [|keep_step].
    apply preserves_modify. intros w H. now apply I_log, I_user_states.
  - keep_step.
  - keep_step; [keep_step|]. keep_step; [apply preserves_time|]. cbv zeta.
    keep_step; [|keep_step].
    apply preserves_modify. intros w H. now apply I_log, I_user_states.
  - keep_step; [apply preserves_sleep|apply IH].
Qed.

Lemma preserves_store_entry (sender : string) (st : UserState) :
  preserves I (store_entry sender st).
Proof. apply preserves_modify. intros w H. now apply I_user_state. Qed.

Lemma preserves_save_entry (sender : string) :
  Q (Saved sender) = true -> preserves I (save_entry E sender).
Proof.
  intros HQ. unfold save_entry, save_user_state_to_db.
  keep_step; [apply preserves_getitem|].
  keep_step; [now apply preserves_save_attempts|apply preserves_store_entry].
Qed.

Lemma preserves_load_user_state (G : GateEnv) (sender page um : string) :
  preserves I (load_user_state G E sender page um).
Proof.
  unfold load_user_state.
  keep_step.
  - keep_step; [|keep_step].
    keep_step; [apply preserves_get_db_connection|].
    keep_step; [|keep_step].
    keep_step; [keep_step|].
    destruct (fetch_user_row _ _ _); [apply preserves_store_entry|].
    keep_step; [keep_step|apply preserves_store_entry].
  - keep_step; [keep_step|].
    destruct (user_state _ !! _); [keep_step|apply preserves_store_entry].
Qed.

Lemma preserves_callSendAPI (sender : string) (r : response) (page : string) :
  Q (Sent sender page (reply_text r)) = true ->
  preserves I (callSendAPI E sender r page).
Proof. intros HQ. now apply preserves_request. Qed.

Section Turn.
Variable sender page : string.
Hypothesis Q_end : Q (Sent sender page (end_message_for E page)) = true.
Hypothesis Q_retrieve : Q (AssistantsRetrieve (get_assistant_id E page)) = true.
Hypothesis Q_sentiment : forall m, Q (SentimentAnalysis m) = true.
Hypothesis Q_saved : Q (Saved sender) = true.

Lemma preserves_end_conversation : preserves I (end_conversation E sender page).
Proof.
  unfold end_conversation. cbv zeta.
  keep_step; [now apply preserves_callSendAPI|].
  keep_step; [apply preserves_update|].
  keep_step; [apply preserves_update|].
  keep_step; [now apply preserves_save_entry|keep_step].
Qed.

Lemma preserves_answer_turn (fuel : nat) (um : string) :
  preserves I (answer_turn E fuel sender page um).
Proof.
  unfold answer_turn.
  keep_step; [now apply preserves_per_user_dict|].
  keep_step; [apply preserves_update|].
  keep_step; [apply preserves_update|].
  keep_step; [apply preserves_time|].
  keep_step; [apply preserves_update|].
  keep_step.
  { keep_step; [|keep_step].
    keep_step; [now apply preserves_request|].
    keep_step; [apply preserves_update|keep_step]. }
  keep_step; [now apply preserves_save_entry|keep_step].
Qed.

Lemma preserves_process_text (fuel : nat) (um : string) :
  preserves I (process_text E fuel sender page um).
Proof.
  unfold process_text.
  keep_step; [apply preserves_update|].
  keep_step; [apply preserves_update|].
  keep_step; [apply preserves_getitem|].
  keep_step; [keep_step; [apply preserves_update|keep_step]|].
  cbv zeta.
  keep_step; [apply preserves_getitem|].
  keep_step; [apply preserves_end_conversation|apply preserves_answer_turn].
Qed.
End Turn.

Lemma preserves_get_assistant_response (G : GateEnv) (fuel : nat)
      (sender : string) (msg : received_message) (page_id : string) :
  preserves I (check_duplicate E (mid msg)) ->
  Q (Sent sender (map_page_id page_id) (end_message_for E (map_page_id page_id)))
  = true ->
  Q (Sent sender (map_page_id page_id) attachment_message) = true ->
  Q (Sent sender (map_page_id page_id) fallback_message) = true ->
  Q (AssistantsRetrieve (get_assistant_id E (map_page_id page_id))) = true ->
  (forall m, Q (SentimentAnalysis m) = true) ->
  Q (Saved sender) = true ->
  preserves I (get_assistant_response G E fuel sender msg page_id).
Proof.
  intros Hdup Hend Hatt Hfall Hretr Hsent Hsaved.
  unfold get_assistant_response. cbv zeta.
  keep_step; [exact Hdup|].
  keep_step; [keep_step|].
  destruct (text msg) as [um|].
  - keep_step; [apply preserves_load_user_state|].
    now apply preserves_process_text.
  - destruct (attachments msg);
      (keep_step; [now apply preserves_callSendAPI|keep_step]).
Qed.
End Preservation.


Lemma check_duplicate_bound (E : Env) (message_id : option string) :
  preserves (fun w => (size (processed_message_ids w) <= 1000)%nat)
            (check_duplicate E message_id).
Proof.
  intros w H. unfold check_duplicate. destruct (truthy message_id); [|exact H].
  unfold bind, get. case_bool_decide as Hin; [exact H|].
  set (m := default "" message_id) in *.
  assert (Hsize : size ({[m]} ∪ processed_message_ids w)
                  = S (size (processed_message_ids w))).
  { rewrite size_union by now apply disjoint_singleton_l.
    now rewrite size_singleton. }
  destruct (1000 <? size ({[m]} ∪ processed_message_ids w))%nat eqn:Hbig;
    unfold modify, ret;
    cbn [snd processed_message_ids set_processed_message_ids].
  - apply Nat.ltb_lt in Hbig.
    destruct (pop_many_spec E 100 ({[m]} ∪ processed_message_ids w))
      as [_ Hpopped]; lia.
  - apply Nat.ltb_ge in Hbig. lia.
Qed.

(** ** Deduplication cache, on the turn processor *)

Lemma bind_never {S A B} (c : M S A) (k : A -> M S B) (b : B) :
  (forall a s, fst (k a s) <> Ok b) -> forall s, fst (bind c k s) <> Ok b.
Proof.
  intros Hk s. unfold bind. destruct (c s) as [[a|e|] s']; cbn;
    [apply Hk|discriminate|discriminate].
Qed.

(** One step of a proof that a computation never answers a given value. *)
Ltac never_step :=
  lazymatch goal with
  | |- forall _, _ => intros ?
  | |- fst (bind _ _ _) <> Ok _ => apply bind_never
  | |- fst (ret _ _) <> Ok _ => unfold ret; cbn [fst]; discriminate
  | |- fst ((if ?b then _ else _) _) <> Ok _ => destruct b
  | |- fst (match ?x with _ => _ end _) <> Ok _ => destruct x
  end.

(** A message that passed the duplicate check is never answered
    [DUPLICATE_MESSAGE]. *)
Lemma processed_not_duplicate (G : GateEnv) (E : Env) (fuel : nat)
      (senderPSID page_id : string) (msg : received_message) (w : World) :
  mid msg = None ->
  fst (get_assistant_response G E fuel senderPSID msg page_id w)
  <> Ok DUPLICATE_MESSAGE.
Proof.
  intros Hmid. unfold get_assistant_response, check_duplicate. rewrite Hmid.
  cbn [truthy]. cbv zeta. rewrite (bind_ok _ _ _ _ _ (eq_refl : ret false w = (Ok false, w))).
  destruct (text msg) as [um|].
  - unfold process_text, end_conversation, answer_turn. repeat never_step.
  - destruct (attachments msg); repeat never_step.
Qed.

Lemma ids_kept_by_turn (G : GateEnv) (E : Env) (fuel : nat)
      (senderPSID page_id : string) (msg : received_message) (w : World) :
  mid msg = None ->
  processed_message_ids
    (snd (get_assistant_response G E fuel senderPSID msg page_id w))
  = processed_message_ids w.
Proof.
  intros Hmid.
  apply (preserves_get_assistant_response E
           (fun w' => processed_message_ids w' = processed_message_ids w)
           (fun _ => true)); auto.
  rewrite Hmid. intros w0 H. exact H.
Qed.

Lemma longer_log (n : nat) (w : World) (e : event) :
  longer_than n w -> longer_than n (log e w).
Proof. unfold longer_than. cbn. rewrite length_app. cbn. lia. Qed.

(** A request followed by steps that only add to the log leaves the log
    longer than it found it. *)
Lemma request_lengthens {A B} (E : Env) (e : event) (oracle : nat -> answer A)
      (k : A -> M World B) (w : World) :
  (forall a, preserves (longer_than (length (trace w))) (k a)) ->
  longer_than (length (trace w)) (snd (bind (request E e oracle) k w)).
Proof.
  intros Hk. unfold bind, request.
  assert (H1 : longer_than (length (trace w)) (advance E 0 (log e w))).
  { unfold longer_than. cbn. rewrite length_app. cbn. lia. }
  destruct (oracle (tick w)) as [a|x]; cbn [of_answer]; [|exact H1].
  now apply Hk.
Qed.

(** One step of a proof that a computation only adds to the log. *)
Ltac keep_long :=
  first [ apply preserves_update
        | apply preserves_time
        | apply preserves_getitem
        | apply (preserves_save_entry _ _ (fun _ => true)); try reflexivity
        | apply (preserves_request _ _ (fun _ => true)); try reflexivity
        | keep_step ];
  try (intros; assumption);
  try (intros; now apply longer_log).

(** A message that passed the duplicate check makes at least one request:
    the POST of the end message or of an acknowledgement, or the retrieval
    of the assistant. *)
Lemma processed_makes_a_request (G : GateEnv) (E : Env) (fuel : nat)
      (senderPSID page_id : string) (msg : received_message) (w : World) :
  mid msg = None ->
  (length (trace w)
   < length (trace (snd (get_assistant_response G E fuel senderPSID msg
                                                 page_id w))))%nat.
Proof.
  intros Hmid. unfold get_assistant_response, check_duplicate. rewrite Hmid.
  cbn [truthy]. cbv zeta.
  rewrite (bind_ok _ _ _ _ _ (eq_refl : ret false w = (Ok false, w))).
  set (page := map_page_id page_id).
  destruct (text msg) as [um|].
  - destruct (load_user_state_spec G E senderPSID page um w)
      as (w2 & st & R & H2 & _).
    rewrite (bind_ok _ _ _ _ _ R). unfold process_text.
    destruct (count_turn_holds senderPSID um w2 st _
                (let! st := getitem WholeUserState senderPSID in
                 if (get_max_messages E page <? message_count st)%Z
                 then end_conversation E senderPSID page
                 else answer_turn E fuel senderPSID page um) H2)
      as (w3 & -> & H3 & _).
    rewrite (bind_ok _ _ _ _ _ (getitem_holds _ _ _ _ H3)).
    destruct H3 as [_ Htr3]. rewrite <- Htr3.
    destruct (get_max_messages E page <? message_count (counted um st))%Z.
    + unfold end_conversation, callSendAPI. cbv zeta.
      apply request_lengthens. intros _. repeat keep_long.
    + unfold answer_turn.
      rewrite (bind_ok _ _ _ _ _
                 (get_chatgpt_response_per_user_dict E fuel um senderPSID
                    senderPSID page w3)).
      assert (H4 : longer_than (length (trace w3))
                     (advance E 0 (log (AssistantsRetrieve (get_assistant_id E page))
                                       w3))).
      { unfold longer_than. cbn. rewrite length_app. cbn. lia. }
      revert H4. generalize (advance E 0 (log (AssistantsRetrieve
                                                  (get_assistant_id E page)) w3)).
      change (preserves (longer_than (length (trace w3)))
                (let! _ := update WholeUserState senderPSID
                             (append_context {| role := "user";
                                                content := AsText um |}) in
                 let! _ := update WholeUserState senderPSID
                             (append_context {| role := "assistant";
                                                content := AsResponse
                                                  (TextReply error_message) |}) in
                 let! t := time_time E in
                 let! _ := update WholeUserState senderPSID
                             (set_last_message_time (Some (UnixTime (t / 1000)))) in
                 let! _ :=
                   try_except
                     (let! sentiment_result :=
                        request E (SentimentAnalysis um)
                                (fun k => sentiment_analysis E k um) in
                      match sentiment_result with
                      | Some r => update WholeUserState senderPSID (set_rank (Some r))
                      | None => ret tt
                      end)
                     (fun _ => ret tt) in
                 let! _ := save_entry E senderPSID in
                 ret (Replied (TextReply error_message)))).
      repeat keep_long.
  - destruct (attachments msg); unfold callSendAPI;
      apply request_lengthens; intros _; repeat keep_long.
Qed.

(** C9.  Deliveries that carry the same [mid].  A delivery whose [mid] is
    in [processed_message_ids] is answered [DUPLICATE_MESSAGE] by
    [get_assistant_response] and leaves the whole state, the log of
    requests included, as it was.  A first delivery is not answered so:
    its [mid] is recorded, the turn is processed as the same message
    without identifier would be, making at least one request, and the set
    the call leaves is the recorded one.  When that set holds more
    than 1000 identifiers after the add, 100 of them are dropped;
    otherwise the [mid] is retained and the same delivery made again is
    discarded. *)
Theorem duplicate_delivery_discarded
    (G : GateEnv) (E : Env) (fuel : nat) (senderPSID page m : string)
    (msg : received_message) (w : World) :
  mid msg = Some m ->
  m <> "" ->
  let run := get_assistant_response G E fuel senderPSID msg page w in
  let seen := {[m]} ∪ processed_message_ids w in
  (m ∈ processed_message_ids w -> run = (Ok DUPLICATE_MESSAGE, w)) /\
  (m ∉ processed_message_ids w ->
   exists kept : gset string,
     check_duplicate E (mid msg) w = (Ok false, set_processed_message_ids kept w) /\
     run = get_assistant_response G E fuel senderPSID (without_mid msg) page
                                  (set_processed_message_ids kept w) /\
     fst run <> Ok DUPLICATE_MESSAGE /\
     (length (trace w) < length (trace (snd run)))%nat /\
     processed_message_ids (snd run) = kept /\
     kept ⊆ seen /\
     ((size seen <= 1000)%nat ->
      kept = seen /\
      get_assistant_response G E fuel senderPSID msg page (snd run)
      = (Ok DUPLICATE_MESSAGE, snd run)) /\
     ((1000 < size seen)%nat -> size kept = (size seen - 100)%nat)).
Proof.
  intros Hmid Hm run seen.
  assert (Ht : truthy (Some m) = true) by (destruct m; [congruence|reflexivity]).
  assert (Hdup : forall w0, m ∈ processed_message_ids w0 ->
            get_assistant_response G E fuel senderPSID msg page w0
            = (Ok DUPLICATE_MESSAGE, w0)).
  { intros w0 Hin. unfold get_assistant_response, bind, check_duplicate.
    rewrite Hmid, Ht. simpl. unfold bind, get. simpl.
    rewrite bool_decide_eq_true_2 by assumption. reflexivity. }
  split; [apply Hdup|]. intros Hin.
  set (kept := if (1000 <? size seen)%nat then pop_many E 100 seen else seen).
  assert (Hcheck : check_duplicate E (mid msg) w
                   = (Ok false, set_processed_message_ids kept w)).
  { unfold check_duplicate. rewrite Hmid, Ht. simpl. unfold bind, get. simpl.
    rewrite bool_decide_eq_false_2 by assumption. reflexivity. }
  assert (Hrun : run = get_assistant_response G E fuel senderPSID (without_mid msg)
                         page (set_processed_message_ids kept w)).
  { subst run. unfold get_assistant_response.
    rewrite (bind_ok _ _ _ _ _ Hcheck). reflexivity. }
  assert (Hids : processed_message_ids (snd run) = kept).
  { rewrite Hrun. now rewrite ids_kept_by_turn. }
  exists kept. split; [exact Hcheck|]. split; [exact Hrun|].
  split; [rewrite Hrun; now apply processed_not_duplicate|].
  split.
  { rewrite Hrun.
    exact (processed_makes_a_request G E fuel senderPSID page (without_mid msg)
             (set_processed_message_ids kept w) eq_refl). }
  split; [exact Hids|].
  clearbody run. unfold kept in *. clear kept.
  destruct (1000 <? size seen)%nat eqn:Hsz.
  - apply Nat.ltb_lt in Hsz.
    destruct (pop_many_spec E 100 seen) as [Hsub Hsize]; [lia|].
    split; [exact Hsub|]. split; [lia|]. intros _. exact Hsize.
  - apply Nat.ltb_ge in Hsz.
    split; [reflexivity|]. split; [|lia]. intros _. split; [reflexivity|].
    apply Hdup. rewrite Hids. apply elem_of_union_l. now apply elem_of_singleton.
Qed.

Lemma duplicate_delivery_discarded_witness :
  let msg := text_with_mid "m_1" "hi" in
  let run := get_assistant_response new_lead_gate stock_env 0 "user" msg "page"
                                    (boot []) in
  fst run = Ok (Replied (TextReply error_message)) /\
  processed_message_ids (snd run) = {["m_1"]} /\
  get_assistant_response new_lead_gate stock_env 0 "user" msg "page" (snd run)
  = (Ok DUPLICATE_MESSAGE, snd run).
Proof.
  intros msg run.
  destruct (proj2 (duplicate_delivery_discarded new_lead_gate stock_env 0 "user"
                     "page" "m_1" msg (boot []) eq_refl ltac:(discriminate)))
    as (kept & _ & _ & _ & _ & Hids & _ & Hsmall & _).
  - apply not_elem_of_empty.
  - destruct Hsmall as [Hkept Hagain].
    + cbn. rewrite union_empty_r_L, size_singleton. lia.
    + split; [reflexivity|]. split; [|exact Hagain].
      fold run in Hids. rewrite Hids, Hkept. cbn. apply union_empty_r_L.
Defined.

(** ** Turn processor: what a turn does and does not do *)

(** X5.  The set of message ids already seen never outgrows 1000
    entries: a call of [get_assistant_response] that starts with at most
    1000 ids leaves at most 1000, whatever the message and whatever the
    collaborators answer. *)
Theorem seen_ids_stay_bounded
    (G : GateEnv) (E : Env) (fuel : nat) (senderPSID : string)
    (msg : received_message) (page_id : string) (w : World) :
  (size (processed_message_ids w) <= 1000)%nat ->
  (size (processed_message_ids
           (snd (get_assistant_response G E fuel senderPSID msg page_id w)))
   <= 1000)%nat.
Proof.
  apply (preserves_get_assistant_response E
           (fun w => (size (processed_message_ids w) <= 1000)%nat)
           (fun _ => true)); auto using check_duplicate_bound.
Qed.

Lemma seen_ids_stay_bounded_witness :
  (size (processed_message_ids
           (snd (get_assistant_response new_lead_gate stock_env 0 "user"
                   (text_with_mid "m_1" "hi") "page" (boot []))))
   <= 1000)%nat.
Proof.
  apply (seen_ids_stay_bounded new_lead_gate stock_env 0 "user"
           (text_with_mid "m_1" "hi") "page" (boot [])).
  cbn. rewrite size_empty. lia.
Defined.


(** ** AI session manager *)

(** X7.  [get_chatgpt_response] asks nothing but the AI service: it
    posts no message to the user, runs no sentiment analysis and leaves
    the table [user_states] as it was; and it raises nothing, every
    exception ending in a reply. *)
Theorem session_manager_asks_only_ai_service
    (E : Env) (fuel : nat) (user_message : string) (arg : user_state_arg)
    (senderPSID page : string) (w : World) :
  let r := get_chatgpt_response E fuel user_message arg senderPSID page w in
  only_since is_ai_request (trace w) (snd r) /\
  user_states (snd r) = user_states w /\
  (forall e, fst r <> Raise e).
Proof.
  intros r.
  assert (H : only_since is_ai_request (trace w) (snd r)
              /\ user_states (snd r) = user_states w).
  { apply (preserves_get_chatgpt_response E
             (fun w' => only_since is_ai_request (trace w) w'
                        /\ user_states w' = user_states w)
             is_ai_request); try (intros; assumption).
    - intros w0 e He [H1 H2]. split; [now apply only_since_log|exact H2].
    - split; [apply only_since_start|reflexivity]. }
  destruct H as [H1 H2]. split; [exact H1|]. split; [exact H2|].
  intros e. subst r. unfold get_chatgpt_response, try_except.
  match goal with |- context [let (_, _) := ?c w in _] => destruct (c w) as [[?|?|] ?] end;
    discriminate.
Qed.

Lemma try_except_at {S A} (c c' : M S A) (h : exn -> M S A) (s s' : S) :
  c s = c' s' -> try_except c h s = try_except c' h s'.
Proof. intros H. unfold try_except. now rewrite H. Qed.

(** The frame of a write to the stored dictionary. *)
Lemma update_frame (w : World) (key : string) (st : UserState)
      (f : UserState -> UserState) :
  user_state w !! key = Some st ->
  exists w',
    update WholeUserState key f w = (Ok tt, w') /\
    user_state w' !! key = Some (f st) /\
    user_threads w' = user_threads w /\ trace w' = trace w /\
    now w' = now w /\ tick w' = tick w.
Proof.
  intros H. eexists. split; [apply (update_whole _ _ _ _ H)|].
  split; [apply lookup_insert_eq|]. auto.
Qed.

Lemma settle_thread {A} (E : Env) (s page aid : string) (k : M World A)
      (w : World) (st : UserState) :
  user_state w !! s = Some st ->
  exists w' st',
    (let! existing_thread_id :=
       (if has_global_threads E then
          let! w := get in
          match user_threads w !! (s +:+ "_" +:+ page) with
          | Some ti =>
            if truthy (ti_thread_id ti) then
              let! _ := update WholeUserState s (set_thread_id (ti_thread_id ti)) in
              ret (ti_thread_id ti)
            else ret (thread_id st)
          | None => ret (thread_id st)
          end
        else ret (thread_id st)) in
     let! _ :=
       (if truthy existing_thread_id then
          let! _ := update WholeUserState s (set_thread_id existing_thread_id) in
          if has_global_threads E then
            let! st := getitem WholeUserState s in
            modify (fun w => set_user_threads
              (<[s +:+ "_" +:+ page :=
                   {| ti_thread_id := existing_thread_id;
                      ti_assistant_id := Some aid;
                      ti_last_message := Some (last_message st) |}]>
                 (user_threads w)) w)
          else ret tt
        else ret tt) in
     k) w = k w' /\
    user_state w' !! s = Some st' /\
    thread_id st' = chosen_thread E w s page st /\
    messages_context st' = messages_context st /\
    (truthy (chosen_thread E w s page st) = true ->
     has_global_threads E = true ->
     is_Some (user_threads w' !! (s +:+ "_" +:+ page))) /\
    trace w' = trace w /\ now w' = now w /\ tick w' = tick w.
Proof.
  intros Hst.
  (* the choice *)
  assert (Hchoice : exists w1 st1,
    (if has_global_threads E then
          let! w := get in
          match user_threads w !! (s +:+ "_" +:+ page) with
          | Some ti =>
            if truthy (ti_thread_id ti) then
              let! _ := update WholeUserState s (set_thread_id (ti_thread_id ti)) in
              ret (ti_thread_id ti)
            else ret (thread_id st)
          | None => ret (thread_id st)
          end
        else ret (thread_id st)) w = (Ok (chosen_thread E w s page st), w1) /\
    user_state w1 !! s = Some st1 /\
    thread_id st1 = chosen_thread E w s page st /\
    messages_context st1 = messages_context st /\
    trace w1 = trace w /\ now w1 = now w /\ tick w1 = tick w).
  { unfold chosen_thread. destruct (has_global_threads E).
    - unfold bind at 1, get at 1.
      destruct (user_threads w !! (s +:+ "_" +:+ page)) as [ti|].
      + destruct (truthy (ti_thread_id ti)) eqn:Htruthy.
        * destruct (update_frame w s st (set_thread_id (ti_thread_id ti)) Hst)
            as (w1 & Hrun & Hst1 & _ & Htr & Hnow & Htick).
          exists w1, (set_thread_id (ti_thread_id ti) st).
          rewrite (bind_ok _ _ _ _ _ Hrun).
          destruct (ti_thread_id ti) as [t|]; [|discriminate].
          repeat split; auto.
        * exists w, st. repeat split; auto.
      + exists w, st. repeat split; auto.
    - exists w, st. repeat split; auto. }
  destruct Hchoice as (w1 & st1 & Hrun1 & Hst1 & Hth1 & Hctx1 & Htr1 & Hnow1 & Htick1).
  rewrite (bind_ok _ _ _ _ _ Hrun1).
  set (chosen := chosen_thread E w s page st) in *.
  destruct (truthy chosen) eqn:Htruthy.
  - destruct (update_frame w1 s st1 (set_thread_id chosen) Hst1)
      as (w2 & Hrun2 & Hst2 & _ & Htr2 & Hnow2 & Htick2).
    destruct (has_global_threads E) eqn:Hglobal.
    + eexists _, (set_thread_id chosen st1).
      split.
      { unfold bind at 1. rewrite (bind_ok _ _ _ _ _ Hrun2).
        rewrite (bind_ok _ _ _ _ _ (getitem_whole _ _ _ Hst2)).
        unfold modify. reflexivity. }
      cbn. split; [exact Hst2|]. split; [reflexivity|]. split; [exact Hctx1|].
      split; [intros _ _; rewrite lookup_insert_eq; eauto|].
      repeat split; congruence.
    + exists w2, (set_thread_id chosen st1).
      split.
      { unfold bind at 1. rewrite (bind_ok _ _ _ _ _ Hrun2). reflexivity. }
      split; [exact Hst2|]. split; [reflexivity|]. split; [exact Hctx1|].
      split; [discriminate|]. repeat split; congruence.
  - exists w1, st1. split; [reflexivity|]. split; [exact Hst1|].
    split; [exact Hth1|]. split; [exact Hctx1|]. split; [discriminate|]. auto.
Qed.

Lemma chosen_thread_reached (E : Env) (fuel : nat) (um s page : string)
      (w : World) (st : UserState) (t : string) :
  user_state w !! s = Some st ->
  chosen_thread E w s page st = Some t ->
  exists w2,
    trace w2 = (trace w ++ [AssistantsRetrieve (get_assistant_id E page)])%list /\
    now w <= now w2 /\
    (get_chatgpt_response E fuel um WholeUserState s page w
     = (Ok (TextReply error_message), w2) \/
     exists a,
       get_chatgpt_response E fuel um WholeUserState s page w
       = try_except
           (existing_thread E fuel WholeUserState um s (s +:+ "_" +:+ page) a t)
           (fun _ => ret (TextReply error_message)) w2).
Proof.
  intros Hst Hchosen.
  set (aid := get_assistant_id E page).
  set (w1 := advance E 0 (log (AssistantsRetrieve aid) w)).
  assert (H1 : load_client_assistant E aid w
               = (of_answer (assistants_retrieve E (tick w) aid), w1)) by reflexivity.
  assert (Hst1 : user_state w1 !! s = Some st) by exact Hst.
  assert (Hnow1 : now w <= now w1) by (subst w1; cbn; lia).
  assert (Hch1 : chosen_thread E w1 s page st = Some t) by exact Hchosen.
  unfold get_chatgpt_response. fold aid.
  destruct (assistants_retrieve E (tick w) aid) as [a|e]; cbn [of_answer] in H1.
  2:{ exists w1. split; [reflexivity|]. split; [exact Hnow1|]. left.
      unfold try_except. now rewrite (bind_raise _ _ _ _ _ H1). }
  destruct (settle_thread E s page aid
              (let! st := getitem WholeUserState s in
               match thread_id st with
               | None => new_thread E fuel WholeUserState um s page
                                    (s +:+ "_" +:+ page) aid a
               | Some user_thread_id =>
                 existing_thread E fuel WholeUserState um s (s +:+ "_" +:+ page)
                                 a user_thread_id
               end) w1 st Hst1)
    as (w2 & st2 & Hrun & Hst2 & Hth2 & _ & _ & Htr2 & Hnow2 & _).
  exists w2. split; [now rewrite Htr2|]. split; [lia|]. right. exists a.
  apply try_except_at.
  rewrite (bind_ok _ _ _ _ _ H1).
  rewrite (bind_ok _ _ _ _ _ (getitem_whole _ _ _ Hst1)).
  rewrite Hrun.
  rewrite (bind_ok _ _ _ _ _ (getitem_whole _ _ _ Hst2)).
  now rewrite Hth2, Hch1.
Qed.

(** X8.  Thread continuity.  Called with the dictionary of all users,
    when a thread is registered for the conversation or stored in the
    user's dictionary, [get_chatgpt_response] creates no thread, and every
    run and message it lists, creates or retrieves is on that thread. *)
Theorem stored_thread_is_reused
    (E : Env) (fuel : nat) (user_message senderPSID page : string)
    (w : World) (st : UserState) (t : string) :
  user_state w !! senderPSID = Some st ->
  chosen_thread E w senderPSID page st = Some t ->
  only_since (on_thread t) (trace w)
    (snd (get_chatgpt_response E fuel user_message WholeUserState senderPSID
                               page w)).
Proof.
  intros Hst Hchosen.
  destruct (chosen_thread_reached E fuel user_message senderPSID page w st t
              Hst Hchosen) as (w2 & Htr & _ & [Hrun|[a Hrun]]); rewrite Hrun.
  - exists [AssistantsRetrieve (get_assistant_id E page)]. now split.
  - apply (preserves_try (only_since (on_thread t) (trace w))).
    + apply (preserves_existing_thread E _ (on_thread t));
        try (intros; assumption).
      intros w0 e He H. now apply only_since_log.
    + intros e. apply preserves_ret.
    + exists [AssistantsRetrieve (get_assistant_id E page)]. now split.
Qed.

Lemma stored_thread_is_reused_witness :
  only_since (on_thread "thread_1") (trace resumed)
    (snd (get_chatgpt_response stock_env 50 "hi" WholeUserState "user" "page"
                               resumed)).
Proof.
  apply (stored_thread_is_reused stock_env 50 "hi" "user" "page" resumed
           (stored_state 3 (Some "thread_1") []) "thread_1").
  - vm_compute. reflexivity.
  - vm_compute. reflexivity.
Defined.

(** ** Waiting for an active run, then submitting *)

(** What the handler of lines 277-280 leaves: the state the body reached. *)
Lemma try_except_reply_world {A} (c : M World A) (a : A) (w : World) :
  snd (try_except c (fun _ => ret a) w) = snd (c w).
Proof. unfold try_except. now destruct (c w) as [[x|e|] w']. Qed.

(** Lines 216-275: from the creation of the run to the reply, the log
    only grows. *)
Lemma run_followed_grows (E : Env) (fuel : nat) (um s key t : string) (r : run)
      (w : World) :
  exists l,
    trace (snd ((let! start_time := time_time E in
                 let! r := poll_run E fuel t start_time r in
                 let! reply := collect_reply E WholeUserState s key t um true r in
                 match reply with
                 | Some respond => ret respond
                 | None => ret (TextReply error_message)
                 end) w))
    = (trace w ++ l)%list.
Proof.
  assert (H : preserves (only_since (fun _ => true) (trace w))
               (let! start_time := time_time E in
                let! r := poll_run E fuel t start_time r in
                let! reply := collect_reply E WholeUserState s key t um true r in
                match reply with
                | Some respond => ret respond
                | None => ret (TextReply error_message)
                end)).
  { keep_step; [apply preserves_time; intros; assumption|].
    keep_step.
    - apply (preserves_poll_run E _ (fun _ => true)); try (intros; assumption);
        try reflexivity.
      intros w0 e _ H0. now apply only_since_log.
    - keep_step; [|repeat keep_step].
      apply (preserves_collect_reply E _ (fun _ => true));
        try (intros; assumption); try reflexivity.
      intros w0 e _ H0. now apply only_since_log. }
  destruct (H w (only_since_start _ w)) as (l & Hl & _). now exists l.
Qed.

(** Lines 178-216 once the assistant is loaded: the existing-thread
    branch, its wait and what follows the wait. *)
Lemma stored_thread_turn_waits
    (E : Env) (fuel : nat) (user_message senderPSID page : string) (w : World)
    (st : UserState) (t my_assistant : string) :
  (42 <= fuel)%nat ->
  user_state w !! senderPSID = Some st ->
  chosen_thread E w senderPSID page st = Some t ->
  assistants_retrieve E (tick w) (get_assistant_id E page) = Returns my_assistant ->
  let key := senderPSID +:+ "_" +:+ page in
  let turn := get_chatgpt_response E fuel user_message WholeUserState
                                   senderPSID page w in
  exists w0 : World,
    turn = try_except
             (existing_thread E fuel WholeUserState user_message senderPSID key
                              my_assistant t)
             (fun _ => ret (TextReply error_message)) w0 /\
    trace w0 = (trace w ++ [AssistantsRetrieve (get_assistant_id E page)])%list /\
    now w0 = now (advance E 0 w) /\ tick w0 = S (tick w) /\
    match await_active_run E fuel t
            (snd (update WholeUserState senderPSID
                    (append_context {| role := "user";
                                       content := AsText user_message |}) w0))
    with
    | (Diverge, _) => False
    | (Raise _, w1) =>
      turn = (Ok (TextReply error_message), w1) /\
      submissions (trace w1) = submissions (trace w)
    | (Ok active, w1) =>
      (forall runs found,
         runs_list E (tick w0) t = Returns runs ->
         List.find (fun r => is_active (status r)) runs = Some found ->
         exists last, active = Some last) /\
      (forall last, active = Some last ->
         is_active (status last) = false \/ 20000 < now w1 - now w0) /\
      submissions (trace w1) = submissions (trace w) /\
      exists rest,
        trace (snd turn) = (trace w1 ++ MessagesCreate t user_message :: rest)%list /\
        (messages_create E (tick w1) t user_message = Returns tt ->
         exists rest', rest = RunsCreate t my_assistant :: rest')
    end.
Proof.
  intros Hfuel Hst Hchosen Hretr key turn.
  set (aid := get_assistant_id E page) in *.
  (* the assistant *)
  set (w1 := advance E 0 (log (AssistantsRetrieve aid) w)).
  assert (R1 : load_client_assistant E aid w = (Ok my_assistant, w1)).
  { unfold load_client_assistant, request. now rewrite Hretr. }
  assert (Hst1 : user_state w1 !! senderPSID = Some st) by exact Hst.
  assert (Hch1 : chosen_thread E w1 senderPSID page st = Some t) by exact Hchosen.
  (* the thread *)
  destruct (settle_thread E senderPSID page aid
              (let! st := getitem WholeUserState senderPSID in
               match thread_id st with
               | None => new_thread E fuel WholeUserState user_message senderPSID
                                    page key aid my_assistant
               | Some user_thread_id =>
                 existing_thread E fuel WholeUserState user_message senderPSID
                                 key my_assistant user_thread_id
               end) w1 st Hst1)
    as (w0 & st0 & R2 & Hst0 & Hth0 & _ & _ & Htr0 & Hnow0 & Htick0).
  fold key aid in R2. rewrite Hch1 in Hth0.
  assert (Hturn : turn = try_except
             (existing_thread E fuel WholeUserState user_message senderPSID key
                              my_assistant t)
             (fun _ => ret (TextReply error_message)) w0).
  { subst turn. unfold get_chatgpt_response. fold aid key.
    apply try_except_at.
    rewrite (bind_ok _ _ _ _ _ R1).
    rewrite (bind_ok _ _ _ _ _ (getitem_whole _ _ _ Hst1)).
    rewrite R2.
    rewrite (bind_ok _ _ _ _ _ (getitem_whole _ _ _ Hst0)).
    now rewrite Hth0. }
  assert (Htrace0 : trace w0 = (trace w ++ [AssistantsRetrieve aid])%list).
  { rewrite Htr0. reflexivity. }
  exists w0. split; [exact Hturn|]. split; [exact Htrace0|].
  split; [exact Hnow0|]. split; [exact Htick0|].
  (* the message enters the context *)
  destruct (update_frame w0 senderPSID st0
              (append_context {| role := "user"; content := AsText user_message |})
              Hst0) as (w3 & R3 & _ & _ & Htr3 & Hnow3 & Htick3).
  rewrite R3. cbn [snd].
  assert (Hsub3 : submissions (trace w3) = submissions (trace w)).
  { rewrite Htr3, Htrace0, submissions_app. cbn. now rewrite app_nil_r. }
  (* the wait *)
  pose proof (await_active_run_waits E fuel t w3 Hfuel) as Hwait.
  assert (Hbody : existing_thread E fuel WholeUserState user_message senderPSID
                                  key my_assistant t w0
                  = (let! _ := await_active_run E fuel t in
                     let! _ := request E (MessagesCreate t user_message)
                                 (fun k => messages_create E k t user_message) in
                     let! r := request E (RunsCreate t my_assistant)
                                 (fun k => runs_create E k t my_assistant) in
                     let! start_time := time_time E in
                     let! r := poll_run E fuel t start_time r in
                     let! reply := collect_reply E WholeUserState senderPSID key t
                                     user_message true r in
                     match reply with
                     | Some respond => ret respond
                     | None => ret (TextReply error_message)
                     end) w3).
  { unfold existing_thread. now rewrite (bind_ok _ _ _ _ _ R3). }
  destruct (await_active_run E fuel t w3) as [[active|e|] w4] eqn:R4.
  - (* the wait ended *)
    assert (Hsub4 : submissions (trace w4) = submissions (trace w)).
    { destruct active as [last|]; [destruct Hwait as [_ H]|]; congruence. }
    split.
    { intros runs found Hruns Hfound. rewrite <- Htick3 in Hruns.
      unfold await_active_run in R4. unfold bind at 1, request in R4.
      rewrite Hruns in R4. cbn [of_answer] in R4. rewrite Hfound in R4.
      unfold bind in R4. cbn [time_time fst snd] in R4.
      match type of R4 with
      | context [wait_for_active_run ?a ?b ?c ?d ?e ?f] =>
        destruct (wait_for_active_run a b c d e f) as [[last|?|] ?]
      end; inversion R4. now exists last. }
    split.
    { intros last ->. destruct Hwait as [[Hdone|Hlate] _]; [now left|right; lia]. }
    split; [exact Hsub4|].
    rewrite (bind_ok _ _ _ _ _ R4) in Hbody.
    set (w5 := advance E 0 (log (MessagesCreate t user_message) w4)).
    assert (R5 : request E (MessagesCreate t user_message)
                   (fun k => messages_create E k t user_message) w4
                 = (of_answer (messages_create E (tick w4) t user_message), w5))
      by reflexivity.
    rewrite Hturn, try_except_reply_world, Hbody.
    destruct (messages_create E (tick w4) t user_message) as [[]|e];
      cbn [of_answer] in R5.
    + rewrite (bind_ok _ _ _ _ _ R5).
      set (w6 := advance E 0 (log (RunsCreate t my_assistant) w5)).
      assert (R6 : request E (RunsCreate t my_assistant)
                     (fun k => runs_create E k t my_assistant) w5
                   = (of_answer (runs_create E (tick w5) t my_assistant), w6))
        by reflexivity.
      destruct (runs_create E (tick w5) t my_assistant) as [r|e];
        cbn [of_answer] in R6.
      * rewrite (bind_ok _ _ _ _ _ R6).
        destruct (run_followed_grows E fuel user_message senderPSID key t r w6)
          as (l & Hl).
        exists (RunsCreate t my_assistant :: l). split; [|intros _; now exists l].
        rewrite Hl. subst w6 w5. cbn. now rewrite <- !app_assoc.
      * rewrite (bind_raise _ _ _ _ _ R6).
        exists [RunsCreate t my_assistant]. split; [|intros _; now exists []].
        subst w6 w5. cbn. now rewrite <- !app_assoc.
    + rewrite (bind_raise _ _ _ _ _ R5).
      exists []. split; [reflexivity|discriminate].
  - (* a request of the wait failed *)
    split; [|congruence].
    rewrite Hturn. unfold try_except. rewrite Hbody.
    now rewrite (bind_raise _ _ _ _ _ R4).
  - exact Hwait.
Qed.

(** C7, as amended.  A turn on an existing thread.  When loading the
    assistant fails the reply is the fixed error reply and nothing is
    submitted.  Otherwise [get_chatgpt_response] is the existing-thread
    branch, started in [w0]: the user's message enters the context, then
    the runs of the thread are listed and a run found queued or in
    progress is waited for ([active] is then the run as last polled)
    until it is no longer so or more than 20 s have passed.  This wait
    always ends and submits nothing.  Only then comes the handler's own
    message on the thread, followed by its own run, also when the wait
    timed out with the earlier run still active; when a request of the
    wait fails, nothing is submitted and the reply is the fixed error
    reply. *)
Theorem active_run_awaited_before_submission
    (E : Env) (fuel : nat) (user_message senderPSID page : string) (w : World)
    (st : UserState) (t : string) :
  (42 <= fuel)%nat ->
  user_state w !! senderPSID = Some st ->
  chosen_thread E w senderPSID page st = Some t ->
  let key := senderPSID +:+ "_" +:+ page in
  let turn := get_chatgpt_response E fuel user_message WholeUserState
                                   senderPSID page w in
  match assistants_retrieve E (tick w) (get_assistant_id E page) with
  | Raises _ =>
    fst turn = Ok (TextReply error_message) /\
    submissions (trace (snd turn)) = submissions (trace w)
  | Returns my_assistant =>
    exists w0 : World,
      turn = try_except
               (existing_thread E fuel WholeUserState user_message senderPSID key
                                my_assistant t)
               (fun _ => ret (TextReply error_message)) w0 /\
      trace w0 = (trace w ++ [AssistantsRetrieve (get_assistant_id E page)])%list /\
      now w0 = now (advance E 0 w) /\ tick w0 = S (tick w) /\
      match await_active_run E fuel t
              (snd (update WholeUserState senderPSID
                      (append_context {| role := "user";
                                         content := AsText user_message |}) w0))
      with
      | (Diverge, _) => False
      | (Raise _, w1) =>
        turn = (Ok (TextReply error_message), w1) /\
        submissions (trace w1) = submissions (trace w)
      | (Ok active, w1) =>
        (forall runs found,
           runs_list E (tick w0) t = Returns runs ->
           List.find (fun r => is_active (status r)) runs = Some found ->
           exists last, active = Some last) /\
        (forall last, active = Some last ->
           is_active (status last) = false \/ 20000 < now w1 - now w0) /\
        submissions (trace w1) = submissions (trace w) /\
        exists rest,
          trace (snd turn)
          = (trace w1 ++ MessagesCreate t user_message :: rest)%list /\
          (messages_create E (tick w1) t user_message = Returns tt ->
           exists rest', rest = RunsCreate t my_assistant :: rest')
      end
  end.
Proof.
  intros Hfuel Hst Hchosen key turn.
  destruct (assistants_retrieve E (tick w) (get_assistant_id E page))
    as [my_assistant|e] eqn:Hretr.
  - exact (stored_thread_turn_waits E fuel user_message senderPSID page w st t
             my_assistant Hfuel Hst Hchosen Hretr).
  - assert (R : load_client_assistant E (get_assistant_id E page) w
                = (Raise e, advance E 0
                              (log (AssistantsRetrieve (get_assistant_id E page)) w))).
    { unfold load_client_assistant, request. now rewrite Hretr. }
    subst turn. unfold get_chatgpt_response, try_except.
    rewrite (bind_raise _ _ _ _ _ R). unfold ret. cbn [fst snd].
    split; [reflexivity|].
    change (submissions (trace w ++ [AssistantsRetrieve (get_assistant_id E page)])
            = submissions (trace w)).
    rewrite submissions_app. cbn. now rewrite app_nil_r.
Qed.

Lemma active_run_awaited_before_submission_witness :
  let turn := get_chatgpt_response stuck_env 42 "hi" WholeUserState "user" "page"
                                   resumed in
  exists w0 : World,
    turn = try_except
             (existing_thread stuck_env 42 WholeUserState "hi" "user"
                              ("user" +:+ "_" +:+ "page") "asst_1" "thread_1")
             (fun _ => ret (TextReply error_message)) w0 /\
    trace w0 = (trace resumed ++ [AssistantsRetrieve "asst_1"])%list /\
    now w0 = now (advance stuck_env 0 resumed) /\ tick w0 = S (tick resumed) /\
    match await_active_run stuck_env 42 "thread_1"
            (snd (update WholeUserState "user"
                    (append_context {| role := "user"; content := AsText "hi" |})
                    w0))
    with
    | (Diverge, _) => False
    | (Raise _, w1) =>
      turn = (Ok (TextReply error_message), w1) /\
      submissions (trace w1) = submissions (trace resumed)
    | (Ok active, w1) =>
      (forall runs found,
         runs_list stuck_env (tick w0) "thread_1" = Returns runs ->
         List.find (fun r => is_active (status r)) runs = Some found ->
         exists last, active = Some last) /\
      (forall last, active = Some last ->
         is_active (status last) = false \/ 20000 < now w1 - now w0) /\
      submissions (trace w1) = submissions (trace resumed) /\
      exists rest,
        trace (snd turn)
        = (trace w1 ++ MessagesCreate "thread_1" "hi" :: rest)%list /\
        (messages_create stuck_env (tick w1) "thread_1" "hi" = Returns tt ->
         exists rest', rest = RunsCreate "thread_1" "asst_1" :: rest')
    end.
Proof.
  apply (active_run_awaited_before_submission stuck_env 42 "hi" "user" "page"
           resumed (stored_state 3 (Some "thread_1") []) "thread_1").
  - lia.
  - vm_compute. reflexivity.
  - vm_compute. reflexivity.
Defined.

(** ** Termination of the session manager *)

Lemma bind_ends_at {S A B} (c : M S A) (k : A -> M S B) (s : S) :
  fst (c s) <> Diverge -> (forall a, terminates (k a)) ->
  fst (bind c k s) <> Diverge.
Proof.
  intros Hc Hk. unfold bind. destruct (c s) as [[a|e|] s1]; cbn in *;
    [apply Hk|discriminate|congruence].
Qed.

Lemma terminates_bind {S A B} (c : M S A) (k : A -> M S B) :
  terminates c -> (forall a, terminates (k a)) -> terminates (bind c k).
Proof. intros Hc Hk s. now apply bind_ends_at. Qed.

Lemma terminates_ret {S A} (a : A) : terminates (ret (S := S) a).
Proof. intros s. discriminate. Qed.

Lemma terminates_raise {S A} (e : exn) : terminates (raise (S := S) (A := A) e).
Proof. intros s. discriminate. Qed.

Lemma terminates_try {S A} (c : M S A) (h : exn -> M S A) :
  terminates c -> (forall e, terminates (h e)) -> terminates (try_except c h).
Proof.
  intros Hc Hh s. unfold try_except. specialize (Hc s).
  destruct (c s) as [[a|e|] s1]; cbn in *; [discriminate|apply Hh|congruence].
Qed.

(** A guarded computation that ends: the guard turns every exception
    into an answer. *)
Lemma guarded_answers {S} (c : M S unit) (s : S) :
  fst (c s) <> Diverge -> fst (try_except c (fun _ => ret tt) s) = Ok tt.
Proof.
  intros Hc. unfold try_except.
  destruct (c s) as [[[]|e|] s1]; cbn in *; [reflexivity|reflexivity|congruence].
Qed.

Lemma terminates_request {A} (E : Env) (e : event) (oracle : nat -> answer A) :
  terminates (request E e oracle).
Proof. intros w. unfold request. now destruct (oracle (tick w)). Qed.

Lemma terminates_getitem (arg : user_state_arg) (key : string) :
  terminates (getitem arg key).
Proof.
  intros w. unfold getitem. destruct arg.
  - now destruct (user_state w !! key).
  - now case_bool_decide.
Qed.

Lemma terminates_update (arg : user_state_arg) (key : string)
      (f : UserState -> UserState) :
  terminates (update arg key f).
Proof.
  apply terminates_bind; [apply terminates_getitem|]. intros st w. discriminate.
Qed.

Lemma terminates_collect_reply (E : Env) (arg : user_state_arg)
      (senderPSID conversation_key thread user_message : string)
      (check_echo : bool) (r : run) :
  terminates (collect_reply E arg senderPSID conversation_key thread
                            user_message check_echo r).
Proof.
  unfold collect_reply.
  destruct (status r); try apply terminates_ret.
  apply terminates_bind; [apply terminates_request|]. intros data.
  destruct (latest_assistant_text data); [|apply terminates_ret].
  apply terminates_bind; [apply terminates_update|]. intros _.
  apply terminates_bind.
  { destruct (has_global_threads E); [|apply terminates_ret].
    intros w. unfold set_thread_last_message.
    now destruct (user_threads w !! conversation_key). }
  intros _. apply terminates_bind; [apply terminates_update|]. intros _.
  destruct (_ && _); apply terminates_ret.
Qed.

(** The loop of lines 220-230 ends within 41 rounds: every round sleeps
    for half a second, and the loop is left once more than 20 s have
    passed since [start_time]. *)
Lemma poll_run_ends (E : Env) (thread : string) (start_time : Z) (fuel : nat) :
  forall (r : run) (w : World),
    (1 <= fuel)%nat ->
    20000 < 500 * Z.of_nat fuel + (now w - start_time) ->
    fst (poll_run E fuel thread start_time r w) <> Diverge.
Proof.
  induction fuel as [|fuel IH]; intros r w Hfuel Hclock; [lia|].
  cbn [poll_run]. destruct (is_active (status r)); [|discriminate].
  unfold bind at 1. unfold sleep.
  set (w1 := advance E 500 w).
  assert (Hw1 : now w + 500 <= now w1) by (subst w1; cbn; lia).
  unfold bind at 1. unfold retrieve_run, request.
  set (w2 := advance E 0 (log (RunsRetrieve thread (rid r)) w1)).
  assert (Hw2 : now w1 <= now w2) by (subst w2; cbn; lia).
  destruct (runs_retrieve E (tick w1) thread (rid r)) as [r'|e];
    cbn [of_answer]; [|discriminate].
  unfold bind at 1. unfold time_time.
  set (w3 := advance E 0 w2).
  assert (Hw3 : now w2 <= now w3) by (subst w3; cbn; lia).
  destruct (20000 <? now w3 - start_time)%Z eqn:Hout; [discriminate|].
  apply Z.ltb_ge in Hout. apply IH; lia.
Qed.

Lemma await_active_run_ends (E : Env) (fuel : nat) (thread : string) :
  (42 <= fuel)%nat -> terminates (await_active_run E fuel thread).
Proof.
  intros Hfuel w. unfold await_active_run.
  unfold bind at 1. unfold request.
  set (w1 := advance E 0 (log (RunsList thread) w)).
  destruct (runs_list E (tick w) thread) as [runs|e]; cbn [of_answer];
    [|discriminate].
  destruct (find (fun r => is_active (status r)) runs) as [active_run|];
    [|discriminate].
  unfold bind at 1. unfold time_time.
  set (w2 := advance E 0 w1).
  pose proof (wait_for_active_run_spec E thread (now w2) fuel active_run w2)
    as Hwait.
  unfold bind.
  destruct (wait_for_active_run E fuel thread (now w2) active_run w2)
    as [[last|e|] w3]; [discriminate|discriminate|].
  exfalso. apply Hwait; lia.
Qed.

Lemma existing_thread_ends (E : Env) (fuel : nat) (arg : user_state_arg)
      (user_message senderPSID conversation_key my_assistant thread : string) :
  (42 <= fuel)%nat ->
  terminates (existing_thread E fuel arg user_message senderPSID
                              conversation_key my_assistant thread).
Proof.
  intros Hfuel. unfold existing_thread.
  apply terminates_bind; [apply terminates_update|]. intros _.
  apply terminates_bind; [now apply await_active_run_ends|]. intros _.
  apply terminates_bind; [apply terminates_request|]. intros _.
  apply terminates_bind; [apply terminates_request|]. intros r.
  intros w. unfold bind at 1. unfold time_time.
  apply bind_ends_at.
  - apply poll_run_ends; lia.
  - intros r'. apply terminates_bind; [apply terminates_collect_reply|].
    intros [reply|]; apply terminates_ret.
Qed.

(** X9.  With a thread at hand, a call of [get_chatgpt_response] on the
    dictionary of all users always comes back with a reply: its two
    waits give up after 20 s, so 42 rounds of each are enough whatever
    the AI service answers, and every exception ends in the error
    reply. *)
Theorem stored_thread_turn_answers
    (E : Env) (fuel : nat) (user_message senderPSID page : string)
    (w : World) (st : UserState) (t : string) :
  user_state w !! senderPSID = Some st ->
  chosen_thread E w senderPSID page st = Some t ->
  (42 <= fuel)%nat ->
  exists (reply : response) (w' : World),
    get_chatgpt_response E fuel user_message WholeUserState senderPSID page w
    = (Ok reply, w').
Proof.
  intros Hst Hchosen Hfuel.
  destruct (chosen_thread_reached E fuel user_message senderPSID page w st t
              Hst Hchosen) as (w2 & _ & _ & [Hrun|[a Hrun]]); rewrite Hrun.
  - eauto.
  - unfold try_except.
    pose proof (existing_thread_ends E fuel WholeUserState user_message
                  senderPSID (senderPSID +:+ "_" +:+ page) a t Hfuel w2) as Hends.
    destruct (existing_thread E fuel WholeUserState user_message senderPSID
                              (senderPSID +:+ "_" +:+ page) a t w2)
      as [[reply|e|] w3]; cbn in Hends; [eauto|eauto|congruence].
Qed.

Lemma stored_thread_turn_answers_witness :
  exists (reply : response) (w' : World),
    get_chatgpt_response stuck_env 42 "hi" WholeUserState "user" "page" resumed
    = (Ok reply, w').
Proof.
  apply (stored_thread_turn_answers stuck_env 42 "hi" "user" "page" resumed
           (stored_state 3 (Some "thread_1") []) "thread_1").
  - vm_compute. reflexivity.
  - vm_compute. reflexivity.
  - lia.
Defined.

(** ** Conversation store *)

(** X10.  With the database out of reach, [save_user_state_to_db] gives
    up after three attempts: it answers [False], has slept for one and
    for two seconds in between, and leaves the table, the dictionary and
    the log as they were. *)
Theorem save_gives_up_after_three_attempts
    (E : Env) (sender : string) (state : UserState) (w : World) :
  (forall k, db_connect E k = false) ->
  exists w',
    save_user_state_to_db E sender state w = (Ok (false, state), w') /\
    user_states w' = user_states w /\
    trace w' = trace w /\
    tick w' = (tick w + 5)%nat /\
    now w + 3000 <= now w'.
Proof.
  intros Hdown. unfold save_user_state_to_db. cbn [save_attempts].
  unfold bind, get_db_connection, sleep, ret. rewrite !Hdown.
  eexists. split; [reflexivity|]. cbn. repeat split; lia.
Qed.

Lemma save_gives_up_after_three_attempts_witness :
  exists w',
    save_user_state_to_db offline_env "user" ranked_state (boot [])
    = (Ok (false, ranked_state), w') /\
    user_states w' = user_states (boot []) /\
    trace w' = trace (boot []) /\
    tick w' = (tick (boot []) + 5)%nat /\
    now (boot []) + 3000 <= now w'.
Proof.
  apply (save_gives_up_after_three_attempts offline_env "user" ranked_state
           (boot [])).
  intros k. reflexivity.
Defined.

Lemma fetch_update_rows (sender : string) (st : UserState) (table : list Row) :
  user_exists sender table = true ->
  fetch_user_row sender (page_id st) (update_rows sender st table)
  = Some {| sender_id := sender; columns := saved_columns st |}.
Proof.
  unfold user_exists, fetch_user_row.
  induction table as [|r table IH]; cbn [existsb update_rows map find];
    [discriminate|].
  case_bool_decide as Hs; cbn [orb sender_id columns].
  - intros _. rewrite !bool_decide_true by (exact Hs || reflexivity).
    cbn. now rewrite Hs.
  - intros Hrest. rewrite (bool_decide_false _ Hs). cbn. now apply IH.
Qed.

Lemma fetch_insert_row (sender : string) (st : UserState) (table : list Row) :
  user_exists sender table = false ->
  fetch_user_row sender (page_id st) (insert_row sender st table)
  = Some {| sender_id := sender; columns := saved_columns st |}.
Proof.
  unfold user_exists, fetch_user_row, insert_row.
  induction table as [|r table IH]; cbn [existsb app find].
  - intros _. cbn. now rewrite !bool_decide_true by reflexivity.
  - case_bool_decide as Hs; cbn [orb]; [discriminate|].
    intros Hrest. now apply IH.
Qed.

(** X11.  What a save writes is what the next turn reads: after a save
    that got its connection, the row fetched for the sender and the
    state's page gives back the saved dictionary, except that the rank is
    stored as NULL (the save reads the key ['Rank'], the dictionary has
    ['rank']) and that a loaded dictionary has no [last_message_time]. *)
Theorem saved_state_is_read_back
    (E : Env) (sender : string) (state : UserState) (w : World) :
  db_connect E (tick w) = true ->
  exists (t : Z) (w' : World),
    save_user_state_to_db E sender state w
    = (Ok (true, set_last_message_time (Some (IsoTime t)) state), w') /\
    state_of_row (page_id state)
      <$> fetch_user_row sender (page_id state) (user_states w')
    = Some (set_rank None (set_last_message_time None state)).
Proof.
  intros Hup. unfold save_user_state_to_db. cbn [save_attempts].
  unfold bind, get_db_connection. rewrite Hup. cbn [fst snd].
  unfold get, time_time, modify, ret. cbn [fst snd].
  eexists _, _. split; [reflexivity|].
  cbn [user_states log set_user_states advance set_clock].
  set (st' := set_last_message_time _ state).
  change (page_id state) with (page_id st').
  destruct (user_exists sender (user_states w)) eqn:Hexists.
  - rewrite (fetch_update_rows _ _ _ Hexists). now destruct state.
  - rewrite (fetch_insert_row _ _ _ Hexists). now destruct state.
Qed.

Lemma saved_state_is_read_back_witness :
  exists (t : Z) (w' : World),
    save_user_state_to_db stock_env "user" ranked_state (boot [])
    = (Ok (true, set_last_message_time (Some (IsoTime t)) ranked_state), w') /\
    state_of_row (page_id ranked_state)
      <$> fetch_user_row "user" (page_id ranked_state) (user_states w')
    = Some (set_rank None (set_last_message_time None ranked_state)).
Proof.
  apply (saved_state_is_read_back stock_env "user" ranked_state (boot [])).
  reflexivity.
Defined.

Lemma rows_of_others_update (sender : string) (st : UserState) (table : list Row) :
  rows_of_others sender (update_rows sender st table) = rows_of_others sender table.
Proof.
  unfold rows_of_others, update_rows.
  induction table as [|r table IH]; [reflexivity|]. cbn [map].
  case_bool_decide as Hs; cbn [List.filter sender_id].
  - rewrite (bool_decide_true _ Hs). cbn. exact IH.
  - rewrite (bool_decide_false _ Hs). cbn. now rewrite IH.
Qed.

Lemma rows_of_others_insert (sender : string) (st : UserState) (table : list Row) :
  rows_of_others sender (insert_row sender st table) = rows_of_others sender table.
Proof.
  unfold rows_of_others, insert_row. rewrite List.filter_app. cbn.
  rewrite bool_decide_true by reflexivity. cbn. apply app_nil_r.
Qed.

Lemma save_attempts_others (E : Env) (remaining attempt : nat) (sender : string)
      (st : UserState) (w : World) :
  rows_of_others sender (user_states (snd (save_attempts E remaining attempt sender st w)))
  = rows_of_others sender (user_states w).
Proof.
  revert attempt w. induction remaining as [|remaining IH]; intros attempt w;
    cbn [save_attempts]; unfold bind, get_db_connection;
    destruct (db_connect E (tick w)); cbn [fst snd].
  - unfold get, time_time, modify, ret.
    cbn [fst snd user_states log set_user_states advance set_clock].
    destruct (user_exists sender (user_states w));
      [apply rows_of_others_update|apply rows_of_others_insert].
  - reflexivity.
  - unfold get, time_time, modify, ret.
    cbn [fst snd user_states log set_user_states advance set_clock].
    destruct (user_exists sender (user_states w));
      [apply rows_of_others_update|apply rows_of_others_insert].
  - unfold sleep. cbn [fst snd]. now rewrite IH.
Qed.

(** X12.  A save touches only the rows of its sender: whether it
    updates, inserts or gives up, the rows of every other sender are
    left as they were, in their order. *)
Theorem save_touches_only_its_sender
    (E : Env) (sender : string) (state : UserState) (w : World) :
  rows_of_others sender
    (user_states (snd (save_user_state_to_db E sender state w)))
  = rows_of_others sender (user_states w).
Proof. apply save_attempts_others. Qed.

(** ** Restoration at start-up *)

Lemma restore_row_main (E : Env) (w : World) (r : Row) :
  main_user_state (restore_row E w r)
  = <[sender_id r := restored_state r]> (main_user_state w).
Proof. unfold restore_row. now destruct (truthy (thread_id (columns r))). Qed.

Lemma restore_rows_last_wins (E : Env) (rows : list Row) (w : World) (s : string) :
  main_user_state (fold_left (restore_row E) rows w) !! s
  = match last (List.filter (fun r => bool_decide (sender_id r = s)) rows) with
    | Some r => Some (restored_state r)
    | None => main_user_state w !! s
    end.
Proof.
  revert w. induction rows as [|r rows IH]; intros w; [reflexivity|].
  cbn [fold_left List.filter]. rewrite IH, restore_row_main.
  case_bool_decide as Hs.
  - rewrite last_cons.
    destruct (last (List.filter _ rows)); [reflexivity|].
    rewrite Hs. now rewrite lookup_insert_eq.
  - destruct (last (List.filter _ rows)); [reflexivity|].
    now rewrite lookup_insert_ne.
Qed.

(** X13.  With the database in reach, the restoration reads the rows
    with [is_new_user = false OR message_count > 0], answers their
    number, and keys the restored dictionaries by sender alone: of the
    rows of one sender the last one read is the one kept, and a sender
    without such a row keeps the entry it had. *)
Theorem restore_keeps_last_active_row (E : Env) (w : World) (sender : string) :
  db_connect E (tick w) = true ->
  let rows := List.filter is_active_row (user_states w) in
  let r := restore_user_states_from_database E w in
  fst r = Ok (length rows) /\
  main_user_state (snd r) !! sender
  = match last (List.filter (fun row => bool_decide (sender_id row = sender)) rows) with
    | Some row => Some (restored_state row)
    | None => main_user_state w !! sender
    end.
Proof.
  intros Hup rows r. subst r. unfold restore_user_states_from_database.
  unfold bind, get_db_connection. rewrite Hup. cbn [fst snd].
  unfold get, modify, ret. cbn [fst snd]. split; [reflexivity|].
  exact (restore_rows_last_wins E rows (advance E 0 w) sender).
Qed.

Lemma restore_keeps_last_active_row_witness :
  fst (restore_user_states_from_database stock_env
         (boot [stored_row 3 (Some "thread_1") []; other_page_row]))
  = Ok 2%nat /\
  main_user_state
    (snd (restore_user_states_from_database stock_env
            (boot [stored_row 3 (Some "thread_1") []; other_page_row])))
    !! "user"
  = Some (restored_state other_page_row).
Proof.
  apply (restore_keeps_last_active_row stock_env
           (boot [stored_row 3 (Some "thread_1") []; other_page_row]) "user").
  reflexivity.
Defined.

(** ** Batching queue *)

Lemma queue_get_del_ne (k k' : string) (q : queue) :
  k <> k' -> queue_get k (queue_del k' q) = queue_get k q.
Proof.
  intros Hne. induction q as [|[k0 b] q IH]; [reflexivity|].
  cbn [queue_del queue_get].
  destruct (String.eqb k' k0) eqn:Hdel.
  - apply String.eqb_eq in Hdel. subst k0.
    destruct (String.eqb k k') eqn:Hget; [|exact IH].
    apply String.eqb_eq in Hget. contradiction.
  - cbn [queue_get]. now rewrite IH.
Qed.

(** One batch of the sweep: the turn runs, and the batch is deleted
    when the turn returned. *)
Lemma sweep_step (W : Type)
      (handler : string -> received_message -> string -> M W handler_result)
      (k m page : string) (s : queue * W) :
  try_except
    (let! _ := call_handler W handler k m page in set_queue W (queue_del k))
    (fun _ => ret tt) s
  = match handler k (text_message m) page (snd s) with
    | (Ok _, w') => (Ok tt, (queue_del k (fst s), w'))
    | (Raise _, w') => (Ok tt, (fst s, w'))
    | (Diverge, w') => (Diverge, (fst s, w'))
    end.
Proof.
  unfold try_except, bind, call_handler, set_queue, ret.
  now destruct (handler k (text_message m) page (snd s)) as [[r|e|] w'].
Qed.

Lemma sweep_batches_untouched (W : Type)
      (handler : string -> received_message -> string -> M W handler_result)
      (k : string) (picked : queue) :
  queue_get k picked = None ->
  forall s, queue_get k (fst (snd (sweep_batches W handler picked s)))
            = queue_get k (fst s).
Proof.
  induction picked as [|[k' b] rest IH]; intros Hk s; [reflexivity|].
  cbn [queue_get] in Hk. destruct (String.eqb k k') eqn:Hkk; [discriminate|].
  apply String.eqb_neq in Hkk.
  cbn [sweep_batches]. unfold bind at 1. rewrite sweep_step.
  destruct (handler k' _ _ (snd s)) as [[r|e|] w']; cbn [fst snd].
  - rewrite (IH Hk). cbn [fst]. now apply queue_get_del_ne.
  - now rewrite (IH Hk).
  - reflexivity.
Qed.

(** X14.  A round of the sweep leaves alone every batch it did not
    pick: one that holds more than one message, or that is less than two
    seconds old, is in the queue afterwards as it was before. *)
Theorem sweep_leaves_other_batches
    (W : Type) (clock : W -> Z * W)
    (handler : string -> received_message -> string -> M W handler_result)
    (q : queue) (w : W) (k : string) :
  queue_get k (users_to_analyze (fst (clock w) / 1000) q) = None ->
  queue_get k (fst (snd (sweep W clock handler (q, w)))) = queue_get k q.
Proof.
  intros Hk. unfold sweep, bind, read_clock, get_queue. cbn [fst snd].
  destruct (clock w) as [t w0]. cbn [fst snd] in *.
  now rewrite (sweep_batches_untouched W handler k _ Hk).
Qed.

Lemma sweep_leaves_other_batches_witness :
  queue_get "user"
    (fst (snd (sweep World (world_clock stock_env)
                 (get_assistant_response new_lead_gate stock_env 0)
                 (one_pending, boot []))))
  = queue_get "user" one_pending.
Proof.
  apply (sweep_leaves_other_batches World (world_clock stock_env)
           (get_assistant_response new_lead_gate stock_env 0)
           one_pending (boot []) "user").
  reflexivity.
Defined.

(** X15.  The sweep retries what failed.  When one batch is due, its
    single message is handed to the turn processor under the mapped page
    id; the batch is deleted when the turn returned and kept when the
    turn raised, so that the next round hands it over again. *)
Theorem sweep_retries_failed_turn
    (W : Type) (clock : W -> Z * W)
    (handler : string -> received_message -> string -> M W handler_result)
    (q : queue) (w : W) (k m : string) (b : batch) :
  users_to_analyze (fst (clock w) / 1000) q = [(k, b)] ->
  user_messages_queue b = [m] ->
  sweep W clock handler (q, w)
  = match handler k (text_message m) (map_page_id (batch_page_id b))
                  (snd (clock w)) with
    | (Ok _, w') => (Ok tt, (queue_del k q, w'))
    | (Raise _, w') => (Ok tt, (q, w'))
    | (Diverge, w') => (Diverge, (q, w'))
    end.
Proof.
  intros Hdue Hm. unfold sweep, bind at 1, read_clock. cbn [fst snd].
  destruct (clock w) as [t w0]. cbn [fst snd] in *.
  unfold bind at 1, get_queue. cbn [fst]. rewrite Hdue.
  cbn [sweep_batches]. unfold bind at 1. rewrite sweep_step, Hm.
  cbn [head default fst snd]. unfold id.
  now destruct (handler k (text_message m) _ w0) as [[r|e|] w'].
Qed.

Lemma sweep_retries_failed_turn_witness :
  sweep World (world_clock send_down_env)
        (get_assistant_response new_lead_gate send_down_env 0)
        (one_pending, three_seconds_on)
  = match get_assistant_response new_lead_gate send_down_env 0 "user"
            (text_message "hi")
            (map_page_id "page")
            (snd (world_clock send_down_env three_seconds_on)) with
    | (Ok _, w') => (Ok tt, (queue_del "user" one_pending, w'))
    | (Raise _, w') => (Ok tt, (one_pending, w'))
    | (Diverge, w') => (Diverge, (one_pending, w'))
    end.
Proof.
  apply (sweep_retries_failed_turn World (world_clock send_down_env)
           (get_assistant_response new_lead_gate send_down_env 0)
           one_pending three_seconds_on "user" "hi"
           {| batch_page_id := "page"; user_messages_queue := ["hi"];
              first_message_time := 1000 |}).
  - reflexivity.
  - reflexivity.
Defined.

(** ** Batching queue: the size of a waiting batch *)

Lemma pending_below_del (n : nat) (k : string) (q : queue) :
  pending_below n q = true -> pending_below n (queue_del k q) = true.
Proof.
  unfold pending_below. induction q as [|[k' b] q IH]; [reflexivity|].
  cbn [forallb queue_del snd]. intros H. apply andb_true_iff in H as [Hb Hq].
  destruct (String.eqb k k'); [now apply IH|].
  cbn [forallb snd]. now rewrite Hb, IH.
Qed.

Lemma pending_below_set (n : nat) (k : string) (b : batch) (q : queue) :
  pending_below n q = true -> waiting n b = true ->
  pending_below n (queue_set k b q) = true.
Proof.
  unfold pending_below. intros Hq Hb.
  induction q as [|[k' b'] q IH]; cbn [queue_set forallb snd].
  - now rewrite Hb.
  - cbn [forallb snd] in Hq. apply andb_true_iff in Hq as [Hb' Hq].
    destruct (String.eqb k k'); cbn [forallb snd].
    + now rewrite Hb, Hq.
    + now rewrite Hb', IH.
Qed.


Section QueueBound.
Variable W : Type.
Variable clock : W -> Z * W.
Variable handler : string -> received_message -> string -> M W handler_result.

Lemma flush_single_batches_queue (page : string) (keys : list string) :
  forall s,
    fst (snd (flush_single_batches W handler keys page s)) = fst s \/
    exists k, fst (snd (flush_single_batches W handler keys page s))
              = queue_del k (fst s).
Proof.
  induction keys as [|k keys IH]; intros [q w]; cbn [flush_single_batches];
    [now left|].
  destruct (queue_get k q) as [b|] eqn:Hget.
  - rewrite (bind_ok _ _ _ _ _ (queue_item_spec W k b q w Hget)).
    destruct (user_messages_queue b) as [|m [|m' rest]]; try apply IH.
    right. exists k.
    rewrite (bind_ok (set_queue W (queue_del k)) _ (q, w) (queue_del k q, w) tt
                     eq_refl).
    unfold bind.
    destruct (hand_over W handler k m page (queue_del k q, w)) as [[[]|e|] s'] eqn:Hh;
      apply hand_over_queue in Hh; exact Hh.
  - rewrite (bind_raise _ _ _ _ _ (queue_item_missing W k q w Hget)). now left.
Qed.

Lemma turn_handed_over_queue (senderPSID merged page : string) (s : queue * W) :
  fst (snd (turn_handed_over W handler senderPSID merged page s)) = fst s.
Proof.
  unfold turn_handed_over.
  destruct (hand_over W handler senderPSID merged page s) as [[[]|e|] s'] eqn:Hh;
    apply hand_over_queue in Hh; exact Hh.
Qed.

Lemma merge_keeps_below (senderPSID : string) (received : received_message)
      (page_id : string) (max_time : Z) (n : nat) (q : queue) (w : W) :
  pending_below n q = true ->
  pending_below n
    (fst (snd (merge_user_messages W clock handler senderPSID received page_id
                                   max_time n (q, w)))) = true.
Proof.
  intros Hq. unfold merge_user_messages. cbv zeta.
  set (page := map_page_id page_id).
  rewrite (bind_ok _ _ _ _ _ (read_clock_spec W clock q w)).
  set (t0 := fst (clock w)). set (w0 := snd (clock w)).
  destruct (text received) as [m|]; [|exact Hq].
  set (b := batch_after_add page (t0 / 1000) m (queue_get senderPSID q)).
  assert (Hrun : forall h, try_except
            (let! _ := add_message W senderPSID page m (t0 / 1000) in
             let! _ := flush_batch W clock handler senderPSID page (t0 / 1000) max_time n in
             flush_single W clock handler senderPSID page (t0 / 1000) max_time n)
            h (q, w0)
          = try_except
            (let! _ := flush_batch W clock handler senderPSID page (t0 / 1000) max_time n in
             flush_single W clock handler senderPSID page (t0 / 1000) max_time n)
            h (queue_set senderPSID b q, w0)).
  { intros h. unfold try_except.
    now rewrite (bind_ok _ _ _ _ _ (add_message_spec W senderPSID page m (t0 / 1000) q w0)). }
  rewrite Hrun. clear Hrun.
  assert (Hget : queue_get senderPSID (queue_set senderPSID b q) = Some b)
    by apply queue_get_set_eq.
  assert (Hone : (1 <= length (user_messages_queue b))%nat).
  { pose proof (batch_after_add_nonempty page (t0 / 1000) m (queue_get senderPSID q)) as Hne.
    fold b in Hne. destruct (user_messages_queue b); [congruence|cbn; lia]. }
  destruct (le_lt_dec n (length (user_messages_queue b))) as [Hfull|Hroom].
  - (* the batch is full *)
    rewrite (flushed_call_ends W clock handler senderPSID _ page _ _ _
               (queue_set senderPSID b q) w0 _ _
               (flush_batch_full W clock handler senderPSID page _ _ _ b _ w0
                  Hget Hfull)).
    rewrite turn_handed_over_queue. cbn [fst].
    rewrite queue_del_set. now apply pending_below_del.
  - assert (Hb : waiting n b = true).
    { unfold waiting. apply andb_true_iff. split;
        [now apply Nat.leb_le|now apply Nat.ltb_lt]. }
    assert (Hq1 : pending_below n (queue_set senderPSID b q) = true)
      by now apply pending_below_set.
    destruct (Z_lt_le_dec (fst (clock w0) - 1000 * (t0 / 1000)) max_time)
      as [Hearly|Hlate].
    + (* the window is open *)
      unfold try_except.
      rewrite (bind_ok _ _ _ _ _
                 (flush_batch_early W clock handler senderPSID page _ _ _ b _ w0
                    Hget Hroom Hearly)).
      set (w1 := snd (clock w0)).
      unfold flush_single.
      rewrite (bind_ok _ _ _ _ _ (queue_item_spec W senderPSID b _ w1 Hget)).
      rewrite (proj2 (Nat.ltb_lt _ _) Hroom).
      rewrite (bind_ok _ _ _ _ _
                 (bind_ok _ _ _ _ _ (read_clock_spec W clock _ w1))).
      unfold ret at 1.
      destruct (max_time <=? fst (clock w1) - 1000 * (t0 / 1000))%Z;
        [|exact Hq1].
      unfold bind at 1, get_queue. cbn [fst snd].
      match goal with
      | |- context [flush_single_batches W handler ?keys page ?s] =>
        destruct (flush_single_batches_queue page keys s) as [Hsame|[k Hdel]];
          destruct (flush_single_batches W handler keys page s) as [[[]|e|] s']
      end; cbn [fst snd] in *; unfold ret; cbn [fst snd];
        rewrite ?Hsame, ?Hdel; try exact Hq1; now apply pending_below_del.
    + (* the window has closed *)
      rewrite (flushed_call_ends W clock handler senderPSID _ page _ _ _
                 (queue_set senderPSID b q) (snd (clock w0)) _ _
                 (flush_batch_late W clock handler senderPSID page _ _ _ b _ w0
                    Hget Hroom Hlate)).
      rewrite turn_handed_over_queue. cbn [fst].
      rewrite queue_del_set. now apply pending_below_del.
Qed.

Lemma sweep_batches_keeps_below (n : nat) (picked : queue) :
  forall s, pending_below n (fst s) = true ->
            pending_below n (fst (snd (sweep_batches W handler picked s))) = true.
Proof.
  induction picked as [|[k b] rest IH]; intros s Hs; [exact Hs|].
  cbn [sweep_batches]. unfold bind at 1. rewrite sweep_step.
  destruct (handler k _ _ (snd s)) as [[r|e|] w']; cbn [fst snd].
  - apply IH. cbn [fst]. now apply pending_below_del.
  - now apply IH.
  - exact Hs.
Qed.

(** X16.  A batch left waiting holds at least one message and fewer
    than [max_messages]: neither a call of [merge_user_messages] nor a
    round of the sweep leaves a full or an empty batch in the queue.
    With the default limit of 2 every waiting batch holds exactly one
    message. *)
Theorem pending_batches_stay_below_limit
    (senderPSID : string) (received : received_message) (page_id : string)
    (max_time : Z) (max_messages : nat) (q : queue) (w : W) :
  pending_below max_messages q = true ->
  pending_below max_messages
    (fst (snd (merge_user_messages W clock handler senderPSID received page_id
                                   max_time max_messages (q, w)))) = true /\
  pending_below max_messages (fst (snd (sweep W clock handler (q, w)))) = true.
Proof.
  intros Hq. split; [now apply merge_keeps_below|].
  unfold sweep, bind, read_clock, get_queue. cbn [fst snd].
  destruct (clock w) as [t w0]. cbn [fst snd].
  now apply sweep_batches_keeps_below.
Qed.
End QueueBound.

Lemma pending_batches_stay_below_limit_witness :
  pending_below 2
    (fst (snd (on_message new_lead_gate stock_env 0 "user"
                 (text_message "there") "page" (one_pending, boot [])))) = true /\
  pending_below 2
    (fst (snd (sweep World (world_clock stock_env)
                 (get_assistant_response new_lead_gate stock_env 0)
                 (one_pending, boot [])))) = true.
Proof.
  apply (pending_batches_stay_below_limit World (world_clock stock_env)
           (get_assistant_response new_lead_gate stock_env 0) "user"
           (text_message "there") "page" 30000 2 one_pending (boot [])).
  reflexivity.
Defined.

(** ** Turn processor: failures and first turns *)

Lemma end_conversation_post_fails (E : Env) (sender page : string) (w : World)
      (e : exn) :
  post_message E (tick w) sender page (end_message_for E page) = Raises e ->
  end_conversation E sender page w
  = (Raise e, advance E 0 (log (Sent sender page (end_message_for E page)) w)).
Proof.
  intros Hpost. unfold end_conversation. cbv zeta. apply bind_raise.
  unfold callSendAPI, request. cbn [reply_text]. now rewrite Hpost.
Qed.

(** X17.  When the POST of the end message fails, the exception leaves
    [get_assistant_response]: the turn stays counted, the counter is not
    reset, the stop flag is not set and nothing is saved, so the user's
    next message meets the limit again. *)
Theorem failed_end_message_keeps_count
    (G : GateEnv) (E : Env) (fuel : nat) (senderPSID page_id user_message : string)
    (msg : received_message) (w w1 w2 : World) (st : UserState) (e : exn) :
  let page := map_page_id page_id in
  text msg = Some user_message ->
  check_duplicate E (mid msg) w = (Ok false, w1) ->
  load_user_state G E senderPSID page user_message w1 = (Ok tt, w2) ->
  user_state w2 !! senderPSID = Some st ->
  get_max_messages E page < message_count st + 1 ->
  post_message E (tick w2) senderPSID page (end_message_for E page) = Raises e ->
  exists w',
    get_assistant_response G E fuel senderPSID msg page_id w = (Raise e, w') /\
    user_state w' !! senderPSID = Some (counted user_message st) /\
    trace w' = (trace w ++ [Sent senderPSID page (end_message_for E page)])%list.
Proof.
  intros page Htext Hdup Hload Hst Hmax Hpost.
  destruct (check_duplicate_frame _ _ _ _ _ Hdup) as (Htr1 & _).
  destruct (load_user_state_spec G E senderPSID page user_message w1)
    as (w2' & st2 & Hload' & [_ Htr2] & _).
  rewrite Hload in Hload'. inversion Hload'; subst w2'; clear Hload'.
  assert (H2 : holds w2 senderPSID st (trace w)) by (split; [exact Hst|congruence]).
  unfold get_assistant_response. fold page.
  rewrite (bind_ok _ _ _ _ _ Hdup), Htext, (bind_ok _ _ _ _ _ Hload).
  unfold process_text.
  destruct (count_turn_holds senderPSID user_message w2 st (trace w)
              (let! st := getitem WholeUserState senderPSID in
               if (get_max_messages E page <? message_count st)%Z
               then end_conversation E senderPSID page
               else answer_turn E fuel senderPSID page user_message) H2)
    as (w3 & -> & [Hst3 Htr3] & Htick).
  rewrite (bind_ok _ _ _ _ _ (getitem_whole _ _ _ Hst3)).
  destruct (counted_fields user_message st) as (Hcount & _).
  rewrite Hcount, (proj2 (Z.ltb_lt _ _) Hmax).
  rewrite <- Htick in Hpost.
  rewrite (end_conversation_post_fails E senderPSID page w3 e Hpost).
  eexists. split; [reflexivity|]. split; [exact Hst3|].
  cbn. now rewrite Htr3.
Qed.

Lemma failed_end_message_keeps_count_witness :
  exists w',
    get_assistant_response new_lead_gate send_down_env 0 "user" hi "page"
                           (boot [stored_row 10 (Some "thread_1") []])
    = (Raise ExternalError, w') /\
    user_state w' !! "user"
    = Some (counted "hi" (state_of_row "page" (stored_row 10 (Some "thread_1") []))) /\
    trace w' = ([] ++ [Sent "user" "page" "Goodbye"])%list.
Proof.
  eapply (failed_end_message_keeps_count new_lead_gate send_down_env 0 "user"
            "page" "hi" hi (boot [stored_row 10 (Some "thread_1") []])).
  - reflexivity.
  - reflexivity.
  - vm_compute. reflexivity.
  - vm_compute. reflexivity.
  - vm_compute. reflexivity.
  - reflexivity.
Defined.

Lemma load_user_state_fresh (G : GateEnv) (E : Env) (sender page um : string)
      (w : World) :
  fetch_user_row sender page (user_states w) = None ->
  user_state w !! sender = None ->
  exists w', load_user_state G E sender page um w = (Ok tt, w') /\
             holds w' sender (fresh_state page um) (trace w).
Proof.
  intros Hrow Hnew.
  unfold load_user_state, try_except, bind, get_db_connection, get.
  destruct (db_connect E (tick w)).
  - cbn [advance set_clock user_states]. rewrite Hrow.
    unfold lift_answer.
    destruct (check_greeting_message G sender page) as [b|e]; cbn [of_answer].
    + unfold store_entry, modify, ret. cbn [user_state set_user_state].
      rewrite lookup_insert_eq.
      eexists. split; [reflexivity|].
      split; [cbn; apply lookup_insert_eq|reflexivity].
    + unfold ret. cbn [user_state advance set_clock]. rewrite Hnew.
      eexists. split; [reflexivity|].
      split; [cbn; apply lookup_insert_eq|reflexivity].
  - unfold ret. cbn [user_state advance set_clock]. rewrite Hnew.
    eexists. split; [reflexivity|].
    split; [cbn; apply lookup_insert_eq|reflexivity].
Qed.

(** X18.  The first text message of a sender that has neither a row for
    the page nor a dictionary in memory is counted twice: the fresh
    dictionary starts at 1 and the turn adds 1, so the turn ends with
    [message_count = 2], whatever the database and the gate answer. *)
Theorem first_turn_counts_two
    (G : GateEnv) (E : Env) (fuel : nat) (senderPSID page_id user_message : string)
    (msg : received_message) (w w1 : World) :
  let page := map_page_id page_id in
  text msg = Some user_message ->
  check_duplicate E (mid msg) w = (Ok false, w1) ->
  fetch_user_row senderPSID page (user_states w) = None ->
  user_state w !! senderPSID = None ->
  2 <= get_max_messages E page ->
  exists (st' : UserState) (w' : World),
    get_assistant_response G E fuel senderPSID msg page_id w
    = (Ok (Replied (TextReply error_message)), w') /\
    user_state w' !! senderPSID = Some st' /\
    message_count st' = 2 /\
    messages_context st' = error_entries user_message.
Proof.
  intros page Htext Hdup Hrow Hnew Hmax.
  destruct (check_duplicate_frame _ _ _ _ _ Hdup) as (Htr1 & Hus1 & Htab1 & _).
  rewrite <- Htab1 in Hrow. rewrite <- Hus1 in Hnew.
  destruct (load_user_state_fresh G E senderPSID page user_message w1 Hrow Hnew)
    as (w2 & Hload & H2).
  destruct (process_text_answer E fuel senderPSID page user_message w2 _ _ H2)
    as (st' & w' & saved & Hrun & [Hst' _] & _ & Hctx & Hcount & _);
    [cbn; lia|].
  exists st', w'.
  unfold get_assistant_response. fold page.
  rewrite (bind_ok _ _ _ _ _ Hdup), Htext, (bind_ok _ _ _ _ _ Hload), Hrun.
  split; [reflexivity|]. split; [exact Hst'|]. split; [exact Hcount|exact Hctx].
Qed.

Lemma first_turn_counts_two_witness :
  exists (st' : UserState) (w' : World),
    get_assistant_response new_lead_gate stock_env 0 "user" hi "page" (boot [])
    = (Ok (Replied (TextReply error_message)), w') /\
    user_state w' !! "user" = Some st' /\
    message_count st' = 2 /\
    messages_context st' = error_entries "hi".
Proof.
  eapply (first_turn_counts_two new_lead_gate stock_env 0 "user" "page" "hi" hi
            (boot [])).
  - reflexivity.
  - reflexivity.
  - reflexivity.
  - reflexivity.
  - vm_compute. discriminate.
Defined.

(** ** The fast handler's context *)

(** X19.  The context update of [fast_process_message] keeps at most 20
    entries, and the exchange just made is always the last two of them. *)
Theorem fast_context_keeps_latest_exchange
    (message_text : string) (ai_response : entry_content) (st : UserState) :
  (length (messages_context (fast_update_context message_text ai_response st))
   <= 20)%nat /\
  exists older,
    messages_context (fast_update_context message_text ai_response st)
    = (older ++ [{| role := "user"; content := AsText message_text |};
                 {| role := "assistant"; content := ai_response |}])%list.
Proof.
  split; [apply fast_update_context_bound|].
  unfold fast_update_context, append_context.
  cbn [messages_context set_messages_context].
  set (l := messages_context st). rewrite <- app_assoc. cbn [app].
  set (pair := [_; _]).
  destruct (20 <? length (l ++ pair))%nat eqn:Hlong;
    cbn [messages_context set_messages_context]; [|now exists l].
  apply Nat.ltb_lt in Hlong. unfold last_n.
  rewrite length_app in *. cbn [length pair] in *.
  rewrite skipn_app.
  replace (length l + 2 - 20 - length l)%nat with 0%nat by lia.
  cbn [skipn]. eexists. reflexivity.
Qed.

(** ** Conversation helper *)

Lemma conversation_texts_all (senderPSID page_id : string)
      (messages : list graph_message) :
  page_id <> "" ->
  Forall (fun m => gm_from m <> None) messages ->
  conversation_texts senderPSID page_id messages
  = Returns (map (fun m => default "" (gm_message m)) messages).
Proof.
  intros Hpage Hfrom. induction Hfrom as [|m rest Hm _ IH]; [reflexivity|].
  cbn [conversation_texts map]. unfold gm_sender.
  destruct (gm_from m) as [i|]; [|contradiction]. rewrite IH.
  destruct page_id; [contradiction|]. cbn. now rewrite orb_true_r.
Qed.

(** X20.  [get_last_message_from_conversation] does not filter by
    sender: its test [... == senderPSID or page_id] holds for every
    message as soon as the page id is not empty, so it answers the text
    of every message fetched, whoever wrote it. *)
Theorem conversation_helper_keeps_every_message
    (H : GraphEnv) (senderPSID page_id cid : string)
    (messages : list graph_message) :
  page_id <> "" ->
  conversation_id_for_user H senderPSID page_id = Returns (Some cid) ->
  cid <> "" ->
  messages_for_conversation H cid page_id = Returns (Some messages) ->
  Forall (fun m => gm_from m <> None) messages ->
  get_last_message_from_conversation H senderPSID page_id
  = Returns (Some (map (fun m => default "" (gm_message m)) messages)).
Proof.
  intros Hpage Hc Hcid Hm Hfrom. unfold get_last_message_from_conversation.
  rewrite Hc. destruct cid; [contradiction|]. simpl. rewrite Hm. simpl.
  now rewrite (conversation_texts_all _ _ _ Hpage Hfrom).
Qed.

Lemma conversation_helper_keeps_every_message_witness :
  get_last_message_from_conversation two_party_graph "someone_else" "page"
  = Returns (Some ["How can we help"; "hello"]).
Proof.
  apply (conversation_helper_keeps_every_message two_party_graph "someone_else"
           "page" "t_1"
           [{| gm_from := Some (Some "page"); gm_message := Some "How can we help" |};
            {| gm_from := Some (Some "user"); gm_message := Some "hello" |}]).
  - discriminate.
  - reflexivity.
  - discriminate.
  - reflexivity.
  - repeat constructor; discriminate.
Defined.

(** ** The turn processor and the queue always come to an end *)

(** One step of a proof that a computation ends. *)
Ltac end_step :=
  lazymatch goal with
  | |- terminates (bind _ _) => apply terminates_bind; [|intros ?]
  | |- terminates (try_except _ _) => apply terminates_try; [|intros ?]
  | |- terminates (ret _) => apply terminates_ret
  | |- terminates (raise _) => apply terminates_raise
  | |- terminates (request _ _ _) => apply terminates_request
  | |- terminates (update _ _ _) => apply terminates_update
  | |- terminates (getitem _ _) => apply terminates_getitem
  | |- terminates (if ?b then _ else _) => destruct b
  | |- terminates (match ?x with _ => _ end) => destruct x
  end.

Lemma terminates_at_once {S A} (c : M S A) :
  (forall s, exists a s', c s = (Ok a, s')) -> terminates c.
Proof. intros Hc s. destruct (Hc s) as (a & s' & ->). discriminate. Qed.

Lemma terminates_save_attempts (E : Env) (remaining attempt : nat)
      (sender : string) (st : UserState) :
  terminates (save_attempts E remaining attempt sender st).
Proof.
  intros w. destruct (save_attempts_spec E remaining attempt sender st w)
    as (ok & st' & w' & -> & _). discriminate.
Qed.

Lemma terminates_save_entry (E : Env) (sender : string) :
  terminates (save_entry E sender).
Proof.
  unfold save_entry, save_user_state_to_db.
  end_step; [end_step|]. end_step; [apply terminates_save_attempts|].
  apply terminates_at_once. intros w. unfold store_entry, modify. eauto.
Qed.

Lemma terminates_load_user_state (G : GateEnv) (E : Env) (sender page um : string) :
  terminates (load_user_state G E sender page um).
Proof.
  intros w. destruct (load_user_state_spec G E sender page um w)
    as (w' & st & -> & _). discriminate.
Qed.

Lemma terminates_process_text (E : Env) (fuel : nat) (sender page um : string) :
  terminates (process_text E fuel sender page um).
Proof.
  unfold process_text.
  end_step; [end_step|]. end_step; [end_step|]. end_step; [end_step|].
  end_step; [end_step; end_step|]. cbv zeta.
  end_step; [end_step|]. end_step.
  - unfold end_conversation, callSendAPI. cbv zeta.
    end_step; [end_step|]. end_step; [end_step|]. end_step; [end_step|].
    end_step; [apply terminates_save_entry|end_step].
  - unfold answer_turn.
    end_step.
    { intros w. rewrite get_chatgpt_response_per_user_dict. discriminate. }
    end_step; [end_step|]. end_step; [end_step|].
    end_step; [apply terminates_at_once; intros w; unfold time_time; eauto|].
    end_step; [end_step|].
    end_step.
    { end_step; [|end_step]. end_step; [end_step|]. end_step; end_step. }
    end_step; [apply terminates_save_entry|end_step].
Qed.

Lemma terminates_get_assistant_response (G : GateEnv) (E : Env) (fuel : nat)
      (sender : string) (msg : received_message) (page_id : string) :
  terminates (get_assistant_response G E fuel sender msg page_id).
Proof.
  unfold get_assistant_response. cbv zeta.
  end_step.
  { apply terminates_at_once. intros w. unfold check_duplicate, bind, get, modify, ret.
    destruct (truthy (mid msg)); [|eauto]. case_bool_decide; eauto. }
  end_step; [end_step|].
  destruct (text msg) as [um|].
  - end_step; [apply terminates_load_user_state|apply terminates_process_text].
  - unfold callSendAPI. destruct (attachments msg); (end_step; [end_step|end_step]).
Qed.

Section QueueEnds.
Variable W : Type.
Variable clock : W -> Z * W.
Variable handler : string -> received_message -> string -> M W handler_result.
Hypothesis handler_ends : forall k m page, terminates (handler k m page).

Lemma terminates_call_handler (k m page : string) :
  terminates (call_handler W handler k m page).
Proof.
  intros s. unfold call_handler. pose proof (handler_ends k (text_message m) page (snd s)).
  now destruct (handler k (text_message m) page (snd s)) as [[r|e|] w].
Qed.

Lemma terminates_hand_over (k m page : string) :
  terminates (hand_over W handler k m page).
Proof.
  unfold hand_over. destruct (truthy (Some m));
    [apply terminates_call_handler|apply terminates_ret].
Qed.

Lemma terminates_read_clock : terminates (read_clock W clock).
Proof. intros s. unfold read_clock. now destruct (clock (snd s)). Qed.

Lemma terminates_get_queue : terminates (get_queue W).
Proof. intros s. discriminate. Qed.

Lemma terminates_set_queue (f : queue -> queue) : terminates (set_queue W f).
Proof. intros s. discriminate. Qed.

Lemma terminates_queue_item (k : string) : terminates (queue_item W k).
Proof.
  unfold queue_item. end_step; [apply terminates_get_queue|]. end_step; end_step.
Qed.

Lemma terminates_flush_single_batches (keys : list string) (page : string) :
  terminates (flush_single_batches W handler keys page).
Proof.
  induction keys as [|k keys IH]; cbn [flush_single_batches]; [end_step|].
  end_step; [apply terminates_queue_item|].
  destruct (user_messages_queue a) as [|m [|m' rest]]; try exact IH.
  end_step; [apply terminates_set_queue|].
  end_step; [apply terminates_hand_over|end_step].
Qed.

Lemma merge_user_messages_answers (senderPSID : string)
      (received : received_message) (page_id : string) (max_time : Z)
      (max_messages : nat) (s : queue * W) :
  fst (merge_user_messages W clock handler senderPSID received page_id
                           max_time max_messages s) = Ok tt.
Proof.
  unfold merge_user_messages. cbv zeta. unfold bind at 1, read_clock.
  destruct (clock (snd s)) as [t w0].
  destruct (text received) as [m|]; [|reflexivity].
  apply guarded_answers.
  apply bind_ends_at.
  - unfold add_message.
    apply bind_ends_at; [discriminate|]. intros q.
    end_step.
    { destruct (queue_get senderPSID q); [end_step|apply terminates_set_queue]. }
    end_step; [apply terminates_queue_item|apply terminates_set_queue].
  - intros _. end_step.
    + unfold flush_batch.
      end_step; [apply terminates_queue_item|].
      end_step.
      { end_step; [end_step|].
        end_step; [apply terminates_read_clock|end_step]. }
      end_step; [|end_step]. cbv zeta.
      end_step; [apply terminates_set_queue|apply terminates_hand_over].
    + unfold flush_single.
      end_step; [apply terminates_queue_item|].
      end_step.
      { end_step; [|end_step].
        end_step; [apply terminates_read_clock|end_step]. }
      end_step; [|end_step].
      end_step; [apply terminates_get_queue|apply terminates_flush_single_batches].
Qed.

Lemma sweep_batches_answers (picked : queue) :
  forall s, fst (sweep_batches W handler picked s) = Ok tt.
Proof.
  induction picked as [|[k b] rest IH]; intros s; [reflexivity|].
  cbn [sweep_batches]. unfold bind at 1. rewrite sweep_step.
  pose proof (handler_ends k (text_message (default "" (head (user_messages_queue b))))
                (map_page_id (batch_page_id b)) (snd s)) as Hends.
  destruct (handler k _ _ (snd s)) as [[r|e|] w']; cbn in Hends;
    [apply IH|apply IH|congruence].
Qed.

Lemma sweep_answers (s : queue * W) : fst (sweep W clock handler s) = Ok tt.
Proof.
  unfold sweep, bind, read_clock, get_queue.
  destruct (clock (snd s)) as [t w0]. cbn [fst snd]. apply sweep_batches_answers.
Qed.
End QueueEnds.

(** X21.  The webhook is always acknowledged.  A call of
    [merge_user_messages] in front of [get_assistant_response], and a
    round of the sweep, come to an end and answer without an exception,
    whatever the AI service, the database, the Graph API and the send
    endpoint do: every failure of a turn is caught on the way. *)
Theorem webhook_always_acknowledged
    (G : GateEnv) (E : Env) (fuel : nat) (senderPSID : string)
    (received : received_message) (page_id : string) (q : queue) (w : World) :
  fst (on_message G E fuel senderPSID received page_id (q, w)) = Ok tt /\
  fst (sweep World (world_clock E) (get_assistant_response G E fuel) (q, w))
  = Ok tt.
Proof.
  split.
  - apply merge_user_messages_answers. intros k m page.
    apply terminates_get_assistant_response.
  - apply sweep_answers. intros k m page.
    apply terminates_get_assistant_response.
Qed.

(** X22.  A turn fails only when the send endpoint does: if every POST
    to the sender returns, [get_assistant_response] returns a result,
    whatever the database, the Graph API, the AI service and the
    sentiment analysis answer. *)
Theorem turn_fails_only_with_the_post
    (G : GateEnv) (E : Env) (fuel : nat) (senderPSID : string)
    (msg : received_message) (page_id : string) (w : World) :
  (forall k body,
     post_message E k senderPSID (map_page_id page_id) body = Returns tt) ->
  exists (result : handler_result) (w' : World),
    get_assistant_response G E fuel senderPSID msg page_id w = (Ok result, w').
Proof.
  intros Hpost. unfold get_assistant_response. cbv zeta.
  set (page := map_page_id page_id) in *.
  destruct (check_duplicate E (mid msg) w) as [r w1] eqn:Hdup.
  assert (Hok : exists b, r = Ok b).
  { revert Hdup. unfold check_duplicate, bind, get, modify, ret.
    destruct (truthy (mid msg)); [|intros [= <- _]; eauto].
    case_bool_decide; intros [= <- _]; eauto. }
  destruct Hok as [b ->]. rewrite (bind_ok _ _ _ _ _ Hdup).
  destruct b; [unfold ret; eauto|].
  destruct (text msg) as [um|].
  - destruct (load_user_state_spec G E senderPSID page um w1)
      as (w2 & st & Hload & H2 & _).
    rewrite (bind_ok _ _ _ _ _ Hload).
    destruct (Z_lt_le_dec (get_max_messages E page) (message_count st + 1))
      as [Hend|Hgo].
    + destruct (process_text_end E fuel senderPSID page um w2 st _ H2 Hend
                  (Hpost _ _)) as (st' & w' & saved & -> & _). eauto.
    + destruct (process_text_answer E fuel senderPSID page um w2 st _ H2 Hgo)
        as (st' & w' & saved & -> & _). eauto.
  - unfold callSendAPI, request, bind, ret.
    destruct (attachments msg); cbn [reply_text]; rewrite Hpost; cbn; eauto.
Qed.

Lemma turn_fails_only_with_the_post_witness :
  exists (result : handler_result) (w' : World),
    get_assistant_response new_lead_gate stock_env 0 "user" hi "page" (boot [])
    = (Ok result, w').
Proof.
  apply (turn_fails_only_with_the_post new_lead_gate stock_env 0 "user" hi "page"
           (boot [])).
  intros k body. reflexivity.
Defined.

(** ** AI session manager: the turns that succeed *)

Lemma conversing_update (E : Env) (w : World) (s key : string) (st : UserState)
      (tr : list event) (f : UserState -> UserState) :
  conversing E w s key st tr ->
  exists w', update WholeUserState s f w = (Ok tt, w') /\
             conversing E w' s key (f st) tr.
Proof.
  intros [[Hst Htr] Hreg]. eexists. split; [apply (update_whole _ _ _ _ Hst)|].
  split; [split; [apply lookup_insert_eq|exact Htr]|exact Hreg].
Qed.

Lemma conversing_request {A} (E : Env) (e : event) (oracle : nat -> answer A)
      (a : A) (w : World) (s key : string) (st : UserState) (tr : list event) :
  (forall k, oracle k = Returns a) ->
  conversing E w s key st tr ->
  exists w', request E e oracle w = (Ok a, w') /\
             conversing E w' s key st (tr ++ [e]).
Proof.
  intros Ha [[Hst Htr] Hreg]. eexists. split.
  - unfold request. now rewrite Ha.
  - split; [split; [exact Hst|cbn; now rewrite Htr]|exact Hreg].
Qed.

Lemma conversing_time (E : Env) (w : World) (s key : string) (st : UserState)
      (tr : list event) :
  conversing E w s key st tr ->
  exists t w', time_time E w = (Ok t, w') /\ conversing E w' s key st tr.
Proof. intros H. eexists _, _. split; [reflexivity|exact H]. Qed.

Lemma conversing_register (E : Env) (w : World) (s key v : string)
      (st : UserState) (tr : list event) :
  conversing E w s key st tr ->
  exists w',
    (if has_global_threads E then set_thread_last_message key v else ret tt) w
    = (Ok tt, w') /\
    conversing E w' s key st tr.
Proof.
  intros [[Hst Htr] Hreg]. destruct (has_global_threads E) eqn:Hglobal.
  - destruct (Hreg eq_refl) as [ti Hti]. unfold set_thread_last_message.
    rewrite Hti. eexists. split; [reflexivity|].
    split; [split; assumption|]. intros _. cbn. rewrite lookup_insert_eq. eauto.
  - exists w. split; [reflexivity|]. split; [split; assumption|congruence].
Qed.

(** Lines 141-170 and 233-269 when the run completed and the latest
    message of the thread is the assistant's. *)
Lemma collect_reply_completed (E : Env) (s key t um reply : string)
      (check_echo : bool) (r : run) (data : list thread_message)
      (w : World) (st : UserState) (tr : list event) :
  status r = completed ->
  (forall k, messages_list E k t = Returns data) ->
  latest_assistant_text data = Some reply ->
  conversing E w s key st tr ->
  exists w',
    collect_reply E WholeUserState s key t um check_echo r w
    = (Ok (Some (TextReply (if check_echo && String.eqb um reply
                            then not_understood_message else reply))), w') /\
    conversing E w' s key
      (append_context {| role := "assistant"; content := AsText reply |}
                      (set_last_message reply st))
      (tr ++ [MessagesList t]).
Proof.
  intros Hdone Hlist Hlatest H0. unfold collect_reply. rewrite Hdone.
  destruct (conversing_request E (MessagesList t) (fun k => messages_list E k t)
              data w s key st tr Hlist H0) as (w1 & R1 & H1).
  rewrite (bind_ok _ _ _ _ _ R1), Hlatest.
  destruct (conversing_update E w1 s key _ _ (set_last_message reply) H1)
    as (w2 & R2 & H2).
  rewrite (bind_ok _ _ _ _ _ R2).
  destruct (conversing_register E w2 s key reply _ _ H2) as (w3 & R3 & H3).
  rewrite (bind_ok _ _ _ _ _ R3).
  destruct (conversing_update E w3 s key _ _
              (append_context {| role := "assistant"; content := AsText reply |})
              H3) as (w4 & R4 & H4).
  rewrite (bind_ok _ _ _ _ _ R4).
  exists w4. split; [|exact H4].
  now destruct (check_echo && String.eqb um reply).
Qed.

Lemma poll_new_thread_run_completed (E : Env) (fuel : nat) (t : string)
      (r : run) (w : World) :
  status r = completed -> poll_new_thread_run E fuel t r w = (Ok r, w).
Proof. intros H. destruct fuel; cbn [poll_new_thread_run]; now rewrite H. Qed.

Lemma await_active_run_idle (E : Env) (fuel : nat) (t : string)
      (runs : list run) (w : World) (s key : string) (st : UserState)
      (tr : list event) :
  (forall k, runs_list E k t = Returns runs) ->
  List.find (fun r => is_active (status r)) runs = None ->
  conversing E w s key st tr ->
  exists w', await_active_run E fuel t w = (Ok None, w') /\
             conversing E w' s key st (tr ++ [RunsList t]).
Proof.
  intros Hruns Hidle H0.
  destruct (conversing_request E (RunsList t) (fun k => runs_list E k t) runs
              w s key st tr Hruns H0) as (w1 & R1 & H1).
  exists w1. split; [|exact H1].
  unfold await_active_run. rewrite (bind_ok _ _ _ _ _ R1). now rewrite Hidle.
Qed.

Lemma poll_run_settled (E : Env) (fuel : nat) (t : string) (start : Z)
      (r : run) (w : World) :
  is_active (status r) = false -> poll_run E fuel t start r w = (Ok r, w).
Proof. intros H. destruct fuel; cbn [poll_run]; now rewrite H. Qed.

(** A turn on a stored thread up to the creation of the handler's own
    run: the user's message is in the context and in the thread, the run
    was created and the clock read. *)
Lemma stored_thread_run_created
    (E : Env) (fuel : nat) (user_message senderPSID page : string) (w : World)
    (st : UserState) (a t : string) (runs : list run) (r : run) :
  user_state w !! senderPSID = Some st ->
  chosen_thread E w senderPSID page st = Some t ->
  t <> "" ->
  (forall k, assistants_retrieve E k (get_assistant_id E page) = Returns a) ->
  (forall k, runs_list E k t = Returns runs) ->
  List.find (fun r => is_active (status r)) runs = None ->
  (forall k, messages_create E k t user_message = Returns tt) ->
  (forall k, runs_create E k t a = Returns r) ->
  exists (st1 : UserState) (w1 : World),
    get_chatgpt_response E fuel user_message WholeUserState senderPSID page w
    = try_except
        (let! r := poll_run E fuel t (now w1) r in
         let! reply := collect_reply E WholeUserState senderPSID
                         (senderPSID +:+ "_" +:+ page) t user_message true r in
         match reply with
         | Some respond => ret respond
         | None => ret (TextReply error_message)
         end)
        (fun _ => ret (TextReply error_message)) w1 /\
    conversing E w1 senderPSID (senderPSID +:+ "_" +:+ page) st1
      (trace w ++ [AssistantsRetrieve (get_assistant_id E page); RunsList t;
                   MessagesCreate t user_message; RunsCreate t a]) /\
    thread_id st1 = Some t /\
    messages_context st1
    = (messages_context st
         ++ [{| role := "user"; content := AsText user_message |}])%list.
Proof.
  intros Hst Hchosen Ht Hretr Hruns Hidle Hmsg Hrun.
  unfold get_chatgpt_response.
  set (aid := get_assistant_id E page) in *.
  set (key := senderPSID +:+ "_" +:+ page).
  (* the assistant *)
  destruct (request_holds E (AssistantsRetrieve aid)
              (fun k => assistants_retrieve E k aid) w senderPSID st (trace w))
    as (w1 & R1 & [Hst1 Htr1]); [now split|].
  rewrite Hretr in R1. cbn [of_answer] in R1.
  (* the thread *)
  assert (Hch1 : chosen_thread E w1 senderPSID page st = Some t).
  { rewrite <- Hchosen. unfold chosen_thread.
    replace (user_threads w1) with (user_threads w); [reflexivity|].
    unfold request in R1. now inversion R1. }
  destruct (settle_thread E senderPSID page aid
              (let! st := getitem WholeUserState senderPSID in
               match thread_id st with
               | None => new_thread E fuel WholeUserState user_message senderPSID
                                    page key aid a
               | Some user_thread_id =>
                 existing_thread E fuel WholeUserState user_message senderPSID
                                 key a user_thread_id
               end) w1 st Hst1)
    as (w2 & st2 & R2 & Hst2 & Hth2 & Hctx2 & Hreg2 & Htr2 & _).
  fold key aid in R2, Hreg2. rewrite Hch1 in Hth2, Hreg2.
  assert (H2 : conversing E w2 senderPSID key st2
                 (trace w ++ [AssistantsRetrieve aid])).
  { split; [split; [exact Hst2|congruence]|]. apply Hreg2.
    destruct t; [contradiction|reflexivity]. }
  (* the turn *)
  destruct (conversing_update E w2 senderPSID key _ _
              (append_context {| role := "user"; content := AsText user_message |})
              H2) as (w3 & R3 & H3).
  destruct (await_active_run_idle E fuel t runs w3 senderPSID key _ _
              Hruns Hidle H3) as (w4 & R4 & H4).
  destruct (conversing_request E (MessagesCreate t user_message)
              (fun k => messages_create E k t user_message) tt
              w4 senderPSID key _ _ Hmsg H4) as (w5 & R5 & H5).
  destruct (conversing_request E (RunsCreate t a)
              (fun k => runs_create E k t a) r
              w5 senderPSID key _ _ Hrun H5) as (w6 & R6 & H6).
  set (w7 := advance E 0 w6).
  assert (R7 : time_time E w6 = (Ok (now w7), w7)) by reflexivity.
  pose proof (H6 : conversing E w7 senderPSID key _ _) as H7.
  eexists _, w7. split; [|split; [|split]].
  - apply try_except_at.
    unfold load_client_assistant. rewrite (bind_ok _ _ _ _ _ R1).
    rewrite (bind_ok _ _ _ _ _ (getitem_whole _ _ _ Hst1)).
    rewrite R2.
    rewrite (bind_ok _ _ _ _ _ (getitem_whole _ _ _ Hst2)), Hth2.
    unfold existing_thread.
    rewrite (bind_ok _ _ _ _ _ R3), (bind_ok _ _ _ _ _ R4),
      (bind_ok _ _ _ _ _ R5), (bind_ok _ _ _ _ _ R6), (bind_ok _ _ _ _ _ R7).
    reflexivity.
  - rewrite <- !app_assoc in H7. exact H7.
  - exact Hth2.
  - cbn. now rewrite Hctx2.
Qed.

(** A turn on a stored thread up to the end of the handler's own run:
    the user's message is in the context and in the thread, and the run
    was created and is not active. *)
Lemma stored_thread_turn_submitted
    (E : Env) (fuel : nat) (user_message senderPSID page : string) (w : World)
    (st : UserState) (a t : string) (runs : list run) (r : run) :
  user_state w !! senderPSID = Some st ->
  chosen_thread E w senderPSID page st = Some t ->
  t <> "" ->
  (forall k, assistants_retrieve E k (get_assistant_id E page) = Returns a) ->
  (forall k, runs_list E k t = Returns runs) ->
  List.find (fun r => is_active (status r)) runs = None ->
  (forall k, messages_create E k t user_message = Returns tt) ->
  (forall k, runs_create E k t a = Returns r) ->
  is_active (status r) = false ->
  exists (st1 : UserState) (w1 : World),
    get_chatgpt_response E fuel user_message WholeUserState senderPSID page w
    = try_except
        (let! reply := collect_reply E WholeUserState senderPSID
                         (senderPSID +:+ "_" +:+ page) t user_message true r in
         match reply with
         | Some respond => ret respond
         | None => ret (TextReply error_message)
         end)
        (fun _ => ret (TextReply error_message)) w1 /\
    conversing E w1 senderPSID (senderPSID +:+ "_" +:+ page) st1
      (trace w ++ [AssistantsRetrieve (get_assistant_id E page); RunsList t;
                   MessagesCreate t user_message; RunsCreate t a]) /\
    thread_id st1 = Some t /\
    messages_context st1
    = (messages_context st
         ++ [{| role := "user"; content := AsText user_message |}])%list.
Proof.
  intros Hst Hchosen Ht Hretr Hruns Hidle Hmsg Hrun Hsettled.
  destruct (stored_thread_run_created E fuel user_message senderPSID page w
              st a t runs r Hst Hchosen Ht Hretr Hruns Hidle Hmsg Hrun)
    as (st1 & w1 & -> & H1 & Hth1 & Hctx1).
  exists st1, w1. split; [|auto]. apply try_except_at.
  now rewrite (bind_ok _ _ _ _ _ (poll_run_settled E fuel t (now w1) r w1 Hsettled)).
Qed.

(** X23.  A turn on a stored thread, when the AI service answers.  With
    no run active on the thread and the handler's own run completed at
    once, [get_chatgpt_response] asks for exactly five things (the
    assistant, the runs of the thread, a new message, a new run, the
    latest message), answers the text of the latest assistant message
    (or the fixed "not understood" reply when that text repeats the
    user's), and records the exchange: the user's message and the
    assistant's text are appended to [messages_context], and
    [last_message] is the assistant's text. *)
Theorem stored_thread_turn_replies
    (E : Env) (fuel : nat) (user_message senderPSID page : string) (w : World)
    (st : UserState) (a t reply : string) (runs : list run) (r : run)
    (data : list thread_message) :
  user_state w !! senderPSID = Some st ->
  chosen_thread E w senderPSID page st = Some t ->
  t <> "" ->
  (forall k, assistants_retrieve E k (get_assistant_id E page) = Returns a) ->
  (forall k, runs_list E k t = Returns runs) ->
  List.find (fun r => is_active (status r)) runs = None ->
  (forall k, messages_create E k t user_message = Returns tt) ->
  (forall k, runs_create E k t a = Returns r) ->
  status r = completed ->
  (forall k, messages_list E k t = Returns data) ->
  latest_assistant_text data = Some reply ->
  exists (st' : UserState) (w' : World),
    get_chatgpt_response E fuel user_message WholeUserState senderPSID page w
    = (Ok (TextReply (if String.eqb user_message reply
                      then not_understood_message else reply)), w') /\
    user_state w' !! senderPSID = Some st' /\
    thread_id st' = Some t /\
    last_message st' = reply /\
    messages_context st'
    = (messages_context st
         ++ [{| role := "user"; content := AsText user_message |};
             {| role := "assistant"; content := AsText reply |}])%list /\
    trace w'
    = (trace w ++ [AssistantsRetrieve (get_assistant_id E page); RunsList t;
                   MessagesCreate t user_message; RunsCreate t a;
                   MessagesList t])%list.
Proof.
  intros Hst Hchosen Ht Hretr Hruns Hidle Hmsg Hrun Hdone Hlist Hlatest.
  destruct (stored_thread_turn_submitted E fuel user_message senderPSID page w
              st a t runs r Hst Hchosen Ht Hretr Hruns Hidle Hmsg Hrun)
    as (st1 & w1 & -> & H1 & Hth1 & Hctx1); [now rewrite Hdone|].
  destruct (collect_reply_completed E senderPSID _ t user_message reply true r
              data w1 _ _ Hdone Hlist Hlatest H1) as (w2 & R2 & [[Hst2 Htr2] _]).
  unfold try_except. rewrite (bind_ok _ _ _ _ _ R2). unfold ret.
  eexists _, w2. split; [reflexivity|]. split; [exact Hst2|].
  cbn. rewrite Hth1, Hctx1, Htr2, <- !app_assoc. auto.
Qed.

Lemma stored_thread_turn_replies_witness :
  exists (st' : UserState) (w' : World),
    get_chatgpt_response stock_env 50 "hi" WholeUserState "user" "page" resumed
    = (Ok (TextReply "Hello!"), w') /\
    user_state w' !! "user" = Some st' /\
    thread_id st' = Some "thread_1" /\
    last_message st' = "Hello!" /\
    messages_context st'
    = (messages_context (stored_state 3 (Some "thread_1") [])
         ++ [{| role := "user"; content := AsText "hi" |};
             {| role := "assistant"; content := AsText "Hello!" |}])%list /\
    trace w'
    = (trace resumed ++ [AssistantsRetrieve "asst_1"; RunsList "thread_1";
                         MessagesCreate "thread_1" "hi";
                         RunsCreate "thread_1" "asst_1";
                         MessagesList "thread_1"])%list.
Proof.
  apply (stored_thread_turn_replies stock_env 50 "hi" "user" "page" resumed
           (stored_state 3 (Some "thread_1") []) "asst_1" "thread_1" "Hello!" []
           {| rid := "run_1"; status := completed; created_at := 0 |}
           [{| tm_role := "assistant"; tm_content := ["Hello!"] |}]).
  - vm_compute. reflexivity.
  - vm_compute. reflexivity.
  - discriminate.
  - intros k. reflexivity.
  - intros k. reflexivity.
  - reflexivity.
  - intros k. reflexivity.
  - intros k. reflexivity.
  - reflexivity.
  - intros k. reflexivity.
  - reflexivity.
Defined.

(** The loop of lines 220-230 on a run that is never reported
    [completed]: it ends, by a status that is not active or by the 20 s,
    with a run short of [completed]; it only polls. *)
Lemma poll_run_unfinished (E : Env) (t : string) (start : Z) (fuel : nat) :
  (forall k rid, exists r', runs_retrieve E k t rid = Returns r' /\
                            status r' <> completed) ->
  forall (r : run) (w : World),
    status r <> completed ->
    (1 <= fuel)%nat ->
    20000 < 500 * Z.of_nat fuel + (now w - start) ->
    exists (r' : run) (w' : World) (polls : list event),
      poll_run E fuel t start r w = (Ok r', w') /\
      status r' <> completed /\
      user_state w' = user_state w /\
      user_threads w' = user_threads w /\
      trace w' = (trace w ++ polls)%list /\
      forallb (is_poll t) polls = true.
Proof.
  intros Hpolls.
  induction fuel as [|fuel IH]; intros r w Hr Hfuel Hclock; [lia|].
  cbn [poll_run]. destruct (is_active (status r)) eqn:Hactive.
  2:{ exists r, w, []. rewrite app_nil_r. auto 10. }
  unfold bind at 1. unfold sleep.
  set (w1 := advance E 500 w).
  assert (Hw1 : now w + 500 <= now w1) by (subst w1; cbn; lia).
  unfold bind at 1. unfold retrieve_run, request.
  set (w2 := advance E 0 (log (RunsRetrieve t (rid r)) w1)).
  assert (Hw2 : now w1 <= now w2) by (subst w2; cbn; lia).
  destruct (Hpolls (tick w1) (rid r)) as (r1 & -> & Hr1). cbn [of_answer].
  unfold bind at 1. unfold time_time.
  set (w3 := advance E 0 w2).
  assert (Hw3 : now w2 <= now w3) by (subst w3; cbn; lia).
  assert (Htr3 : trace w3 = (trace w ++ [RunsRetrieve t (rid r)])%list)
    by reflexivity.
  destruct (20000 <? now w3 - start)%Z eqn:Hout.
  - exists r1, w3, [RunsRetrieve t (rid r)]. cbn [forallb is_poll].
    rewrite String.eqb_refl. auto 10.
  - apply Z.ltb_ge in Hout.
    destruct fuel as [|fuel'].
    + lia.
    + destruct (IH r1 w3 Hr1) as (r' & w' & polls & Hrun & Hr' & Hus & Hut & Htr & Hall);
        [lia|lia|].
      exists r', w', (RunsRetrieve t (rid r) :: polls).
      split; [exact Hrun|]. split; [exact Hr'|].
      split; [rewrite Hus; reflexivity|]. split; [rewrite Hut; reflexivity|].
      split; [rewrite Htr, Htr3, <- app_assoc; reflexivity|].
      cbn [forallb is_poll]. now rewrite String.eqb_refl.
Qed.

(** X24.  A turn whose run does not complete.  With no run active on
    the thread when the turn starts, and the handler's own run never
    reported [completed] (created or polled as failed, cancelled or
    expired, or still queued or in progress when the 20 s are over),
    [get_chatgpt_response] answers the fixed error reply without reading
    the thread: after the run is created it only polls it.  The user's
    message stays in the thread and in [messages_context], with no answer
    after it. *)
Theorem unfinished_run_gets_error_reply
    (E : Env) (fuel : nat) (user_message senderPSID page : string) (w : World)
    (st : UserState) (a t : string) (runs : list run) (r : run) :
  (42 <= fuel)%nat ->
  user_state w !! senderPSID = Some st ->
  chosen_thread E w senderPSID page st = Some t ->
  t <> "" ->
  (forall k, assistants_retrieve E k (get_assistant_id E page) = Returns a) ->
  (forall k, runs_list E k t = Returns runs) ->
  List.find (fun r => is_active (status r)) runs = None ->
  (forall k, messages_create E k t user_message = Returns tt) ->
  (forall k, runs_create E k t a = Returns r) ->
  status r <> completed ->
  (forall k rid, exists r', runs_retrieve E k t rid = Returns r' /\
                            status r' <> completed) ->
  exists (st' : UserState) (w' : World) (polls : list event),
    get_chatgpt_response E fuel user_message WholeUserState senderPSID page w
    = (Ok (TextReply error_message), w') /\
    user_state w' !! senderPSID = Some st' /\
    messages_context st'
    = (messages_context st
         ++ [{| role := "user"; content := AsText user_message |}])%list /\
    trace w'
    = (trace w ++ [AssistantsRetrieve (get_assistant_id E page); RunsList t;
                   MessagesCreate t user_message; RunsCreate t a]
         ++ polls)%list /\
    forallb (is_poll t) polls = true /\
    (is_active (status r) = false -> polls = []).
Proof.
  intros Hfuel Hst Hchosen Ht Hretr Hruns Hidle Hmsg Hrun Hshort Hpolls.
  destruct (stored_thread_run_created E fuel user_message senderPSID page w
              st a t runs r Hst Hchosen Ht Hretr Hruns Hidle Hmsg Hrun)
    as (st1 & w1 & -> & [[Hst1 Htr1] _] & _ & Hctx1).
  destruct (poll_run_unfinished E t (now w1) fuel Hpolls r w1 Hshort)
    as (r' & w' & polls & Hpoll & Hr' & Hus & _ & Htr & Hall); [lia|lia|].
  exists st1, w', polls. split; [|split; [|split; [|split; [|split]]]].
  - unfold try_except. rewrite (bind_ok _ _ _ _ _ Hpoll).
    unfold bind, collect_reply. now destruct (status r').
  - now rewrite Hus.
  - exact Hctx1.
  - rewrite Htr, Htr1, <- !app_assoc. reflexivity.
  - exact Hall.
  - intros Hsettled.
    rewrite (poll_run_settled E fuel t (now w1) r w1 Hsettled) in Hpoll.
    inversion Hpoll; subst. rewrite <- (app_nil_r (trace w')) in Htr at 1.
    now apply app_inv_head in Htr.
Qed.

Lemma unfinished_run_gets_error_reply_witness :
  exists (st' : UserState) (w' : World) (polls : list event),
    get_chatgpt_response failing_env 50 "hi" WholeUserState "user" "page" resumed
    = (Ok (TextReply error_message), w') /\
    user_state w' !! "user" = Some st' /\
    messages_context st'
    = (messages_context (stored_state 3 (Some "thread_1") [])
         ++ [{| role := "user"; content := AsText "hi" |}])%list /\
    trace w'
    = (trace resumed ++ [AssistantsRetrieve "asst_1"; RunsList "thread_1";
                         MessagesCreate "thread_1" "hi";
                         RunsCreate "thread_1" "asst_1"]
         ++ polls)%list /\
    forallb (is_poll "thread_1") polls = true /\
    (is_active queued = false -> polls = []).
Proof.
  apply (unfinished_run_gets_error_reply failing_env 50 "hi" "user" "page" resumed
           (stored_state 3 (Some "thread_1") []) "asst_1" "thread_1" []
           {| rid := "run_1"; status := queued; created_at := 0 |}).
  - lia.
  - vm_compute. reflexivity.
  - vm_compute. reflexivity.
  - discriminate.
  - intros k. reflexivity.
  - intros k. reflexivity.
  - reflexivity.
  - intros k. reflexivity.
  - intros k. reflexivity.
  - discriminate.
  - intros k rid. eexists. split; [reflexivity|discriminate].
Defined.

Lemma conversing_open (E : Env) (w : World) (s key : string) (ti : thread_info)
      (st : UserState) (tr : list event) :
  holds w s st tr ->
  exists w',
    (if has_global_threads E
     then modify (fun w => set_user_threads (<[key := ti]> (user_threads w)) w)
     else ret tt) w = (Ok tt, w') /\
    conversing E w' s key st tr.
Proof.
  intros H0. destruct (has_global_threads E) eqn:Hglobal.
  - eexists. split; [reflexivity|]. split; [exact H0|].
    intros _. cbn. rewrite lookup_insert_eq. eauto.
  - exists w. split; [reflexivity|]. split; [exact H0|congruence].
Qed.

(** The loop of lines 128-138 on a run that is completed when created
    or when first polled. *)
Lemma poll_new_thread_run_first_poll (E : Env) (fuel : nat) (t : string)
      (r done : run) (w : World) (s key : string) (st : UserState)
      (tr : list event) :
  (1 <= fuel)%nat ->
  (forall k, runs_retrieve E k t (rid r) = Returns done) ->
  status done = completed ->
  is_active (status r) = true \/ status r = completed ->
  conversing E w s key st tr ->
  exists (r' : run) (w' : World),
    poll_new_thread_run E fuel t r w = (Ok r', w') /\
    status r' = completed /\
    conversing E w' s key st (tr ++ first_poll t r).
Proof.
  intros Hfuel Hretr Hdone Hr H0. unfold first_poll.
  destruct (is_active (status r)) eqn:Hactive.
  - destruct fuel as [|fuel]; [lia|]. cbn [poll_new_thread_run].
    rewrite Hactive. unfold bind at 1. unfold sleep.
    pose proof (H0 : conversing E (advance E 500 w) s key st tr) as H1.
    destruct (conversing_request E (RunsRetrieve t (rid r))
                (fun k => runs_retrieve E k t (rid r)) done
                (advance E 500 w) s key st tr Hretr H1) as (w2 & R2 & H2).
    unfold retrieve_run. rewrite (bind_ok _ _ _ _ _ R2).
    unfold bind at 1. unfold time_time.
    pose proof (H2 : conversing E (advance E 0 w2) s key st _) as H3.
    exists done, (advance E 0 w2). split; [|split; [exact Hdone|exact H3]].
    destruct (20000 <=? now (advance E 0 w2) - 1000 * created_at done)%Z;
      [reflexivity|].
    destruct fuel; cbn [poll_new_thread_run]; now rewrite Hdone.
  - destruct Hr as [Hr|Hr]; [congruence|].
    exists r, w. rewrite app_nil_r. split; [|split; [exact Hr|exact H0]].
    destruct fuel; cbn [poll_new_thread_run]; now rewrite Hr.
Qed.

(** X25.  A first turn, when the AI service answers and the run is
    completed when created or when first polled.  Without a thread,
    [get_chatgpt_response] creates one, stores its id in the user's
    dictionary, and records three entries in [messages_context]: the
    page's greeting (or the built-in welcome) as the assistant's, the
    user's message, and the assistant's reply, which it answers as it
    is.  A run created queued or in progress is polled once before the
    reply is read. *)
Theorem first_turn_opens_thread
    (E : Env) (fuel : nat) (user_message senderPSID page : string) (w : World)
    (st : UserState) (a t reply : string) (r done : run)
    (data : list thread_message) :
  (1 <= fuel)%nat ->
  user_state w !! senderPSID = Some st ->
  chosen_thread E w senderPSID page st = None ->
  (forall k, assistants_retrieve E k (get_assistant_id E page) = Returns a) ->
  (forall k, threads_create E k = Returns t) ->
  (forall k, messages_create E k t user_message = Returns tt) ->
  (forall k, runs_create E k t a = Returns r) ->
  is_active (status r) = true \/ status r = completed ->
  (forall k, runs_retrieve E k t (rid r) = Returns done) ->
  status done = completed ->
  (forall k, messages_list E k t = Returns data) ->
  latest_assistant_text data = Some reply ->
  let welcome :=
    if truthy (get_greeting_message E page)
    then default "" (get_greeting_message E page)
    else default_welcome_message in
  exists (st' : UserState) (w' : World),
    get_chatgpt_response E fuel user_message WholeUserState senderPSID page w
    = (Ok (TextReply reply), w') /\
    user_state w' !! senderPSID = Some st' /\
    thread_id st' = Some t /\
    last_message st' = reply /\
    messages_context st'
    = (messages_context st
         ++ [{| role := "assistant"; content := AsText welcome |};
             {| role := "user"; content := AsText user_message |};
             {| role := "assistant"; content := AsText reply |}])%list /\
    trace w'
    = (trace w ++ [AssistantsRetrieve (get_assistant_id E page); ThreadsCreate;
                   MessagesCreate t user_message; RunsCreate t a]
         ++ first_poll t r ++ [MessagesList t])%list.
Proof.
  intros Hfuel Hst Hchosen Hretr Hthread Hmsg Hrun Hr Hpoll Hdone Hlist Hlatest
         welcome.
  unfold get_chatgpt_response, try_except.
  set (aid := get_assistant_id E page) in *.
  set (key := senderPSID +:+ "_" +:+ page).
  (* the assistant *)
  destruct (request_holds E (AssistantsRetrieve aid)
              (fun k => assistants_retrieve E k aid) w senderPSID st (trace w))
    as (w1 & R1 & [Hst1 Htr1]); [now split|].
  rewrite Hretr in R1. cbn [of_answer] in R1.
  unfold load_client_assistant. rewrite (bind_ok _ _ _ _ _ R1).
  rewrite (bind_ok _ _ _ _ _ (getitem_whole _ _ _ Hst1)).
  (* no thread *)
  assert (Hch1 : chosen_thread E w1 senderPSID page st = None).
  { rewrite <- Hchosen. unfold chosen_thread.
    replace (user_threads w1) with (user_threads w); [reflexivity|].
    unfold request in R1. now inversion R1. }
  match goal with
  | |- context [bind ?c (fun x => bind (@?d x) (fun _ => ?k)) w1] =>
    destruct (settle_thread E senderPSID page aid k w1 st Hst1)
      as (w2 & st2 & R2 & Hst2 & Hth2 & Hctx2 & _ & Htr2 & _)
  end.
  fold key aid in R2. rewrite R2. rewrite Hch1 in Hth2.
  rewrite (bind_ok _ _ _ _ _ (getitem_whole _ _ _ Hst2)), Hth2.
  assert (H2 : holds w2 senderPSID st2 (trace w ++ [AssistantsRetrieve aid]))
    by (split; [exact Hst2|congruence]).
  (* the new thread *)
  unfold new_thread.
  destruct (request_holds E ThreadsCreate (threads_create E) w2 senderPSID _ _ H2)
    as (w3 & R3 & H3).
  rewrite Hthread in R3. cbn [of_answer] in R3. rewrite (bind_ok _ _ _ _ _ R3).
  destruct (update_holds w3 senderPSID _ _ (set_thread_id (Some t)) H3)
    as (w4 & R4 & H4 & _).
  rewrite (bind_ok _ _ _ _ _ R4).
  destruct (conversing_open E w4 senderPSID key
              {| ti_thread_id := Some t; ti_assistant_id := Some aid;
                 ti_last_message := None |} _ _ H4) as (w5 & R5 & H5).
  rewrite (bind_ok _ _ _ _ _ R5). cbv zeta. fold welcome.
  destruct (conversing_update E w5 senderPSID key _ _
              (append_context {| role := "assistant"; content := AsText welcome |})
              H5) as (w6 & R6 & H6).
  rewrite (bind_ok _ _ _ _ _ R6).
  destruct (conversing_request E (MessagesCreate t user_message)
              (fun k => messages_create E k t user_message) tt
              w6 senderPSID key _ _ Hmsg H6) as (w7 & R7 & H7).
  rewrite (bind_ok _ _ _ _ _ R7).
  destruct (conversing_update E w7 senderPSID key _ _
              (append_context {| role := "user"; content := AsText user_message |})
              H7) as (w8 & R8 & H8).
  rewrite (bind_ok _ _ _ _ _ R8).
  destruct (conversing_request E (RunsCreate t a)
              (fun k => runs_create E k t a) r
              w8 senderPSID key _ _ Hrun H8) as (w9 & R9 & H9).
  rewrite (bind_ok _ _ _ _ _ R9).
  destruct (poll_new_thread_run_first_poll E fuel t r done w9 senderPSID key _ _
              Hfuel Hpoll Hdone Hr H9) as (r' & w10 & R10 & Hdone' & H10).
  rewrite (bind_ok _ _ _ _ _ R10).
  destruct (collect_reply_completed E senderPSID key t user_message reply false r'
              data w10 _ _ Hdone' Hlist Hlatest H10)
    as (w11 & R11 & [[Hst11 Htr11] _]).
  rewrite (bind_ok _ _ _ _ _ R11). unfold ret.
  eexists _, w11. split; [reflexivity|]. split; [exact Hst11|].
  cbn. rewrite Hctx2, Htr11, <- !app_assoc. auto.
Qed.

Lemma first_turn_opens_thread_witness :
  exists (st' : UserState) (w' : World),
    get_chatgpt_response slow_start_env 50 "hi" WholeUserState "user" "page"
                         newcomer
    = (Ok (TextReply "Hello!"), w') /\
    user_state w' !! "user" = Some st' /\
    thread_id st' = Some "thread_2" /\
    last_message st' = "Hello!" /\
    messages_context st'
    = (messages_context (fresh_state "page" "hi")
         ++ [{| role := "assistant"; content := AsText "Welcome" |};
             {| role := "user"; content := AsText "hi" |};
             {| role := "assistant"; content := AsText "Hello!" |}])%list /\
    trace w'
    = (trace newcomer ++ [AssistantsRetrieve "asst_1"; ThreadsCreate;
                          MessagesCreate "thread_2" "hi";
                          RunsCreate "thread_2" "asst_1"]
         ++ [RunsRetrieve "thread_2" "run_1"] ++ [MessagesList "thread_2"])%list.
Proof.
  apply (first_turn_opens_thread slow_start_env 50 "hi" "user" "page" newcomer
           (fresh_state "page" "hi") "asst_1" "thread_2" "Hello!"
           {| rid := "run_1"; status := queued; created_at := 0 |}
           {| rid := "run_1"; status := completed; created_at := 0 |}
           [{| tm_role := "assistant"; tm_content := ["Hello!"] |}]).
  - lia.
  - vm_compute. reflexivity.
  - vm_compute. reflexivity.
  - intros k. reflexivity.
  - intros k. reflexivity.
  - intros k. reflexivity.
  - intros k. reflexivity.
  - left. reflexivity.
  - intros k. reflexivity.
  - reflexivity.
  - intros k. reflexivity.
  - reflexivity.
Defined.

(** ** A turn of a stored conversation, from row to row *)

Lemma save_entry_reachable (E : Env) (w : World) (s : string) (st : UserState) :
  user_state w !! s = Some st ->
  db_connect E (tick w) = true ->
  exists (t : Z) (w' : World),
    save_entry E s w = (Ok tt, w') /\
    user_state w' !! s = Some (set_last_message_time (Some (IsoTime t)) st) /\
    fetch_user_row s (page_id st) (user_states w')
    = Some {| sender_id := s;
              columns := saved_columns (set_last_message_time (Some (IsoTime t)) st) |}.
Proof.
  intros Hst Hup. unfold save_entry.
  rewrite (bind_ok _ _ _ _ _ (getitem_whole _ _ _ Hst)).
  unfold save_user_state_to_db. cbn [save_attempts].
  unfold bind, get_db_connection. rewrite Hup. cbn [fst snd].
  unfold get, time_time, modify, ret, store_entry, modify. cbn [fst snd].
  eexists _, _. split; [reflexivity|].
  cbn [user_state user_states log set_user_states set_user_state advance set_clock].
  split; [apply lookup_insert_eq|].
  set (st' := set_last_message_time _ st).
  change (page_id st) with (page_id st').
  destruct (user_exists s (user_states w)) eqn:Hexists.
  - now rewrite (fetch_update_rows _ _ _ Hexists).
  - now rewrite (fetch_insert_row _ _ _ Hexists).
Qed.

Lemma answer_turn_written (E : Env) (fuel : nat) (sender page um : string)
      (w : World) (st : UserState) (tr : list event) :
  (forall k, db_connect E k = true) ->
  holds w sender st tr ->
  exists (st' : UserState) (w' : World),
    answer_turn E fuel sender page um w
    = (Ok (Replied (TextReply error_message)), w') /\
    user_state w' !! sender = Some st' /\
    fetch_user_row sender (page_id st) (user_states w')
    = Some {| sender_id := sender; columns := saved_columns st' |} /\
    message_count st' = message_count st /\
    messages_context st' = (messages_context st ++ error_entries um)%list.
Proof.
  intros Hup H0. unfold answer_turn.
  destruct (get_chatgpt_response_holds E fuel um sender sender page w st tr H0)
    as (w1 & R1 & H1).
  rewrite (bind_ok _ _ _ _ _ R1).
  destruct (update_holds w1 sender _ _
              (append_context {| role := "user"; content := AsText um |}) H1)
    as (w2 & R2 & H2 & _).
  rewrite (bind_ok _ _ _ _ _ R2).
  destruct (update_holds w2 sender _ _
              (append_context {| role := "assistant";
                                 content := AsResponse (TextReply error_message) |}) H2)
    as (w3 & R3 & H3 & _).
  rewrite (bind_ok _ _ _ _ _ R3).
  destruct (time_holds E w3 sender _ _ H3) as (t & w4 & R4 & H4).
  rewrite (bind_ok _ _ _ _ _ R4).
  destruct (update_holds w4 sender _ _
              (set_last_message_time (Some (UnixTime (t / 1000)))) H4)
    as (w5 & R5 & H5 & _).
  rewrite (bind_ok _ _ _ _ _ R5).
  destruct (sentiment_holds E um sender w5 _ _ H5) as (w6 & r & R6 & [H6 _]).
  rewrite (bind_ok _ _ _ _ _ R6).
  destruct (save_entry_reachable E w6 sender _ H6 (Hup _))
    as (t' & w7 & R7 & Hst7 & Hrow7).
  rewrite (bind_ok _ _ _ _ _ R7).
  eexists _, w7. split; [reflexivity|]. split; [exact Hst7|].
  split; [|unfold error_entries; destruct r; cbn; rewrite <- app_assoc; auto].
  rewrite <- Hrow7. now destruct r.
Qed.

Lemma end_conversation_written (E : Env) (sender page : string) (w : World)
      (st : UserState) (tr : list event) :
  (forall k, db_connect E k = true) ->
  holds w sender st tr ->
  post_message E (tick w) sender page (end_message_for E page) = Returns tt ->
  exists (st' : UserState) (w' : World),
    end_conversation E sender page w = (Ok END_OF_CONVERSATION, w') /\
    user_state w' !! sender = Some st' /\
    fetch_user_row sender (page_id st) (user_states w')
    = Some {| sender_id := sender; columns := saved_columns st' |} /\
    message_count st' = 0 /\
    messages_context st' = messages_context st.
Proof.
  intros Hup H0 Hpost. unfold end_conversation, callSendAPI.
  destruct (request_holds E (Sent sender page (end_message_for E page))
              (fun k => post_message E k sender page (end_message_for E page))
              w sender st tr H0) as (w1 & R1 & H1).
  cbn beta in R1. rewrite Hpost in R1. cbn [of_answer reply_text] in R1 |- *.
  rewrite (bind_ok _ _ _ _ _ R1).
  destruct (update_holds w1 sender _ _ (set_message_count 0) H1)
    as (w2 & R2 & H2 & _).
  rewrite (bind_ok _ _ _ _ _ R2).
  destruct (update_holds w2 sender _ _ (set_has_stop_message true) H2)
    as (w3 & R3 & [H3 _] & _).
  rewrite (bind_ok _ _ _ _ _ R3).
  destruct (save_entry_reachable E w3 sender _ H3 (Hup _))
    as (t' & w4 & R4 & Hst4 & Hrow4).
  rewrite (bind_ok _ _ _ _ _ R4).
  eexists _, w4. split; [reflexivity|]. split; [exact Hst4|].
  split; [exact Hrow4|]. cbn. auto.
Qed.

Lemma counted_page (um : string) (st : UserState) :
  page_id (counted um st) = page_id st.
Proof. unfold counted. cbn. now destruct (has_stop_message st). Qed.

(** X26.  A text turn of a conversation that has a row, with the database
    reachable and the POST answering: the count of the row is the one the
    turn continues (it is ended and reset to 0 once the count passes the
    page's limit, and answered otherwise), and when the turn returns the
    row fetched for the sender and the page holds the dictionary left in
    memory, with the rank stored as NULL. *)
Theorem stored_turn_is_written_back
    (G : GateEnv) (E : Env) (fuel : nat) (senderPSID page_id user_message : string)
    (msg : received_message) (row : Row) (w w1 : World) :
  let page := map_page_id page_id in
  let count := message_count (columns row) + 1 in
  let over := (get_max_messages E page <? count)%Z in
  (forall k, db_connect E k = true) ->
  (forall k, post_message E k senderPSID page (end_message_for E page) = Returns tt) ->
  text msg = Some user_message ->
  check_duplicate E (mid msg) w = (Ok false, w1) ->
  fetch_user_row senderPSID page (user_states w) = Some row ->
  exists (st' : UserState) (w' : World),
    get_assistant_response G E fuel senderPSID msg page_id w
    = (Ok (if over then END_OF_CONVERSATION
           else Replied (TextReply error_message)), w') /\
    user_state w' !! senderPSID = Some st' /\
    fetch_user_row senderPSID page (user_states w')
    = Some {| sender_id := senderPSID; columns := set_rank None st' |} /\
    message_count st' = (if over then 0 else count) /\
    messages_context st'
    = (if over then messages_context (columns row)
       else messages_context (columns row) ++ error_entries user_message)%list.
Proof.
  intros page count over Hup Hpost Htext Hdup Hrow.
  destruct (check_duplicate_frame _ _ _ _ _ Hdup) as (_ & _ & Htab1 & _).
  rewrite <- Htab1 in Hrow.
  destruct (load_user_state_row G E senderPSID page user_message w1 row
              (Hup _) Hrow) as (w2 & Hload & H2 & _).
  unfold get_assistant_response. fold page.
  rewrite (bind_ok _ _ _ _ _ Hdup), Htext, (bind_ok _ _ _ _ _ Hload).
  unfold process_text.
  destruct (count_turn_holds senderPSID user_message w2 _ _
              (let! st := getitem WholeUserState senderPSID in
               if (get_max_messages E page <? message_count st)%Z
               then end_conversation E senderPSID page
               else answer_turn E fuel senderPSID page user_message) H2)
    as (w3 & -> & H3 & _).
  rewrite (bind_ok _ _ _ _ _ (getitem_holds _ _ _ _ H3)).
  destruct (counted_fields user_message (state_of_row page row))
    as (Hc & _ & Hctx & _).
  pose proof (counted_page user_message (state_of_row page row)) as Hpage.
  cbn in Hpage.
  rewrite Hc. change (message_count (state_of_row page row) + 1) with count.
  fold over. destruct over.
  - destruct (end_conversation_written E senderPSID page w3 _ _ Hup H3 (Hpost _))
      as (st' & w' & R & Hst' & Hrow' & Hcount & Hctx').
    exists st', w'. rewrite Hpage in Hrow'.
    split; [exact R|]. split; [exact Hst'|]. split; [exact Hrow'|].
    split; [exact Hcount|]. now rewrite Hctx', Hctx.
  - destruct (answer_turn_written E fuel senderPSID page user_message w3 _ _ Hup H3)
      as (st' & w' & R & Hst' & Hrow' & Hcount & Hctx').
    exists st', w'. rewrite Hpage in Hrow'.
    split; [exact R|]. split; [exact Hst'|]. split; [exact Hrow'|].
    split; [now rewrite Hcount, Hc|]. now rewrite Hctx', Hctx.
Qed.

Lemma stored_turn_is_written_back_witness :
  exists (st' : UserState) (w' : World),
    get_assistant_response new_lead_gate stock_env 0 "user" hi "page"
      (boot [stored_row 3 (Some "thread_1") []])
    = (Ok (Replied (TextReply error_message)), w') /\
    user_state w' !! "user" = Some st' /\
    fetch_user_row "user" "page" (user_states w')
    = Some {| sender_id := "user"; columns := set_rank None st' |} /\
    message_count st' = 4 /\
    messages_context st' = error_entries "hi".
Proof.
  apply (stored_turn_is_written_back new_lead_gate stock_env 0 "user" "page" "hi"
           hi (stored_row 3 (Some "thread_1") [])
           (boot [stored_row 3 (Some "thread_1") []])
           (boot [stored_row 3 (Some "thread_1") []])).
  - intros k. reflexivity.
  - intros k. reflexivity.
  - reflexivity.
  - reflexivity.
  - reflexivity.
Defined.

(** ** Batching queue: the flush rule *)

Lemma str_app_assoc (a b c : string) : (a +:+ b) +:+ c = a +:+ b +:+ c.
Proof.
  induction a as [|x a IH]; [reflexivity|].
  change (String x ((a +:+ b) +:+ c) = String x (a +:+ b +:+ c)).
  now rewrite IH.
Qed.

(** [sep.join] puts the separator between consecutive items, in the
    order of the list. *)
Lemma join_snoc (sep x : string) (l : list string) :
  l <> [] -> join sep (l ++ [x]) = join sep l +:+ sep +:+ x.
Proof.
  induction l as [|y l IH]; [congruence|]. intros _.
  destruct l as [|z l]; [reflexivity|].
  change (join sep ((y :: z :: l) ++ [x]))
    with (y +:+ sep +:+ join sep ((z :: l) ++ [x])).
  rewrite IH by discriminate.
  change (join sep (y :: z :: l)) with (y +:+ sep +:+ join sep (z :: l)).
  now rewrite !str_app_assoc.
Qed.




Section Flush.
Variable W : Type.
Variable clock : W -> Z * W.
Variable handler : string -> received_message -> string -> M W handler_result.

(** The guarded call of lines 299-304 and 336-342, with the handler of
    the enclosing [try] applied to what it raises. *)
Lemma turn_handed_over_spec (k txt page : string) (q : queue) (w : W) :
  turn_handed_over W handler k txt page (q, w)
  = match txt with
    | "" => (Ok tt, (q, w))
    | _ =>
      match handler k (text_message txt) page w with
      | (Diverge, w') => (Diverge, (q, w'))
      | (_, w') => (Ok tt, (q, w'))
      end
    end.
Proof.
  unfold turn_handed_over, hand_over, call_handler. destruct txt as [|c txt].
  - reflexivity.
  - cbn [truthy fst snd].
    now destruct (handler k (text_message (String c txt)) page w) as [[a|e|] w'].
Qed.

(** Lines 308-310 when the clock has left the window: the loop of lines
    311-342 runs. *)
Lemma flush_single_late (senderPSID page : string) (t max_time : Z)
      (max_messages : nat) (b : batch) (q : queue) (w : W) :
  queue_get senderPSID q = Some b ->
  (length (user_messages_queue b) < max_messages)%nat ->
  max_time <= fst (clock w) - 1000 * t ->
  flush_single W clock handler senderPSID page t max_time max_messages (q, w)
  = flush_single_batches W handler (map fst q) page (q, snd (clock w)).
Proof.
  intros Hget Hlen Htime. unfold flush_single.
  rewrite (bind_ok _ _ _ _ _ (queue_item_spec W _ _ _ w Hget)).
  rewrite (proj2 (Nat.ltb_lt _ _) Hlen).
  unfold bind at 1. unfold bind at 1. rewrite (read_clock_spec W clock).
  unfold ret at 1. rewrite (proj2 (Z.leb_le _ _) Htime). reflexivity.
Qed.

(** The loop stops at the first batch of one message: the batch is
    deleted and handed over, and advancing the iterator raises. *)
Lemma flush_single_batches_first (k x page : string) (first : batch)
      (rest : queue) (w : W) :
  user_messages_queue first = [x] ->
  try_except
    (flush_single_batches W handler (map fst ((k, first) :: rest)) page)
    (fun _ => ret tt) ((k, first) :: rest, w)
  = turn_handed_over W handler k x page (queue_del k ((k, first) :: rest), w).
Proof.
  intros Hx. cbn [map fst flush_single_batches].
  assert (Hget : queue_get k ((k, first) :: rest) = Some first).
  { cbn. now rewrite String.eqb_refl. }
  unfold try_except.
  rewrite (bind_ok _ _ _ _ _ (queue_item_spec W _ _ _ w Hget)), Hx.
  unfold bind at 1. cbn [set_queue fst snd]. unfold turn_handed_over, bind.
  destruct (hand_over W handler k x page (queue_del k ((k, first) :: rest), w))
    as [[[]|e|] s']; reflexivity.
Qed.
End Flush.



(** X27.  The late check of [merge_user_messages] (lines 308-342) runs
    over the whole dictionary.  When another user's batch of one message
    is first in the queue and the 30 s of the call pass between its two
    checks, the call of [senderPSID] runs the turn of that other user,
    with the page id of the caller, deletes that user's batch and leaves
    the caller's own message waiting. *)
Theorem late_check_hands_over_first_batch
    (G : GateEnv) (E : Env) (fuel : nat) (w : World)
    (senderPSID m page_id k x : string) (received : received_message)
    (first : batch) (rest : queue) :
  text received = Some m ->
  queue_get senderPSID ((k, first) :: rest) = None ->
  user_messages_queue first = [x] ->
  x <> "" ->
  let page := map_page_id page_id in
  let w0 := advance E 0 w in
  let w1 := advance E 0 w0 in
  let w2 := advance E 0 w1 in
  let stamp := now w0 / 1000 in
  now w1 - 1000 * stamp < 30000 ->
  30000 <= now w2 - 1000 * stamp ->
  let run := on_message G E fuel senderPSID received page_id
                        ((k, first) :: rest, w) in
  let turn := get_assistant_response G E fuel k (text_message x) page w2 in
  snd (snd run) = snd turn /\
  (fst run = Diverge <-> fst turn = Diverge) /\
  queue_get k (fst (snd run)) = None /\
  queue_get senderPSID (fst (snd run))
  = Some {| batch_page_id := page; user_messages_queue := [m];
            first_message_time := stamp |}.
Proof.
  intros Htext Hnew Hx Hne page w0 w1 w2 stamp H1 H2 run turn.
  set (q := (k, first) :: rest) in *.
  set (b := {| batch_page_id := page; user_messages_queue := [m];
               first_message_time := stamp |}).
  assert (Hneq : String.eqb senderPSID k = false).
  { subst q. cbn in Hnew. now destruct (String.eqb senderPSID k). }
  assert (Hq1 : queue_set senderPSID b q = (k, first) :: queue_set senderPSID b rest).
  { subst q. cbn. now rewrite Hneq. }
  assert (Hget : queue_get senderPSID (queue_set senderPSID b q) = Some b)
    by apply queue_get_set_eq.
  assert (Hcount : (length (user_messages_queue b) < 2)%nat)
    by (unfold b; cbn; lia).
  assert (Hrun : run = turn_handed_over World (get_assistant_response G E fuel)
                         k x page (queue_del k (queue_set senderPSID b q), w2)).
  { unfold run, on_message, merge_user_messages. fold page.
    rewrite (bind_ok _ _ _ _ _ (read_clock_spec World (world_clock E) q w)).
    rewrite Htext. change (fst (world_clock E w)) with (now w0).
    change (snd (world_clock E w)) with w0. fold stamp.
    unfold try_except.
    rewrite (bind_ok _ _ _ _ _
               (add_message_spec World senderPSID page m stamp q w0)).
    rewrite Hnew. cbn [batch_after_add]. fold b.
    rewrite (bind_ok _ _ _ _ _
               (flush_batch_early World (world_clock E)
                  (get_assistant_response G E fuel) senderPSID page _ _ _ b _
                  w0 Hget Hcount H1)).
    change (snd (world_clock E w0)) with w1.
    rewrite (flush_single_late World (world_clock E)
               (get_assistant_response G E fuel) senderPSID page _ _ _ b _
               w1 Hget Hcount H2).
    change (snd (world_clock E w1)) with w2.
    rewrite Hq1.
    exact (flush_single_batches_first World (get_assistant_response G E fuel)
             k x page first (queue_set senderPSID b rest) w2 Hx). }
  rewrite Hrun, turn_handed_over_spec.
  destruct x as [|c x]; [congruence|]. fold turn.
  assert (Hkept : queue_get senderPSID (queue_del k (queue_set senderPSID b q))
                  = Some b).
  { rewrite queue_get_del_ne by (now apply String.eqb_neq). exact Hget. }
  destruct turn as [[a|e|] w']; cbn [fst snd];
    (split; [reflexivity|]); (split; [split; congruence|]);
    (split; [apply queue_get_del|exact Hkept]).
Qed.

Lemma late_check_hands_over_first_batch_witness :
  let run := on_message new_lead_gate stalled_env 0 "other"
                        (text_message "hello") "page_b" (one_pending, boot []) in
  let w2 := advance stalled_env 0
              (advance stalled_env 0 (advance stalled_env 0 (boot []))) in
  let turn := get_assistant_response new_lead_gate stalled_env 0 "user"
                                     (text_message "hi") "page_b" w2 in
  snd (snd run) = snd turn /\
  (fst run = Diverge <-> fst turn = Diverge) /\
  queue_get "user" (fst (snd run)) = None /\
  queue_get "other" (fst (snd run))
  = Some {| batch_page_id := "page_b"; user_messages_queue := ["hello"];
            first_message_time := 1000 |}.
Proof.
  apply (late_check_hands_over_first_batch new_lead_gate stalled_env 0 (boot [])
           "other" "hello" "page_b" "user" "hi" (text_message "hello")
           {| batch_page_id := "page"; user_messages_queue := ["hi"];
              first_message_time := 1000 |} []).
  - reflexivity.
  - reflexivity.
  - reflexivity.
  - discriminate.
  - vm_compute. reflexivity.
  - vm_compute. discriminate.
Defined.
